(** * Springfield / city pipeline: a shallow embedding of
      [week3d1_helper.py] and [week3d1_helper_general.py]

    The two Python modules fetch a Wikipedia disambiguation page, parse the
    bulleted entries of its "United States" section, resolve coordinates
    through the MediaWiki API, join the points to the US state polygons and
    count the places per state.

    Python values are modelled as follows.
    - [str] is a sequence of Unicode code points: [pystr := list N].
    - [float] is IEEE binary64: [spec_float] with precision 53 and
      exponent bound 1024, computed with the operations of [SpecFloat].
    - exceptions are values of [exn]; a computation that may raise returns
      a [result]; code that also touches the file system, the network or
      the console is a function of a [world].
    - what the external libraries decide (parsing a decimal literal into a
      float, Unicode upper-casing, decoding a shapefile, point-in-polygon,
      reprojection, the answers of the HTTP servers) is gathered in the
      class [Externals]. *)

From Stdlib Require Import List Bool Arith NArith ZArith Lia.
From Stdlib Require Import Ascii String DecimalString.
From Stdlib Require Import QArith Qabs.
From Stdlib Require Import Permutation Sorted.
From Stdlib Require Import Floats.SpecFloat.
Import ListNotations.
Close Scope Q_scope.
Open Scope nat_scope.

Set Implicit Arguments.

(* ================================================================== *)
(** ** Python strings *)
(* ================================================================== *)

Definition char := N.
Definition pystr := list char.

(** The code point of an ASCII character, and a literal as a [pystr]. *)
Definition chr (a : ascii) : char := N_of_ascii a.
Definition str (s : string) : pystr := map chr (list_ascii_of_string s).

Definition char_eqb (a b : char) : bool := N.eqb a b.
Definition str_eqb (a b : pystr) : bool :=
  if list_eq_dec N.eq_dec a b then true else false.

(** [c.isspace()] for one code point: the white-space table of CPython
    ([_PyUnicode_IsWhitespace]). *)
Definition isspace (c : char) : bool :=
  ((9 <=? c) && (c <=? 13) || (28 <=? c) && (c <=? 32)
   || (c =? 133) || (c =? 160) || (c =? 5760)
   || (8192 <=? c) && (c <=? 8202)
   || (c =? 8232) || (c =? 8233) || (c =? 8239) || (c =? 8287)
   || (c =? 12288))%N.

Fixpoint lstrip (s : pystr) : pystr :=
  match s with
  | c :: s' => if isspace c then lstrip s' else s
  | [] => []
  end.

Definition rstrip (s : pystr) : pystr := rev (lstrip (rev s)).

(** [s.strip()] *)
Definition strip (s : pystr) : pystr := rstrip (lstrip s).

(** [s.startswith(p)] *)
Fixpoint startswith (p s : pystr) : bool :=
  match p, s with
  | [], _ => true
  | a :: p', b :: s' => char_eqb a b && startswith p' s'
  | _ :: _, [] => false
  end.

(** [sub in s] for strings *)
Fixpoint contains (sub s : pystr) : bool :=
  startswith sub s ||
  match s with
  | [] => false
  | _ :: s' => contains sub s'
  end.

(** [c in s] for a one-character string [c] *)
Definition char_in (c : char) (s : pystr) : bool := existsb (char_eqb c) s.

(** [s.split(c)] for a one-character separator: the pieces between the
    occurrences of [c]; never the empty list. *)
Fixpoint split (c : char) (s : pystr) : list pystr :=
  match s with
  | [] => [[]]
  | a :: s' =>
      if char_eqb a c then [] :: split c s'
      else match split c s' with
           | piece :: pieces => (a :: piece) :: pieces
           | [] => [[a]]
           end
  end.

(** [s.split(c, 1)]: at most one cut, at the first occurrence of [c]. *)
Fixpoint split1 (c : char) (s : pystr) : list pystr :=
  match s with
  | [] => [[]]
  | a :: s' =>
      if char_eqb a c then [[]; s']
      else match split1 c s' with
           | piece :: pieces => (a :: piece) :: pieces
           | [] => [[a]]
           end
  end.

(** ASCII-range case mapping, used for the literals of a pattern compiled
    with [re.IGNORECASE]. *)
Definition ascii_lower (c : char) : char :=
  if ((65 <=? c) && (c <=? 90))%N then (c + 32)%N else c.
Definition ascii_upper (c : char) : char :=
  if ((97 <=? c) && (c <=? 122))%N then (c - 32)%N else c.

(* ================================================================== *)
(** ** Exceptions *)
(* ================================================================== *)

Inductive exn :=
| KeyError | IndexError | ValueError
| RequestException
| FileExistsError | PermissionError | NotADirectoryError | IsADirectoryError
| DriverError.

Inductive result (A : Type) :=
| Ok (a : A)
| Raise (e : exn).
Arguments Ok {A} a.
Arguments Raise {A} e.

Definition rbind {A B} (r : result A) (k : A -> result B) : result B :=
  match r with
  | Ok a => k a
  | Raise e => Raise e
  end.

Declare Scope result_scope.
Delimit Scope result_scope with result.
Notation "x <- e ;; k" := (rbind e (fun x => k))
  (at level 61, e at next level, right associativity) : result_scope.

(** [l[0]] and the unpacking [a, b = l] *)
Definition item0 {A} (l : list A) : result A :=
  match l with
  | x :: _ => Ok x
  | [] => Raise IndexError
  end.
Definition unpack2 {A} (l : list A) : result (A * A) :=
  match l with
  | [a; b] => Ok (a, b)
  | _ => Raise ValueError
  end.

(* ================================================================== *)
(** ** Regular expressions

    The two patterns of the source are built from literals, greedy
    repetitions of a character class and capture groups.  They are run by
    a backtracking matcher in continuation style, as [re] does: a greedy
    repetition first takes as many characters as it can and gives them
    back one at a time while the rest of the pattern fails. *)
(* ================================================================== *)

Section Regex.
Variable A : Type.

(** A literal; [same] compares a pattern character with a text one. *)
Fixpoint re_lit (same : char -> char -> bool) (p : pystr) (s : pystr)
         (k : pystr -> option A) : option A :=
  match p with
  | [] => k s
  | a :: p' =>
      match s with
      | b :: s' => if same a b then re_lit same p' s' k else None
      | [] => None
      end
  end.

(** A greedy starred character class inside a capture group; the
    continuation gets the group and the rest of the text. *)
Fixpoint re_star (cls : char -> bool) (s : pystr)
         (k : pystr -> pystr -> option A) : option A :=
  match s with
  | c :: s' =>
      if cls c then
        match re_star cls s' (fun g r => k (c :: g) r) with
        | Some a => Some a
        | None => k [] s
        end
      else k [] s
  | [] => k [] []
  end.

(** The same with one character at least (the greedy plus). *)
Definition re_plus (cls : char -> bool) (s : pystr)
           (k : pystr -> pystr -> option A) : option A :=
  match s with
  | c :: s' =>
      if cls c then re_star cls s' (fun g r => k (c :: g) r) else None
  | [] => None
  end.

(** [re.search]: the match at the leftmost position that has one. *)
Fixpoint re_search (m : pystr -> option A) (s : pystr) : option A :=
  match m s with
  | Some a => Some a
  | None =>
      match s with
      | [] => None
      | _ :: s' => re_search m s'
      end
  end.
End Regex.

(** The link pattern of the parser: two opening square brackets, a group
    of one or more characters other than a closing bracket, two closing
    brackets.  [search_link line] is [match.group(1)] of [re.search]. *)
Definition link_pattern (s : pystr) : option pystr :=
  re_lit char_eqb (str "[[") s (fun s1 =>
  re_plus (fun c => negb (char_eqb c (chr "]"))) s1 (fun g1 s2 =>
  re_lit char_eqb (str "]]") s2 (fun _ => Some g1))).

Definition search_link (line : pystr) : option pystr :=
  re_search link_pattern line.

(* ================================================================== *)
(** ** Parser state *)
(* ================================================================== *)

Record CandidateEntry := {
  title : pystr;
  city : pystr;
  state : pystr
}.

(** How an iteration of a [for] loop ends: it goes on to the next element
    ([continue] or the end of the body) or leaves the loop ([break]). *)
Inductive flow := Next | Break.

Record parser_state := {
  entries : list CandidateEntry;   (* the list being appended to *)
  in_us_section : bool
}.

(* ================================================================== *)
(** ** Floats *)
(* ================================================================== *)

Definition float := spec_float.
Definition prec : Z := 53.
Definition emax : Z := 1024.

Definition fadd : float -> float -> float := SFadd prec emax.
Definition fdiv : float -> float -> float := SFdiv prec emax.
Definition fneg : float -> float := SFopp.

(** The float of a Python [int], as in [x / 60]. *)
Definition float_of_Z (z : Z) : float := binary_normalize prec emax z 0 false.

(** The exact value of a finite float. *)
Definition float_to_Q (x : float) : option Q :=
  match x with
  | S754_zero _ => Some 0%Q
  | S754_finite s m e =>
      let v := (inject_Z (Zpos m) * (2 ^ e))%Q in
      Some (if s then (- v)%Q else v)
  | _ => None
  end.

(** [x] is within [eps] of the rational [q]. *)
Definition approx (x : float) (q eps : Q) : Prop :=
  match float_to_Q x with
  | Some v => (Qabs (v - q) <= eps)%Q
  | None => False
  end.

(** Decimal digits, and the integer a string of digits denotes. *)
Definition is_digit (c : char) : bool := ((48 <=? c) && (c <=? 57))%N.
Definition decimal (ds : pystr) : Z :=
  fold_left (fun acc c => (10 * acc + (Z.of_N c - 48))%Z) ds 0%Z.

(* ================================================================== *)
(** ** Data model *)
(* ================================================================== *)

(** One row of the table returned by [get_coordinates_batch]. *)
Record ResolvedPlace := {
  rp_title : pystr;
  rp_city : pystr;
  rp_state : pystr;
  rp_latitude : float;
  rp_longitude : float;
  rp_url : pystr
}.

(** The JSON answer of the MediaWiki query API.  A key that may be absent
    from a JSON object is an [option]; subscripting an absent key raises
    [KeyError]. *)
Record coord_json := { c_lat : option float; c_lon : option float }.
Record revision_json := { rev_star : option pystr }.
Record page_json := {
  p_title : option pystr;
  p_coordinates : option (list coord_json);
  p_revisions : option (list revision_json);
  p_canonicalurl : option pystr
}.
Record query_json := { q_pages : option (list (pystr * page_json)) }.
Record data_json := { d_query : option query_json }.

(** A row of the boundary dataset: the columns the code reads. *)
Record StateRecord (G : Type) := {
  NAME : pystr;
  STUSPS : pystr;
  geometry : G
}.

(** A row of the GeoDataFrame of points given to the join.  Any cell of the
    [state] column may be null. *)
Record GeoRow := {
  g_title : pystr;
  g_city : pystr;
  g_state : option pystr;
  g_latitude : float;
  g_longitude : float;
  g_url : pystr;
  g_point : float * float        (* Point(longitude, latitude) *)
}.

Record GeoDataFrame := {
  crs : pystr;
  rows : list GeoRow
}.

(** A row of the joined table: the point row, with [state] renamed
    [state_from_wiki], and the columns brought by the join. *)
Record JoinedRow := {
  j_point : GeoRow;
  state_name : option pystr;
  state_abbrev : option pystr;
  state_match : bool
}.
Definition state_from_wiki (r : JoinedRow) : option pystr := g_state (j_point r).

(** A row of the table returned by the distribution analyzer. *)
Record CountRow := {
  cr_state_name : pystr;
  cr_state_abbrev : pystr;
  count : nat
}.

(* ================================================================== *)
(** ** The world: file system, network, console *)
(* ================================================================== *)

Definition bytes := list N.

Inductive node := File (data : bytes) | Dir.

Record request := {
  req_url : pystr;
  req_params : list (pystr * pystr)
}.

Record response := {
  status_ok : bool;               (* [raise_for_status()] does not raise *)
  content : bytes;                (* [response.content] *)
  json : option data_json         (* [response.json()]; [None]: not JSON *)
}.

(** What [print] wrote. *)
Inductive printed :=
| PText (s : pystr)
| PError (prefix : pystr) (e : exn)
| PMismatches (t : list (pystr * option pystr * option pystr * option pystr))
| PCounts (t : list CountRow).

Record world := {
  fs : pystr -> option node;      (* what exists at a path *)
  may_write : pystr -> bool;      (* the process may create this path *)
  http_log : list request;        (* the requests issued so far *)
  stdout : list printed
}.

(** What the libraries under the code decide. *)
Class Externals := {
  (** [float(s)]; [None] is [ValueError] *)
  float_of_str : pystr -> option float;
  (** [s.upper()] *)
  str_upper : pystr -> pystr;
  (** a polygon of the boundary dataset *)
  polygon : Type;
  (** the predicate [within] of a point and a polygon *)
  within : float * float -> polygon -> bool;
  (** [to_crs] on one geometry *)
  reproject : pystr -> polygon -> polygon;
  (** decoding the shapefile archive; [None]: it cannot be read *)
  read_shapefile : bytes -> option (list (StateRecord polygon));
  (** the outcome of [requests.get] after the requests already issued;
      [None]: a [RequestException] is raised *)
  http_get : list request -> request -> option response;
  (** [float] of a string of ASCII digits is the float of that integer *)
  float_of_digits : forall ds,
    ds <> [] -> forallb is_digit ds = true ->
    float_of_str ds = Some (float_of_Z (decimal ds));
  (** [upper] on ASCII text only changes the letters a-z *)
  upper_ascii : forall s,
    forallb (fun c => c <? 128)%N s = true -> str_upper s = map ascii_upper s
}.

(** Computations on the world that may raise. *)
Definition M (A : Type) := world -> result A * world.

Definition ret {A} (a : A) : M A := fun w => (Ok a, w).
Definition raise {A} (e : exn) : M A := fun w => (Raise e, w).
Definition bind {A B} (m : M A) (k : A -> M B) : M B :=
  fun w => match m w with
           | (Ok a, w') => k a w'
           | (Raise e, w') => (Raise e, w')
           end.
Definition lift {A} (r : result A) : M A := fun w => (r, w).

(** [try: m except RequestException as e: h e] *)
Definition try_except_request {A} (m : M A) (h : exn -> M A) : M A :=
  fun w => match m w with
           | (Raise RequestException, w') => h RequestException w'
           | r => r
           end.

Declare Scope io_scope.
Delimit Scope io_scope with io.
Notation "x <- e ;; k" := (bind e (fun x => k))
  (at level 61, e at next level, right associativity) : io_scope.
Notation "e ;;; k" := (bind e (fun _ => k))
  (at level 61, right associativity) : io_scope.

Definition print (p : printed) : M unit :=
  fun w => (Ok tt, {| fs := fs w; may_write := may_write w;
                      http_log := http_log w; stdout := stdout w ++ [p] |}).

(** [os.path.exists(p)] *)
Definition os_path_exists (p : pystr) : M bool :=
  fun w => (Ok (match fs w p with Some _ => true | None => false end), w).

Definition fs_set (p : pystr) (n : node) (w : world) : world :=
  {| fs := fun q => if str_eqb q p then Some n else fs w q;
     may_write := may_write w; http_log := http_log w; stdout := stdout w |}.

(** [os.makedirs(p)] for a path of one component. *)
Definition os_makedirs (p : pystr) : M unit :=
  fun w => match fs w p with
           | Some _ => (Raise FileExistsError, w)
           | None => if may_write w p then (Ok tt, fs_set p Dir w)
                     else (Raise PermissionError, w)
           end.

(** [os.path.dirname(p)]: what precedes the last slash. *)
Fixpoint dirname (p : pystr) : pystr :=
  match p with
  | [] => []
  | c :: p' => if char_in (chr "/") p' then c :: dirname p' else []
  end.

(** [with open(p, 'wb') as f: f.write(data)] *)
Definition write_binary (p : pystr) (data : bytes) : M unit :=
  fun w => match fs w (dirname p) with
           | Some Dir =>
               match fs w p with
               | Some Dir => (Raise IsADirectoryError, w)
               | Some (File _) =>
                   if may_write w p then (Ok tt, fs_set p (File data) w)
                   else (Raise PermissionError, w)
               | None =>
                   if may_write w p then (Ok tt, fs_set p (File data) w)
                   else (Raise PermissionError, w)
               end
           | _ => (Raise NotADirectoryError, w)
           end.

Section WithExternals.
Context {E : Externals}.

(** [requests.get(url, params=params)] *)
Definition requests_get (url : pystr) (params : list (pystr * pystr))
  : M response :=
  fun w =>
    let rq := {| req_url := url; req_params := params |} in
    let w' := {| fs := fs w; may_write := may_write w;
                 http_log := http_log w ++ [rq]; stdout := stdout w |} in
    match http_get (http_log w) rq with
    | Some r => (Ok r, w')
    | None => (Raise RequestException, w')
    end.

(** [response.raise_for_status()] and [response.json()].  Both raise a
    subclass of [RequestException] ([HTTPError], and [JSONDecodeError] as
    requests has it since 2.27). *)
Definition raise_for_status (r : response) : M unit :=
  if status_ok r then ret tt else raise RequestException.
Definition response_json (r : response) : M data_json :=
  match json r with
  | Some d => ret d
  | None => raise RequestException
  end.

(** [gpd.read_file] of the zip archive at [p] *)
Definition gpd_read_file (p : pystr) : M (list (StateRecord polygon)) :=
  fun w => match fs w p with
           | Some (File data) =>
               match read_shapefile data with
               | Some t => (Ok t, w)
               | None => (Raise DriverError, w)
               end
           | _ => (Raise DriverError, w)
           end.

End WithExternals.

(* ================================================================== *)
(** ** Library functions shared by the two modules *)
(* ================================================================== *)

Definition key {A} (o : option A) : result A :=
  match o with
  | Some a => Ok a
  | None => Raise KeyError
  end.

(** [sep.join(l)] *)
Fixpoint join (sep : pystr) (l : list pystr) : pystr :=
  match l with
  | [] => []
  | [x] => x
  | x :: l' => x ++ sep ++ join sep l'
  end.

(** [range(0, n, step)] *)
Definition range_step (n step : nat) : list nat :=
  map (fun k => k * step) (seq 0 ((n + (step - 1)) / step)).

(** [l[i:i + n]] *)
Definition slice {A} (l : list A) (i n : nat) : list A := firstn n (skipn i l).

(** The coordinate pattern: the literal [{{coord|], then eight groups of
    one or more characters other than a pipe or a closing brace, with a
    pipe between two groups; compiled with [re.IGNORECASE]. *)
Definition field_char (c : char) : bool :=
  negb (char_eqb c (chr "|") || char_eqb c (chr "}")).
(** How a literal of the pattern matches under [re.IGNORECASE].  The
    literals are the letters of [coord], a brace and a pipe; the only
    characters that match one of them without being it are the ASCII
    letters of the other case. *)
Definition same_ignorecase (a b : char) : bool :=
  char_eqb (ascii_lower a) (ascii_lower b).

Record coord_groups := {
  lat_deg : pystr; lat_min : pystr; lat_sec : pystr; lat_dir : pystr;
  lon_deg : pystr; lon_min : pystr; lon_sec : pystr; lon_dir : pystr
}.

Definition coord_pattern (s : pystr) : option coord_groups :=
  let pipe := re_lit same_ignorecase (str "|") in
  re_lit same_ignorecase (str "{{coord|") s (fun s =>
  re_plus field_char s (fun g1 s => pipe s (fun s =>
  re_plus field_char s (fun g2 s => pipe s (fun s =>
  re_plus field_char s (fun g3 s => pipe s (fun s =>
  re_plus field_char s (fun g4 s => pipe s (fun s =>
  re_plus field_char s (fun g5 s => pipe s (fun s =>
  re_plus field_char s (fun g6 s => pipe s (fun s =>
  re_plus field_char s (fun g7 s => pipe s (fun s =>
  re_plus field_char s (fun g8 _ =>
    Some {| lat_deg := g1; lat_min := g2; lat_sec := g3; lat_dir := g4;
            lon_deg := g5; lon_min := g6; lon_sec := g7; lon_dir := g8 |}
  )))))))))))))))).

Definition search_coord (content : pystr) : option coord_groups :=
  re_search coord_pattern content.

(** [gpd.sjoin(left, right, how='left', predicate='within')]: every row
    of [left] once per row of [right] whose geometry it is within, and once
    with null columns when there is none. *)
Definition sjoin_left_within {G} (within : float * float -> G -> bool)
           (left : list GeoRow) (right : list (StateRecord G))
  : list (GeoRow * option (StateRecord G)) :=
  flat_map (fun p =>
              match filter (fun s => within (g_point p) (geometry s)) right with
              | [] => [(p, None)]
              | ms => map (fun s => (p, Some s)) ms
              end) left.

(** [series.isin(values)] on one cell *)
Definition isin (x : pystr) (values : list pystr) : bool :=
  existsb (str_eqb x) values.

(** The order of strings: by code point, a proper prefix first. *)
Fixpoint str_leb (a b : pystr) : bool :=
  match a, b with
  | [], _ => true
  | _ :: _, [] => false
  | x :: a', y :: b' => (x <? y)%N || ((x =? y)%N && str_leb a' b')
  end.

Definition group_key := (pystr * pystr)%type.
Definition key_eq_dec : forall a b : group_key, {a = b} + {a <> b}.
Proof. repeat decide equality. Defined.
Definition key_leb (a b : group_key) : bool :=
  if str_eqb (fst a) (fst b) then str_leb (snd a) (snd b)
  else str_leb (fst a) (fst b).

Section InsertionSort.
Variables (A : Type) (leb : A -> A -> bool).
Fixpoint insert_sorted (x : A) (l : list A) : list A :=
  match l with
  | [] => [x]
  | y :: l' => if leb x y then x :: l else y :: insert_sorted x l'
  end.
Definition sort_by (l : list A) : list A := fold_right insert_sorted [] l.
End InsertionSort.

(** [df.groupby(['state_name', 'state_abbrev']).size().reset_index(name='count')]:
    the rows with a null key are left out (the default [dropna=True]); one
    output row per distinct key, in the order of the keys. *)
Definition group_keys (t : list JoinedRow) : list group_key :=
  flat_map (fun r => match state_name r, state_abbrev r with
                     | Some n, Some a => [(n, a)]
                     | _, _ => []
                     end) t.
Definition groupby_size (t : list JoinedRow) : list CountRow :=
  let keys := group_keys t in
  map (fun k => {| cr_state_name := fst k; cr_state_abbrev := snd k;
                   count := count_occ key_eq_dec keys k |})
      (sort_by key_leb (nodup key_eq_dec keys)).

(** [df.sort_values('count', ascending=False)].  pandas does not fix the
    order of rows with equal counts; here they keep their order. *)
Definition sort_values_count_desc (t : list CountRow) : list CountRow :=
  sort_by (fun a b => count b <=? count a) t.

(* ================================================================== *)
(** ** week3d1_helper.py *)
(* ================================================================== *)

Module Springfield.

Local Open Scope result_scope.

(** The part of the loop body of the parser under [if match:], for
    [entry = match.group(1)]. *)
Definition add_entry (springfields : list CandidateEntry) (entry : pystr)
  : result (list CandidateEntry) :=
  entry <- (if char_in (chr "|") entry
            then item0 (split (chr "|") entry)
            else Ok entry) ;;
  if char_in (chr ",") entry then
    parts <- unpack2 (split1 (chr ",") entry) ;;
    let '(location, state_info) := parts in
    let state_info := strip state_info in
    state_info <- (if char_in (chr "(") state_info
                   then (s0 <- item0 (split (chr "(") state_info) ;;
                         Ok (strip s0))
                   else Ok state_info) ;;
    Ok (springfields ++
        [ {| title := entry; city := location; state := state_info |} ])
  else Ok springfields.

(** Body of [for line in lines]. *)
Definition parse_line (s : parser_state) (line : pystr)
  : result (flow * parser_state) :=
  if contains (str "=== United States ===") line then
    Ok (Next, {| entries := entries s; in_us_section := true |})
  else if in_us_section s && startswith (str "===") line then
    Ok (Break, s)
  else if in_us_section s && startswith (str "*") (strip line) then
    match search_link line with
    | Some entry =>
        acc <- add_entry (entries s) entry ;;
        Ok (Next, {| entries := acc; in_us_section := in_us_section s |})
    | None => Ok (Next, s)
    end
  else Ok (Next, s).

Fixpoint parse_lines (s : parser_state) (lines : list pystr)
  : result parser_state :=
  match lines with
  | [] => Ok s
  | line :: rest =>
      r <- parse_line s line ;;
      match r with
      | (Next, s') => parse_lines s' rest
      | (Break, s') => Ok s'
      end
  end.

Definition parse_us_springfields_from_wikitext (content : pystr)
  : result (list CandidateEntry) :=
  s <- parse_lines {| entries := []; in_us_section := false |}
                   (split (chr "010") content) ;;
  Ok (entries s).

Section WithExternals.
Context {E : Externals}.

(** [next((s for s in batch if s['title'] == page['title']), None)] *)
Definition find_original (batch : list CandidateEntry) (page : page_json)
  : result (option CandidateEntry) :=
  match batch with
  | [] => Ok None
  | _ => t <- key (p_title page) ;;
         Ok (find (fun s => str_eqb (title s) t) batch)
  end.

(** The inner [try] block: [None] is the [ValueError] of [float]. *)
Definition dms_to_decimal (g : coord_groups) : option (float * float) :=
  match float_of_str (lat_deg g), float_of_str (lat_min g),
        float_of_str (lat_sec g) with
  | Some d, Some m, Some s =>
      let lat := fadd (fadd d (fdiv m (float_of_Z 60)))
                      (fdiv s (float_of_Z 3600)) in
      match float_of_str (lon_deg g), float_of_str (lon_min g),
            float_of_str (lon_sec g) with
      | Some d', Some m', Some s' =>
          let lon := fadd (fadd d' (fdiv m' (float_of_Z 60)))
                          (fdiv s' (float_of_Z 3600)) in
          let lat := if str_eqb (str_upper (lat_dir g)) (str "S")
                     then fneg lat else lat in
          let lon := if str_eqb (str_upper (lon_dir g)) (str "W")
                     then fneg lon else lon in
          Some (lat, lon)
      | _, _, _ => None
      end
  | _, _, _ => None
  end.

(** [results.append({...})] under [if coordinates:] *)
Definition append_result (results : list ResolvedPlace) (page : page_json)
           (original : CandidateEntry) (coordinates : float * float)
  : result (list ResolvedPlace) :=
  t <- key (p_title page) ;;
  Ok (results ++
      [ {| rp_title := t;
           rp_city := city original;
           rp_state := state original;
           rp_latitude := fst coordinates;
           rp_longitude := snd coordinates;
           rp_url := match p_canonicalurl page with
                     | Some u => u
                     | None => []
                     end |} ]).

(** Body of [for page_id, page in data['query']['pages'].items()]. *)
Definition page_body (batch : list CandidateEntry)
           (results : list ResolvedPlace) (page : page_json)
  : result (list ResolvedPlace) :=
  original <- find_original batch page ;;
  match original with
  | None => Ok results
  | Some original =>
      match p_coordinates page with
      | Some cl =>
          coords <- item0 cl ;;
          lat <- key (c_lat coords) ;;
          lon <- key (c_lon coords) ;;
          append_result results page original (lat, lon)
      | None =>
          match p_revisions page with
          | Some (rev :: _) =>
              content <- key (rev_star rev) ;;
              match search_coord content with
              | Some g =>
                  match dms_to_decimal g with
                  | Some c => append_result results page original c
                  | None => Ok results
                  end
              | None => Ok results
              end
          | _ => Ok results
          end
      end
  end.

Fixpoint for_pages (batch : list CandidateEntry)
         (results : list ResolvedPlace) (pages : list page_json)
  : result (list ResolvedPlace) :=
  match pages with
  | [] => Ok results
  | page :: rest =>
      results' <- page_body batch results page ;;
      for_pages batch results' rest
  end.

Definition base_url : pystr := str "https://en.wikipedia.org/w/api.php".

Local Open Scope io_scope.

(** Body of [for i in range(0, len(springfields), batch_size)]. *)
Definition batch_body (springfields : list CandidateEntry)
           (results : list ResolvedPlace) (i : nat)
  : M (list ResolvedPlace) :=
  let batch := slice springfields i 50 in
  let titles := map title batch in
  let params :=
    [ (str "action", str "query");
      (str "titles", join (str "|") titles);
      (str "prop", str "coordinates|info|revisions");
      (str "inprop", str "url");
      (str "rvprop", str "content");
      (str "format", str "json") ] in
  try_except_request
    (response <- requests_get base_url params ;;
     raise_for_status response ;;;
     data <- response_json response ;;
     match d_query data with
     | Some q =>
         match q_pages q with
         | Some pages => lift (for_pages batch results (map snd pages))
         | None => ret results
         end
     | None => ret results
     end)
    (fun e =>
       print (PError (str "Error in batch coordinate request: ") e) ;;;
       ret results).

Fixpoint for_batches (springfields : list CandidateEntry)
         (results : list ResolvedPlace) (starts : list nat)
  : M (list ResolvedPlace) :=
  match starts with
  | [] => ret results
  | i :: rest =>
      results' <- batch_body springfields results i ;;
      for_batches springfields results' rest
  end.

Definition get_coordinates_batch (springfields : list CandidateEntry)
  : M (list ResolvedPlace) :=
  for_batches springfields [] (range_step (List.length springfields) 50).

(** The [lambda] given to [joined.apply]. *)
Definition match_lambda (wiki name : option pystr) : bool :=
  match wiki, name with
  | Some w, Some n => str_eqb (strip w) (strip n)
  | _, _ => false
  end.

Definition states_url : pystr :=
  str "https://www2.census.gov/geo/tiger/GENZ2020/shp/cb_2020_us_state_20m.zip".

(** The first part of the join: the boundary dataset, downloaded when
    the cache file is missing, then read from the cache file. *)
Definition fetch_states : M (list (StateRecord polygon)) :=
  let url := states_url in
  ex <- os_path_exists (str "data") ;;
  (if negb ex then os_makedirs (str "data") else ret tt) ;;;
  let zip_path := str "data/us_states.zip" in
  ex <- os_path_exists zip_path ;;
  (if negb ex then
     print (PText (str "Downloading US states data...")) ;;;
     response <- requests_get url [] ;;
     write_binary zip_path (content response)
   else ret tt) ;;;
  gpd_read_file zip_path.

Definition join_springfields_to_states (springfields_gdf : GeoDataFrame)
  : M (list JoinedRow) :=
  states_gdf <- fetch_states ;;
  let states_gdf :=
    map (fun s => {| NAME := NAME s; STUSPS := STUSPS s;
                     geometry := reproject (crs springfields_gdf) (geometry s) |})
        states_gdf in
  let joined := sjoin_left_within within (rows springfields_gdf) states_gdf in
  let joined :=
    map (fun pr =>
           let state_name := option_map (@NAME _) (snd pr) in
           let state_abbrev := option_map (@STUSPS _) (snd pr) in
           {| j_point := fst pr;
              state_name := state_name;
              state_abbrev := state_abbrev;
              state_match := match_lambda (g_state (fst pr)) state_name |})
        joined in
  let mismatches := filter (fun r => negb (state_match r)) joined in
  (match mismatches with
   | [] => ret tt
   | _ =>
       print (PText (chr "010" :: str "Found state name mismatches:")) ;;;
       print (PMismatches
                (map (fun r => (g_title (j_point r), state_from_wiki r,
                                state_name r, state_abbrev r))
                     mismatches))
   end) ;;;
  ret joined.

Definition analyze_springfield_distribution (joined_gdf : list JoinedRow)
  : M (list CountRow) :=
  let state_counts := groupby_size joined_gdf in
  let state_counts := sort_values_count_desc state_counts in
  print (PText (chr "010" :: str "Springfield Distribution by State:")) ;;;
  print (PCounts state_counts) ;;;
  ret state_counts.

End WithExternals.

End Springfield.

(* ================================================================== *)
(** ** week3d1_helper_general.py *)
(* ================================================================== *)

Module General.

Local Open Scope result_scope.

(** The part of the loop body of the parser under [if match:], for
    [entry = match.group(1)]. *)
Definition add_entry (cities : list CandidateEntry) (entry : pystr)
  : result (list CandidateEntry) :=
  entry <- (if char_in (chr "|") entry
            then item0 (split (chr "|") entry)
            else Ok entry) ;;
  if char_in (chr ",") entry then
    parts <- unpack2 (split1 (chr ",") entry) ;;
    let '(location, state_info) := parts in
    let state_info := strip state_info in
    state_info <- (if char_in (chr "(") state_info
                   then (s0 <- item0 (split (chr "(") state_info) ;;
                         Ok (strip s0))
                   else Ok state_info) ;;
    Ok (cities ++
        [ {| title := entry; city := location; state := state_info |} ])
  else Ok cities.

(** Body of [for line in lines]. *)
Definition parse_line (s : parser_state) (line : pystr)
  : result (flow * parser_state) :=
  if contains (str "=== United States ===") line then
    Ok (Next, {| entries := entries s; in_us_section := true |})
  else if in_us_section s && startswith (str "===") line then
    Ok (Break, s)
  else if in_us_section s && startswith (str "*") (strip line) then
    match search_link line with
    | Some entry =>
        acc <- add_entry (entries s) entry ;;
        Ok (Next, {| entries := acc; in_us_section := in_us_section s |})
    | None => Ok (Next, s)
    end
  else Ok (Next, s).

Fixpoint parse_lines (s : parser_state) (lines : list pystr)
  : result parser_state :=
  match lines with
  | [] => Ok s
  | line :: rest =>
      r <- parse_line s line ;;
      match r with
      | (Next, s') => parse_lines s' rest
      | (Break, s') => Ok s'
      end
  end.

Definition parse_us_cities_from_wikitext (content : pystr)
  : result (list CandidateEntry) :=
  s <- parse_lines {| entries := []; in_us_section := false |}
                   (split (chr "010") content) ;;
  Ok (entries s).

Section WithExternals.
Context {E : Externals}.

(** [next((s for s in batch if s['title'] == page['title']), None)] *)
Definition find_original (batch : list CandidateEntry) (page : page_json)
  : result (option CandidateEntry) :=
  match batch with
  | [] => Ok None
  | _ => t <- key (p_title page) ;;
         Ok (find (fun s => str_eqb (title s) t) batch)
  end.

(** The inner [try] block: [None] is the [ValueError] of [float]. *)
Definition dms_to_decimal (g : coord_groups) : option (float * float) :=
  match float_of_str (lat_deg g), float_of_str (lat_min g),
        float_of_str (lat_sec g) with
  | Some d, Some m, Some s =>
      let lat := fadd (fadd d (fdiv m (float_of_Z 60)))
                      (fdiv s (float_of_Z 3600)) in
      match float_of_str (lon_deg g), float_of_str (lon_min g),
            float_of_str (lon_sec g) with
      | Some d', Some m', Some s' =>
          let lon := fadd (fadd d' (fdiv m' (float_of_Z 60)))
                          (fdiv s' (float_of_Z 3600)) in
          let lat := if str_eqb (str_upper (lat_dir g)) (str "S")
                     then fneg lat else lat in
          let lon := if str_eqb (str_upper (lon_dir g)) (str "W")
                     then fneg lon else lon in
          Some (lat, lon)
      | _, _, _ => None
      end
  | _, _, _ => None
  end.

(** [results.append({...})] under [if coordinates:] *)
Definition append_result (results : list ResolvedPlace) (page : page_json)
           (original : CandidateEntry) (coordinates : float * float)
  : result (list ResolvedPlace) :=
  t <- key (p_title page) ;;
  Ok (results ++
      [ {| rp_title := t;
           rp_city := city original;
           rp_state := state original;
           rp_latitude := fst coordinates;
           rp_longitude := snd coordinates;
           rp_url := match p_canonicalurl page with
                     | Some u => u
                     | None => []
                     end |} ]).

(** Body of [for page_id, page in data['query']['pages'].items()]. *)
Definition page_body (batch : list CandidateEntry)
           (results : list ResolvedPlace) (page : page_json)
  : result (list ResolvedPlace) :=
  original <- find_original batch page ;;
  match original with
  | None => Ok results
  | Some original =>
      match p_coordinates page with
      | Some cl =>
          coords <- item0 cl ;;
          lat <- key (c_lat coords) ;;
          lon <- key (c_lon coords) ;;
          append_result results page original (lat, lon)
      | None =>
          match p_revisions page with
          | Some (rev :: _) =>
              content <- key (rev_star rev) ;;
              match search_coord content with
              | Some g =>
                  match dms_to_decimal g with
                  | Some c => append_result results page original c
                  | None => Ok results
                  end
              | None => Ok results
              end
          | _ => Ok results
          end
      end
  end.

Fixpoint for_pages (batch : list CandidateEntry)
         (results : list ResolvedPlace) (pages : list page_json)
  : result (list ResolvedPlace) :=
  match pages with
  | [] => Ok results
  | page :: rest =>
      results' <- page_body batch results page ;;
      for_pages batch results' rest
  end.

Definition base_url : pystr := str "https://en.wikipedia.org/w/api.php".

Local Open Scope io_scope.

(** Body of [for i in range(0, len(cities), batch_size)]. *)
Definition batch_body (cities : list CandidateEntry)
           (results : list ResolvedPlace) (i : nat)
  : M (list ResolvedPlace) :=
  let batch := slice cities i 50 in
  let titles := map title batch in
  let params :=
    [ (str "action", str "query");
      (str "titles", join (str "|") titles);
      (str "prop", str "coordinates|info|revisions");
      (str "inprop", str "url");
      (str "rvprop", str "content");
      (str "format", str "json") ] in
  try_except_request
    (response <- requests_get base_url params ;;
     raise_for_status response ;;;
     data <- response_json response ;;
     match d_query data with
     | Some q =>
         match q_pages q with
         | Some pages => lift (for_pages batch results (map snd pages))
         | None => ret results
         end
     | None => ret results
     end)
    (fun e =>
       print (PError (str "Error in batch coordinate request: ") e) ;;;
       ret results).

Fixpoint for_batches (cities : list CandidateEntry)
         (results : list ResolvedPlace) (starts : list nat)
  : M (list ResolvedPlace) :=
  match starts with
  | [] => ret results
  | i :: rest =>
      results' <- batch_body cities results i ;;
      for_batches cities results' rest
  end.

Definition get_coordinates_batch (cities : list CandidateEntry)
  : M (list ResolvedPlace) :=
  for_batches cities [] (range_step (List.length cities) 50).

(** The [lambda] given to [joined.apply]. *)
Definition match_lambda (wiki name : option pystr) : bool :=
  match wiki, name with
  | Some w, Some n => str_eqb (strip w) (strip n)
  | _, _ => false
  end.

Definition states_url : pystr :=
  str "https://www2.census.gov/geo/tiger/GENZ2020/shp/cb_2020_us_state_20m.zip".

(** The first part of the join: the boundary dataset, downloaded when
    the cache file is missing, then read from the cache file. *)
Definition fetch_states : M (list (StateRecord polygon)) :=
  let url := states_url in
  ex <- os_path_exists (str "data") ;;
  (if negb ex then os_makedirs (str "data") else ret tt) ;;;
  let zip_path := str "data/us_states.zip" in
  ex <- os_path_exists zip_path ;;
  (if negb ex then
     print (PText (str "Downloading US states data...")) ;;;
     response <- requests_get url [] ;;
     write_binary zip_path (content response)
   else ret tt) ;;;
  gpd_read_file zip_path.

Definition join_cities_to_states (cities_gdf : GeoDataFrame)
  : M (list JoinedRow) :=
  states_gdf <- fetch_states ;;
  let states_gdf :=
    map (fun s => {| NAME := NAME s; STUSPS := STUSPS s;
                     geometry := reproject (crs cities_gdf) (geometry s) |})
        states_gdf in
  let states_gdf :=
    filter (fun s => negb (isin (STUSPS s) [str "AK"; str "HI"; str "PR"]))
           states_gdf in
  let joined := sjoin_left_within within (rows cities_gdf) states_gdf in
  let joined :=
    map (fun pr =>
           let state_name := option_map (@NAME _) (snd pr) in
           let state_abbrev := option_map (@STUSPS _) (snd pr) in
           {| j_point := fst pr;
              state_name := state_name;
              state_abbrev := state_abbrev;
              state_match := match_lambda (g_state (fst pr)) state_name |})
        joined in
  let mismatches := filter (fun r => negb (state_match r)) joined in
  (match mismatches with
   | [] => ret tt
   | _ =>
       print (PText (chr "010" :: str "Found state name mismatches:")) ;;;
       print (PMismatches
                (map (fun r => (g_title (j_point r), state_from_wiki r,
                                state_name r, state_abbrev r))
                     mismatches))
   end) ;;;
  ret joined.

Definition analyze_cities_distribution (joined_gdf : list JoinedRow)
  : M (list CountRow) :=
  let state_counts := groupby_size joined_gdf in
  let state_counts := sort_values_count_desc state_counts in
  print (PText (str "\City Distribution by State:")) ;;;
  print (PCounts state_counts) ;;;
  ret state_counts.

End WithExternals.

End General.

(* ================================================================== *)
(** ** The page fetch and the construction of the GeoDataFrame *)
(* ================================================================== *)

(** The JSON answer of the MediaWiki parse API, as far as the code reads
    it: [data['parse']['wikitext']['*']]. *)
Record wikitext_json := { wt_star : option pystr }.
Record parse_json := { pj_wikitext : option wikitext_json }.
Record parse_data_json := { d_parse : option parse_json }.

(** [response.json()] of an answer to a parse request; [None]: the body is
    not JSON. *)
Class PageJson := {
  parse_response_json : response -> option parse_data_json
}.

(** [str(n)] for a length. *)
Definition str_of_nat (n : nat) : pystr :=
  str (NilEmpty.string_of_uint (Nat.to_uint n)).

(** [df[name]] on a DataFrame made from a list of records: without
    records the frame has no columns at all. *)
Definition column {A B} (df : list A) (field : A -> B) : result (list B) :=
  match df with
  | [] => Raise KeyError
  | _ => Ok (map field df)
  end.

(** [gpd.GeoDataFrame(df, geometry=geometry, crs=crs)] *)
Definition make_geodataframe (df : list ResolvedPlace)
           (geometry : list (float * float)) (crs : pystr) : GeoDataFrame :=
  {| crs := crs;
     rows := map (fun rg =>
                    {| g_title := rp_title (fst rg);
                       g_city := rp_city (fst rg);
                       g_state := Some (rp_state (fst rg));
                       g_latitude := rp_latitude (fst rg);
                       g_longitude := rp_longitude (fst rg);
                       g_url := rp_url (fst rg);
                       g_point := snd rg |})
                 (combine df geometry) |}.

Module SpringfieldPage.
Section WithExternals.
Context {E : Externals} {P : PageJson}.

Local Open Scope io_scope.

Definition get_disambiguation_content : M (option pystr) :=
  let base_url := str "https://en.wikipedia.org/w/api.php" in
  let params :=
    [ (str "action", str "parse");
      (str "page", str "Springfield");
      (str "prop", str "wikitext");
      (str "format", str "json") ] in
  try_except_request
    (response <- requests_get base_url params ;;
     raise_for_status response ;;;
     data <- (match parse_response_json response with
              | Some d => ret d
              | None => raise RequestException
              end) ;;
     match d_parse data with
     | Some parse =>
         match pj_wikitext parse with
         | Some wikitext =>
             text <- lift (key (wt_star wikitext)) ;;
             ret (Some text)
         | None => raise ValueError
         end
     | None => raise ValueError
     end)
    (fun e =>
       print (PError (str "Error fetching disambiguation page: ") e) ;;;
       ret None).

Definition create_springfields_geodataframe : M GeoDataFrame :=
  print (PText (str "Fetching Springfield disambiguation page...")) ;;;
  content <- get_disambiguation_content ;;
  match content with
  | None => raise ValueError
  | Some content =>
      print (PText (str "Parsing Springfield locations...")) ;;;
      springfields <-
        lift (Springfield.parse_us_springfields_from_wikitext content) ;;
      print (PText (str "Found " ++ str_of_nat (List.length springfields)
                    ++ str " Springfield locations in US")) ;;;
      print (PText (str "Fetching coordinates...")) ;;;
      springfields_df <- Springfield.get_coordinates_batch springfields ;;
      print (PText (str "Successfully retrieved coordinates for "
                    ++ str_of_nat (List.length springfields_df)
                    ++ str " locations")) ;;;
      longitude <- lift (column springfields_df rp_longitude) ;;
      latitude <- lift (column springfields_df rp_latitude) ;;
      let geometry := combine longitude latitude in
      ret (make_geodataframe springfields_df geometry (str "EPSG:4326"))
  end.

End WithExternals.
End SpringfieldPage.

Module GeneralPage.
Section WithExternals.
Context {E : Externals} {P : PageJson}.

Local Open Scope io_scope.

Definition get_disambiguation_content (city_name : pystr)
  : M (option pystr) :=
  let base_url := str "https://en.wikipedia.org/w/api.php" in
  let params :=
    [ (str "action", str "parse");
      (str "page", city_name);
      (str "prop", str "wikitext");
      (str "format", str "json") ] in
  try_except_request
    (response <- requests_get base_url params ;;
     raise_for_status response ;;;
     data <- (match parse_response_json response with
              | Some d => ret d
              | None => raise RequestException
              end) ;;
     match d_parse data with
     | Some parse =>
         match pj_wikitext parse with
         | Some wikitext =>
             text <- lift (key (wt_star wikitext)) ;;
             ret (Some text)
         | None => raise ValueError
         end
     | None => raise ValueError
     end)
    (fun e =>
       print (PError (str "Error fetching disambiguation page: ") e) ;;;
       ret None).

Definition create_cities_geodataframe (city_name : pystr)
  : M GeoDataFrame :=
  print (PText (str "Fetching " ++ city_name
                ++ str "'s disambiguation page...")) ;;;
  content <- get_disambiguation_content city_name ;;
  match content with
  | None => raise ValueError
  | Some content =>
      print (PText (str "Parsing " ++ city_name ++ str " locations...")) ;;;
      cities <- lift (General.parse_us_cities_from_wikitext content) ;;
      print (PText (str "Found " ++ str_of_nat (List.length cities)
                    ++ str " " ++ city_name ++ str " locations in US")) ;;;
      print (PText (str "Fetching coordinates...")) ;;;
      cities_df <- General.get_coordinates_batch cities ;;
      print (PText (str "Successfully retrieved coordinates for "
                    ++ str_of_nat (List.length cities_df)
                    ++ str " locations")) ;;;
      longitude <- lift (column cities_df rp_longitude) ;;
      latitude <- lift (column cities_df rp_latitude) ;;
      let geometry := combine longitude latitude in
      ret (make_geodataframe cities_df geometry (str "EPSG:4326"))
  end.

End WithExternals.
End GeneralPage.

(* ================================================================== *)
(** ** A concrete instance of the external libraries

    Floats of digit strings only, ASCII upper-casing, polygons given by
    their characteristic function, a server that answers every request
    with the same page. *)
(* ================================================================== *)

Definition demo_float_of_str (s : pystr) : option float :=
  match s with
  | [] => None
  | _ => if forallb is_digit s then Some (float_of_Z (decimal s)) else None
  end.

(** Two toy polygons: north of the 50th parallel, and the rest. *)
Definition far_north : float * float -> bool :=
  fun p => SFltb (float_of_Z 50) (snd p).
Definition elsewhere : float * float -> bool :=
  fun p => negb (SFltb (float_of_Z 50) (snd p)).

Definition demo_states : list (StateRecord (float * float -> bool)) :=
  [ {| NAME := str "Alaska"; STUSPS := str "AK"; geometry := far_north |};
    {| NAME := str "Ohio"; STUSPS := str "OH"; geometry := elsewhere |} ].

Definition coord_example : pystr := str "{{coord|39|55|0|N|83|48|0|W}}".

Definition demo_page : page_json :=
  {| p_title := Some (str "Springfield, Ohio");
     p_coordinates := None;
     p_revisions := Some [ {| rev_star := Some coord_example |} ];
     p_canonicalurl := None |}.

(** A page whose list of coordinates is empty. *)
Definition page_empty_coordinates : page_json :=
  {| p_title := Some (str "Springfield, Ohio");
     p_coordinates := Some [];
     p_revisions := None;
     p_canonicalurl := None |}.

Definition response_with (page : page_json) : response :=
  {| status_ok := true;
     content := [80; 75]%N;
     json := Some {| d_query :=
                       Some {| q_pages := Some [(str "1", page)] |} |} |}.

Definition demo_response : response := response_with demo_page.

(** The law of [Externals] on digit strings, for [demo_float_of_str]. *)
Definition demo_float_of_digits (ds : pystr) :
  ds <> [] -> forallb is_digit ds = true ->
  demo_float_of_str ds = Some (float_of_Z (decimal ds)).
Proof.
  intros Hne H. destruct ds as [|c ds]; [congruence|].
  unfold demo_float_of_str. rewrite H. reflexivity.
Defined.

(** The instance whose server answers every request with [r]. *)
Definition externals_serving (r : response) : Externals := {|
  float_of_str := demo_float_of_str;
  str_upper := map ascii_upper;
  polygon := float * float -> bool;
  within := fun p g => g p;
  reproject := fun _ g => g;
  read_shapefile := fun data => match data with
                                | [] => None
                                | _ => Some demo_states
                                end;
  http_get := fun _ _ => Some r;
  float_of_digits := demo_float_of_digits;
  upper_ascii := fun s _ => eq_refl
|}.

Definition demo_externals : Externals := externals_serving demo_response.

(** The instance whose every request fails. *)
Definition externals_offline : Externals := {|
  float_of_str := demo_float_of_str;
  str_upper := map ascii_upper;
  polygon := float * float -> bool;
  within := fun p g => g p;
  reproject := fun _ g => g;
  read_shapefile := fun data => match data with
                                | [] => None
                                | _ => Some demo_states
                                end;
  http_get := fun _ _ => None;
  float_of_digits := demo_float_of_digits;
  upper_ascii := fun s _ => eq_refl
|}.

Definition empty_world : world :=
  {| fs := fun _ => None; may_write := fun _ => true;
     http_log := []; stdout := [] |}.

Definition demo_entries : list CandidateEntry :=
  [ {| title := str "Springfield, Ohio"; city := str "Springfield";
       state := str "Ohio" |} ].


(* ================================================================== *)
(** ** Notions used to state the properties *)
(* ================================================================== *)

(** What precedes the first [c] in [s] (all of [s] when there is none),
    and what follows it. *)
Fixpoint before (c : char) (s : pystr) : pystr :=
  match s with
  | [] => []
  | a :: s' => if char_eqb a c then [] else a :: before c s'
  end.
Fixpoint after (c : char) (s : pystr) : pystr :=
  match s with
  | [] => []
  | a :: s' => if char_eqb a c then s' else after c s'
  end.

(** No white space at either end. *)
Definition trimmed (s : pystr) : Prop :=
  (forall c r, s = c :: r -> isspace c = false) /\
  (forall c r, s = r ++ [c] -> isspace c = false).

Definition all_space (s : pystr) : bool := forallb isspace s.

(** Equality up to the case of ASCII letters. *)
Definition caseless_eq (a b : pystr) : Prop :=
  map ascii_lower a = map ascii_lower b.

(** The title of a link: what precedes the first pipe. *)
Definition pipe_trim (entry : pystr) : pystr := before (chr "|") entry.

(** The state label made from the right part of a title: trimmed, cut at
    the first opening parenthesis when there is one, and trimmed again. *)
Definition state_label (right : pystr) : pystr :=
  let r := strip right in
  if char_in (chr "(") r then strip (before (chr "(") r) else r.

(** The entry of a title that has a comma: the city is the left part as it
    is written. *)
Definition entry_of_title (t : pystr) : CandidateEntry :=
  {| title := t;
     city := before (chr ",") t;
     state := state_label (after (chr ",") t) |}.

Definition link_entries (entry : pystr) : list CandidateEntry :=
  let t := pipe_trim entry in
  if char_in (chr ",") t then [entry_of_title t] else [].

Definition is_us_heading (line : pystr) : bool :=
  contains (str "=== United States ===") line.
Definition is_bullet (line : pystr) : bool :=
  startswith (str "*") (strip line).
Definition ends_section (line : pystr) : bool :=
  negb (is_us_heading line) && startswith (str "===") line.

(** What a line inside the section contributes. *)
Definition line_entries (line : pystr) : list CandidateEntry :=
  if is_us_heading line then []
  else if is_bullet line then
         match search_link line with
         | Some e => link_entries e
         | None => []
         end
       else [].

(** The entries collected from [lines] by a scan that starts inside
    ([b = true]) or outside the section. *)
Fixpoint collect (b : bool) (lines : list pystr) : list CandidateEntry :=
  match lines with
  | [] => []
  | l :: rest =>
      if is_us_heading l then collect true rest
      else if b && startswith (str "===") l then []
      else (if b then line_entries l else []) ++ collect b rest
  end.

(** Where the scan stands after [lines]: inside or outside the section,
    or [None] when it has stopped. *)
Fixpoint section_state (b : bool) (lines : list pystr) : option bool :=
  match lines with
  | [] => Some b
  | l :: rest =>
      if is_us_heading l then section_state true rest
      else if b && startswith (str "===") l then None
      else section_state b rest
  end.

Section While.
Variables (A : Type) (f : A -> bool).
Fixpoint take_while (l : list A) : list A :=
  match l with
  | [] => []
  | x :: l' => if f x then x :: take_while l' else []
  end.
Fixpoint drop_while (l : list A) : list A :=
  match l with
  | [] => []
  | x :: l' => if f x then drop_while l' else l
  end.
End While.

(** The lines of the section: those after the first line that contains
    the heading text, up to the first line that starts with three equal
    signs and does not contain the heading text. *)
Definition section_lines (lines : list pystr) : list pystr :=
  take_while (fun l => negb (ends_section l))
             (tl (drop_while (fun l => negb (is_us_heading l)) lines)).

(** Degrees, minutes and seconds as decimal degrees, and the sign. *)
Definition decimal_degrees (d m s : float) : float :=
  fadd (fadd d (fdiv m (float_of_Z 60))) (fdiv s (float_of_Z 3600)).
Definition negate_if (b : bool) (x : float) : float :=
  if b then fneg x else x.

(** A field of a coordinate template: not empty, without pipe or closing
    brace. *)
Definition is_field (f : pystr) : bool :=
  match f with
  | [] => false
  | _ => forallb field_char f
  end.
Definition fields_ok (g : coord_groups) : bool :=
  is_field (lat_deg g) && is_field (lat_min g) && is_field (lat_sec g)
  && is_field (lat_dir g) && is_field (lon_deg g) && is_field (lon_min g)
  && is_field (lon_sec g) && is_field (lon_dir g).

(** The text of an eight-field template without its closing braces;
    [opening] is [{{coord|] in some case. *)
Definition coord_template (opening : pystr) (g : coord_groups) : pystr :=
  opening ++ lat_deg g ++ chr "|" :: lat_min g ++ chr "|" :: lat_sec g
  ++ chr "|" :: lat_dir g ++ chr "|" :: lon_deg g ++ chr "|" :: lon_min g
  ++ chr "|" :: lon_sec g ++ chr "|" :: lon_dir g.

(** The text after a field: nothing, or a character that ends the field. *)
Definition ends_field (r : pystr) : Prop :=
  match r with
  | [] => True
  | c :: _ => field_char c = false
  end.

(** The request that [get_coordinates_batch] issues for a batch. *)
Definition coordinates_request (batch : list CandidateEntry) : request :=
  {| req_url := str "https://en.wikipedia.org/w/api.php";
     req_params :=
       [ (str "action", str "query");
         (str "titles", join (str "|") (map title batch));
         (str "prop", str "coordinates|info|revisions");
         (str "inprop", str "url");
         (str "rvprop", str "content");
         (str "format", str "json") ] |}.

(** The cache file of the boundary dataset and the request that fetches it. *)
Definition zip_path : pystr := str "data/us_states.zip".
Definition states_request : request :=
  {| req_url :=
       str "https://www2.census.gov/geo/tiger/GENZ2020/shp/cb_2020_us_state_20m.zip";
     req_params := [] |}.

(** The rows the distribution analyzer counts: both keys present. *)
Definition has_state (r : JoinedRow) : bool :=
  match state_name r, state_abbrev r with
  | Some _, Some _ => true
  | _, _ => false
  end.

(** The states left out by the general module. *)
Definition excluded_state {G} (s : StateRecord G) : bool :=
  isin (STUSPS s) [str "AK"; str "HI"; str "PR"].

(** A world in which the cache file is already there. *)
Definition cached_world : world :=
  {| fs := fun p => if str_eqb p (str "data") then Some Dir
                    else if str_eqb p zip_path then Some (File [80; 75]%N)
                    else None;
     may_write := fun _ => true;
     http_log := [];
     stdout := [] |}.

(** A point row at the given latitude, with the given wiki state. *)
Definition row_at (lat : Z) (wiki : option pystr) : GeoRow :=
  {| g_title := str "Springfield";
     g_city := str "Springfield";
     g_state := wiki;
     g_latitude := float_of_Z lat;
     g_longitude := fneg (float_of_Z 84);
     g_url := [];
     g_point := (fneg (float_of_Z 84), float_of_Z lat) |}.

Definition gdf_of (r : GeoRow) : GeoDataFrame :=
  {| crs := str "EPSG:4326"; rows := [r] |}.

(** A joined row that matched no polygon. *)
Definition unmatched_row : JoinedRow :=
  {| j_point := row_at 40 (Some (str "Ohio"));
     state_name := None; state_abbrev := None; state_match := false |}.

Section JoinedRows.
Context {E : Externals}.

(** The boundary dataset after [to_crs]. *)
Definition reprojected (target : pystr) (t : list (StateRecord polygon))
  : list (StateRecord polygon) :=
  map (fun s => {| NAME := NAME s; STUSPS := STUSPS s;
                   geometry := reproject target (geometry s) |}) t.

(** A row of the joined table with its match flag. *)
Definition joined_row (pr : GeoRow * option (StateRecord polygon))
  : JoinedRow :=
  {| j_point := fst pr;
     state_name := option_map (@NAME _) (snd pr);
     state_abbrev := option_map (@STUSPS _) (snd pr);
     state_match :=
       Springfield.match_lambda (g_state (fst pr))
                                (option_map (@NAME _) (snd pr)) |}.

(** The table each module returns once the dataset [t] is loaded. *)
Definition springfield_rows (gdf : GeoDataFrame)
           (t : list (StateRecord polygon)) : list JoinedRow :=
  map joined_row
      (sjoin_left_within within (rows gdf) (reprojected (crs gdf) t)).
Definition general_rows (gdf : GeoDataFrame)
           (t : list (StateRecord polygon)) : list JoinedRow :=
  map joined_row
      (sjoin_left_within within (rows gdf)
         (filter (fun s => negb (excluded_state s))
                 (reprojected (crs gdf) t))).
End JoinedRows.

(** A computation that leaves the cache alone when it is there, issues at
    most the request for the boundary dataset, and returns normally only
    with the cache file in place. *)
Definition fetches_at_most_once {A} (m : M A) : Prop :=
  forall w, exists r w',
    m w = (r, w')
    /\ (fs w zip_path <> None ->
        http_log w' = http_log w /\ fs w' zip_path = fs w zip_path)
    /\ (http_log w' = http_log w
        \/ http_log w' = http_log w ++ [states_request])
    /\ (forall a, r = Ok a -> fs w' zip_path <> None).

(* ================================================================== *)
(** ** Sample pages *)
(* ================================================================== *)

Definition us_heading : pystr := str "=== United States ===".
Definition nl : char := chr "010".

(** A page whose only entry has spaces around the city. *)
Definition page_spaced_city : pystr :=
  us_heading ++ nl :: str "* [[ Springfield , Ohio]]".

(** A page with a second-level heading after the section. *)
Definition page_level_two : pystr :=
  us_heading ++ nl :: str "* [[Springfield, Ohio]]" ++ nl ::
  str "== Canada ==" ++ nl :: str "* [[Springfield, Ontario]]".

(** A page with an aliased link and a link without a comma. *)
Definition page_alias : pystr :=
  us_heading ++ nl :: str "* [[Springfield, Ohio (town)|Springfield]], a city"
  ++ nl :: str "* [[Springfield metropolitan area]]".
Definition page_alias_short : pystr :=
  us_heading ++ nl :: str "* [[Springfield, Ohio (town)|Springfield]], a city".

(** A page whose heading is written without spaces. *)
Definition page_tight_heading : pystr :=
  str "===United States===" ++ nl :: str "* [[Springfield, Ohio]]".

(** The batches of [get_coordinates_batch]. *)
Definition batches (cities : list CandidateEntry) : list (list CandidateEntry) :=
  map (fun i => slice cities i 50) (range_step (List.length cities) 50).

(** A row of the result is made from the entry [c]. *)
Definition row_of_entry (r : ResolvedPlace) (c : CandidateEntry) : Prop :=
  rp_title r = title c /\ rp_city r = city c /\ rp_state r = state c.

(** The request that [get_disambiguation_content] issues for a page. *)
Definition page_request (city_name : pystr) : request :=
  {| req_url := str "https://en.wikipedia.org/w/api.php";
     req_params :=
       [ (str "action", str "parse");
         (str "page", city_name);
         (str "prop", str "wikitext");
         (str "format", str "json") ] |}.

(** The answer to a page request is unusable at the transport level: the
    request fails, the status is an error or the body is not JSON. *)
Definition transport_failure {P : PageJson} (answer : option response) : bool :=
  match answer with
  | None => true
  | Some r => negb (status_ok r)
              || match parse_response_json r with
                 | None => true
                 | Some _ => false
                 end
  end.

(** The answer is JSON but has no [parse] key or no [wikitext] under it. *)
Definition lacks_wikitext {P : PageJson} (answer : option response) : bool :=
  match answer with
  | Some r =>
      status_ok r
      && match parse_response_json r with
         | Some d => match d_parse d with
                     | Some p => match pj_wikitext p with
                                 | Some _ => false
                                 | None => true
                                 end
                     | None => true
                     end
         | None => false
         end
  | None => false
  end.

(** The markup that a well-formed answer carries. *)
Definition wikitext_of {P : PageJson} (answer : option response)
  : option pystr :=
  match answer with
  | Some r =>
      if status_ok r then
        match parse_response_json r with
        | Some d => match d_parse d with
                    | Some p => match pj_wikitext p with
                                | Some wt => wt_star wt
                                | None => None
                                end
                    | None => None
                    end
        | None => None
        end
      else None
  | None => None
  end.

(** A decoder of page answers that reads the body as the markup, and one
    that finds no [parse] key. *)
Definition demo_page_json : PageJson :=
  {| parse_response_json := fun r =>
       Some {| d_parse :=
                 Some {| pj_wikitext := Some {| wt_star := Some (content r) |} |} |} |}.
Definition keyless_page_json : PageJson :=
  {| parse_response_json := fun _ => Some {| d_parse := None |} |}.

(** An answer whose body is the page [page_alias] and whose query part
    holds [demo_page]. *)
Definition full_response (text : pystr) : response :=
  {| status_ok := true;
     content := text;
     json := Some {| d_query :=
                       Some {| q_pages := Some [(str "1", demo_page)] |} |} |}.

(** A page with one entry, the one the demo server knows. *)
Definition page_ohio : pystr :=
  us_heading ++ nl :: str "* [[Springfield, Ohio]]".

(** What holds of every row of a GeoDataFrame made by
    [create_springfields_geodataframe] or [create_cities_geodataframe]. *)
Definition created_row (row : GeoRow) : Prop :=
  g_point row = (g_longitude row, g_latitude row)
  /\ char_in (chr ",") (g_title row) = true
  /\ exists st, g_state row = Some st
                /\ char_in (chr "(") st = false /\ trimmed st.

(** The row of the GeoDataFrame that the demo server and page give. *)
Definition demo_created_row : GeoRow :=
  {| g_title := str "Springfield, Ohio";
     g_city := str "Springfield";
     g_state := Some (str "Ohio");
     g_latitude :=
       decimal_degrees (float_of_Z 39) (float_of_Z 55) (float_of_Z 0);
     g_longitude :=
       fneg (decimal_degrees (float_of_Z 83) (float_of_Z 48) (float_of_Z 0));
     g_url := [];
     g_point :=
       (fneg (decimal_degrees (float_of_Z 83) (float_of_Z 48) (float_of_Z 0)),
        decimal_degrees (float_of_Z 39) (float_of_Z 55) (float_of_Z 0)) |}.

(** A world with the cache directory and no cache file, and an answer
    whose body the shapefile decoder of the demo instance rejects. *)
Definition world_without_cache : world :=
  {| fs := fun p => if str_eqb p (str "data") then Some Dir else None;
     may_write := fun _ => true;
     http_log := [];
     stdout := [] |}.
Definition empty_body_response : response :=
  {| status_ok := true; content := []; json := None |}.

(** The key of a row of the distribution table, and the joined rows that
    have a given key. *)
Definition key_of (c : CountRow) : group_key :=
  (cr_state_name c, cr_state_abbrev c).
Definition has_key (k : group_key) (r : JoinedRow) : bool :=
  match state_name r, state_abbrev r with
  | Some n, Some a => if key_eq_dec (n, a) k then true else false
  | _, _ => false
  end.

Section Justified.
Context {E : Externals}.

(** The state columns of a joined row agree with the states [states]. *)
Definition justified (gdf : GeoDataFrame)
           (states : list (StateRecord polygon)) (r : JoinedRow) : Prop :=
  match state_name r, state_abbrev r with
  | Some n, Some a =>
      exists s, In s states /\ NAME s = n /\ STUSPS s = a
                /\ within (g_point (j_point r))
                          (reproject (crs gdf) (geometry s)) = true
  | None, None =>
      state_match r = false
      /\ forall s, In s states ->
                   within (g_point (j_point r))
                          (reproject (crs gdf) (geometry s)) = false
  | _, _ => False
  end.
End Justified.

(** The pages that the batch loop reads in the answer to a request: none
    when the request fails, the status is an error, the body is not JSON,
    or the key [query] or [pages] is missing. *)
Definition answer_pages (answer : option response) : list page_json :=
  match answer with
  | Some resp =>
      if status_ok resp then
        match json resp with
        | Some data =>
            match d_query data with
            | Some q =>
                match q_pages q with
                | Some pages => map snd pages
                | None => []
                end
            | None => []
            end
        | None => []
        end
      else []
  | None => []
  end.

(** [params[name]] of a request. *)
Definition param (name : pystr) (rq : request) : option pystr :=
  match find (fun p => str_eqb (fst p) name) (req_params rq) with
  | Some p => Some (snd p)
  | None => None
  end.

(** A revision content with two templates: degrees and minutes with two
    further parameters, then the eight-field example. *)
Definition two_templates : pystr :=
  str "{{coord|39|55|N|83|48|W|region:US-OH|display=title}} " ++ coord_example.

Definition page_two_templates : page_json :=
  {| p_title := Some (str "Springfield, Ohio");
     p_coordinates := None;
     p_revisions := Some [ {| rev_star := Some two_templates |} ];
     p_canonicalurl := None |}.

(** The row that the demo server's page gives. *)
Definition demo_row : ResolvedPlace :=
  {| rp_title := str "Springfield, Ohio";
     rp_city := str "Springfield";
     rp_state := str "Ohio";
     rp_latitude :=
       decimal_degrees (float_of_Z 39) (float_of_Z 55) (float_of_Z 0);
     rp_longitude :=
       fneg (decimal_degrees (float_of_Z 83) (float_of_Z 48) (float_of_Z 0));
     rp_url := [] |}.

(** Case analysis on the scrutinee of the innermost [match] of the goal. *)
Ltac split_match :=
  match goal with
  | |- context [match ?x with _ => _ end] =>
      lazymatch x with
      | context [match _ with _ => _ end] => fail
      | _ => destruct x eqn:?
      end
  end.

(* ================================================================== *)
(** ** Strings: lemmas *)
(* ================================================================== *)

Lemma char_eqb_eq (a b : char) : char_eqb a b = true <-> a = b.
Proof. apply N.eqb_eq. Qed.

Lemma char_eqb_sym (a b : char) : char_eqb a b = char_eqb b a.
Proof. apply N.eqb_sym. Qed.

Lemma str_eqb_eq (a b : pystr) : str_eqb a b = true <-> a = b.
Proof.
  unfold str_eqb. destruct (list_eq_dec N.eq_dec a b); split; congruence.
Qed.

Lemma str_eqb_refl (a : pystr) : str_eqb a a = true.
Proof. now apply str_eqb_eq. Qed.

Lemma split_before (c : char) (s : pystr) :
  exists rest, split c s = before c s :: rest.
Proof.
  induction s as [|a s [rest IH]]; simpl.
  - now exists [].
  - destruct (char_eqb a c).
    + now exists (split c s).
    + rewrite IH. now exists rest.
Qed.

Lemma item0_split (c : char) (s : pystr) :
  item0 (split c s) = Ok (before c s).
Proof. destruct (split_before c s) as [rest ->]. reflexivity. Qed.

Lemma split1_cut (c : char) (s : pystr) :
  char_in c s = true -> split1 c s = [before c s; after c s].
Proof.
  unfold char_in. induction s as [|a s IH]; simpl; [discriminate|].
  rewrite (char_eqb_sym c a). destruct (char_eqb a c); simpl; [reflexivity|].
  intros H. now rewrite (IH H).
Qed.

Lemma cut_at_first (c : char) (s : pystr) :
  char_in c s = true -> s = before c s ++ c :: after c s.
Proof.
  unfold char_in. induction s as [|a s IH]; simpl; [discriminate|].
  rewrite (char_eqb_sym c a). destruct (char_eqb a c) eqn:Eac; simpl.
  - apply char_eqb_eq in Eac. now subst.
  - intros H. now rewrite <- (IH H).
Qed.

Lemma before_free (c : char) (s : pystr) : char_in c (before c s) = false.
Proof.
  unfold char_in. induction s as [|a s IH]; simpl; [reflexivity|].
  destruct (char_eqb a c) eqn:Eac; simpl; [reflexivity|].
  now rewrite (char_eqb_sym c a), Eac.
Qed.

Lemma lstrip_suffix (s : pystr) : exists p, s = p ++ lstrip s.
Proof.
  induction s as [|a s [p IH]]; simpl.
  - now exists [].
  - destruct (isspace a).
    + exists (a :: p). simpl. now rewrite <- IH.
    + now exists [].
Qed.

Lemma lstrip_head (s : pystr) (c : char) (r : pystr) :
  lstrip s = c :: r -> isspace c = false.
Proof.
  induction s as [|a s IH]; simpl; [discriminate|].
  destruct (isspace a) eqn:Ea; [exact IH|].
  intros H. injection H as <- _. exact Ea.
Qed.

Lemma rstrip_prefix (s : pystr) : exists q, s = rstrip s ++ q.
Proof.
  unfold rstrip. destruct (lstrip_suffix (rev s)) as [p Hp].
  exists (rev p). rewrite <- rev_app_distr, <- Hp. now rewrite rev_involutive.
Qed.

Lemma strip_infix (s : pystr) : exists p q, s = p ++ strip s ++ q.
Proof.
  unfold strip. destruct (lstrip_suffix s) as [p Hp].
  destruct (rstrip_prefix (lstrip s)) as [q Hq].
  exists p, q. now rewrite <- Hq.
Qed.

Lemma char_in_app (c : char) (a b : pystr) :
  char_in c (a ++ b) = char_in c a || char_in c b.
Proof. apply existsb_app. Qed.

Lemma strip_keeps_free (c : char) (s : pystr) :
  char_in c s = false -> char_in c (strip s) = false.
Proof.
  destruct (strip_infix s) as (p & q & Hs). intros H.
  rewrite Hs, !char_in_app in H.
  destruct (char_in c (strip s)); [|reflexivity].
  now rewrite orb_true_r in H.
Qed.

Lemma strip_trimmed (s : pystr) : trimmed (strip s).
Proof.
  split; intros c r H.
  - unfold strip in H. destruct (rstrip_prefix (lstrip s)) as [q Hq].
    rewrite H in Hq. simpl in Hq. exact (lstrip_head _ Hq).
  - unfold strip, rstrip in H.
    apply (f_equal (@rev char)) in H.
    rewrite rev_involutive, rev_app_distr in H. simpl in H.
    exact (lstrip_head _ H).
Qed.

Lemma lstrip_app (s t : pystr) :
  lstrip (s ++ t) = if all_space s then lstrip t else lstrip s ++ t.
Proof.
  unfold all_space. induction s as [|a s IH]; simpl; [reflexivity|].
  destruct (isspace a); simpl; [exact IH|reflexivity].
Qed.

Lemma lstrip_all_space (s : pystr) : all_space s = true -> lstrip s = [].
Proof.
  unfold all_space. induction s as [|a s IH]; simpl; [reflexivity|].
  destruct (isspace a); simpl; [exact IH|discriminate].
Qed.

Lemma all_space_rev (s : pystr) : all_space (rev s) = all_space s.
Proof.
  unfold all_space. induction s as [|a s IH]; simpl; [reflexivity|].
  rewrite forallb_app, IH. simpl. rewrite andb_true_r. apply andb_comm.
Qed.

Lemma rstrip_app_space (s ws : pystr) :
  all_space ws = true -> rstrip (s ++ ws) = rstrip s.
Proof.
  intros H. unfold rstrip. rewrite rev_app_distr, lstrip_app.
  now rewrite all_space_rev, H.
Qed.

(** White space added around a string does not change what [strip] gives. *)
Lemma strip_padding (ws1 s ws2 : pystr) :
  all_space ws1 = true -> all_space ws2 = true ->
  strip (ws1 ++ s ++ ws2) = strip s.
Proof.
  intros H1 H2. unfold strip.
  rewrite lstrip_app, H1, lstrip_app.
  destruct (all_space s) eqn:Es.
  - rewrite (lstrip_all_space _ H2), (lstrip_all_space _ Es). reflexivity.
  - now apply rstrip_app_space.
Qed.

(* ================================================================== *)
(** ** The parser: lemmas *)
(* ================================================================== *)

Lemma before_all (c : char) (s : pystr) :
  char_in c s = false -> before c s = s.
Proof.
  unfold char_in. induction s as [|a s IH]; simpl; [reflexivity|].
  rewrite (char_eqb_sym c a). destruct (char_eqb a c); simpl; [discriminate|].
  intros H. now rewrite (IH H).
Qed.

Lemma state_label_clean (r : pystr) :
  char_in (chr "(") (state_label r) = false /\ trimmed (state_label r).
Proof.
  unfold state_label.
  destruct (char_in (chr "(") (strip r)) eqn:Hp.
  - split; [|apply strip_trimmed].
    apply strip_keeps_free, before_free.
  - split; [exact Hp|apply strip_trimmed].
Qed.

Lemma add_entry_spec (acc : list CandidateEntry) (entry : pystr) :
  Springfield.add_entry acc entry = Ok (acc ++ link_entries entry).
Proof.
  unfold Springfield.add_entry, link_entries, pipe_trim.
  assert (Ht : (if char_in (chr "|") entry
                then item0 (split (chr "|") entry) else Ok entry)
               = Ok (before (chr "|") entry)).
  { destruct (char_in (chr "|") entry) eqn:Hp.
    - apply item0_split.
    - now rewrite before_all. }
  rewrite Ht. cbn [rbind].
  set (t := before (chr "|") entry).
  destruct (char_in (chr ",") t) eqn:Hc.
  - rewrite (split1_cut _ _ Hc). cbn [unpack2 rbind].
    unfold entry_of_title, state_label.
    destruct (char_in (chr "(") (strip (after (chr ",") t))).
    + rewrite item0_split. reflexivity.
    + reflexivity.
  - now rewrite app_nil_r.
Qed.

Lemma parse_lines_collect (lines : list pystr) (s : parser_state) :
  exists b,
    Springfield.parse_lines s lines =
    Ok {| entries := entries s ++ collect (in_us_section s) lines;
          in_us_section := b |}.
Proof.
  revert s. induction lines as [|l rest IH]; intros [acc b];
    cbn [Springfield.parse_lines collect entries in_us_section].
  - exists b. now rewrite app_nil_r.
  - unfold Springfield.parse_line, line_entries, is_us_heading, is_bullet.
    cbn [entries in_us_section].
    destruct (contains (str "=== United States ===") l) eqn:Hh; cbn [rbind].
    + exact (IH {| entries := acc; in_us_section := true |}).
    + destruct b; cbn [andb].
      * destruct (startswith (str "===") l); cbn [rbind].
        { exists true. now rewrite app_nil_r. }
        destruct (startswith (str "*") (strip l)).
        -- destruct (search_link l) as [e|].
           ++ rewrite add_entry_spec. cbn [rbind].
              destruct (IH {| entries := acc ++ link_entries e;
                              in_us_section := true |}) as [b' Hb'].
              exists b'. rewrite Hb'. cbn [entries in_us_section].
              now rewrite app_assoc.
           ++ exact (IH {| entries := acc; in_us_section := true |}).
        -- exact (IH {| entries := acc; in_us_section := true |}).
      * exact (IH {| entries := acc; in_us_section := false |}).
Qed.

Lemma parse_collect (content : pystr) :
  Springfield.parse_us_springfields_from_wikitext content =
  Ok (collect false (split (chr "010") content)).
Proof.
  unfold Springfield.parse_us_springfields_from_wikitext.
  destruct (parse_lines_collect (split (chr "010") content)
              {| entries := []; in_us_section := false |}) as [b ->].
  reflexivity.
Qed.

Lemma parse_cities_collect (content : pystr) :
  General.parse_us_cities_from_wikitext content =
  Ok (collect false (split (chr "010") content)).
Proof. exact (parse_collect content). Qed.

Lemma collect_inside (lines : list pystr) :
  collect true lines =
  flat_map line_entries (take_while (fun l => negb (ends_section l)) lines).
Proof.
  induction lines as [|l rest IH]; cbn [collect take_while]; [reflexivity|].
  unfold ends_section. cbn [andb].
  destruct (is_us_heading l) eqn:Hh; cbn [negb andb flat_map].
  - rewrite IH. unfold line_entries at 2. now rewrite Hh.
  - destruct (startswith (str "===") l); cbn [negb flat_map]; [reflexivity|].
    now rewrite IH.
Qed.

Lemma collect_outside (lines : list pystr) :
  collect false lines =
  collect true (tl (drop_while (fun l => negb (is_us_heading l)) lines)).
Proof.
  induction lines as [|l rest IH]; cbn [collect drop_while tl]; [reflexivity|].
  destruct (is_us_heading l); cbn [negb andb tl app]; [reflexivity|exact IH].
Qed.

Lemma collect_app (pre rest : list pystr) (b : bool) :
  collect b (pre ++ rest) =
  collect b pre ++ match section_state b pre with
                   | Some b' => collect b' rest
                   | None => []
                   end.
Proof.
  revert b. induction pre as [|l pre IH]; intros b;
    cbn [collect section_state app]; [reflexivity|].
  destruct (is_us_heading l); [apply IH|].
  destruct (b && startswith (str "===") l); [reflexivity|].
  now rewrite IH, app_assoc.
Qed.

Lemma rstrip_nonempty (c : char) (s : pystr) :
  isspace c = false -> exists r, rstrip (c :: s) = c :: r.
Proof.
  intros Hc. destruct (rstrip_prefix (c :: s)) as [q Hq].
  destruct (rstrip (c :: s)) as [|c' r] eqn:Er.
  - exfalso. unfold rstrip in Er.
    apply (f_equal (@rev char)) in Er. rewrite rev_involutive in Er.
    simpl in Er.
    assert (Hs : all_space (rev s ++ [c]) = false).
    { unfold all_space. rewrite forallb_app. simpl. rewrite Hc.
      now rewrite andb_false_r. }
    destruct (lstrip_suffix (rev s ++ [c])) as [p Hp].
    rewrite Er, app_nil_r in Hp.
    assert (Hall : forall t, lstrip t = [] -> all_space t = true).
    { clear. unfold all_space. induction t as [|a t IH]; simpl; [reflexivity|].
      destruct (isspace a); simpl; [exact IH|discriminate]. }
    rewrite (Hall _ Er) in Hs. discriminate.
  - simpl in Hq. injection Hq as -> _. now exists r.
Qed.

Lemma bullet_not_heading_start (line : pystr) :
  is_bullet line = true -> startswith (str "===") line = false.
Proof.
  unfold is_bullet. intros Hb.
  destruct (startswith (str "===") line) eqn:Hs; [|reflexivity].
  destruct line as [|c line]; [discriminate|].
  change (str "===") with (chr "=" :: str "==") in Hs.
  cbn [startswith] in Hs. apply andb_prop in Hs. destruct Hs as [Hc _].
  apply char_eqb_eq in Hc. subst c.
  unfold strip in Hb. cbn [lstrip] in Hb.
  change (isspace (chr "=")) with false in Hb. cbv iota in Hb.
  destruct (@rstrip_nonempty (chr "=") line eq_refl) as [r Hr].
  rewrite Hr in Hb. discriminate.
Qed.

Lemma collect_entries (b : bool) (lines : list pystr) (e : CandidateEntry) :
  In e (collect b lines) -> exists t, e = entry_of_title t.
Proof.
  revert b. induction lines as [|l rest IH]; intros b; cbn [collect];
    [intros []|].
  destruct (is_us_heading l) eqn:Hh; [apply IH|].
  destruct (b && startswith (str "===") l); [intros []|].
  rewrite in_app_iff. intros [H|H]; [|exact (IH _ H)].
  destruct b; [|destruct H].
  unfold line_entries in H. rewrite Hh in H.
  destruct (is_bullet l); [|destruct H].
  destruct (search_link l) as [k|]; [|destruct H].
  unfold link_entries in H.
  destruct (char_in (chr ",") (pipe_trim k)); [|destruct H].
  destruct H as [<-|[]]. now exists (pipe_trim k).
Qed.

(* ================================================================== *)
(** ** The parser: properties *)
(* ================================================================== *)

(** C3, as the source has it: the city is not trimmed.  The link
    [[ Springfield , Ohio]] gives the city " Springfield ", with its
    spaces, which is not the trimmed left part. *)
Lemma parser_city_not_trimmed :
  exists e,
    Springfield.parse_us_springfields_from_wikitext page_spaced_city = Ok [e]
    /\ city e = str " Springfield "
    /\ city e <> strip (before (chr ",") (title e)).
Proof.
  eexists. split; [vm_compute; reflexivity|].
  split; [reflexivity|]. vm_compute. discriminate.
Qed.

(** C3 (amended): for a bulleted line of the section whose pipe-trimmed link
    title [t] contains a comma, the parser cuts [t] at its first comma and
    emits the entry whose title is [t], whose city is the left part as it is
    written (it is not trimmed), and whose state is the right part trimmed,
    cut at the first opening parenthesis and trimmed again. *)
Theorem parser_splits_on_first_comma :
  forall (content : pystr) (pre : list pystr) (line : pystr)
         (post : list pystr) (e : pystr),
    split nl content = pre ++ line :: post ->
    section_state false pre = Some true ->
    is_us_heading line = false ->
    is_bullet line = true ->
    search_link line = Some e ->
    char_in (chr ",") (pipe_trim e) = true ->
    let t := pipe_trim e in
    let entry := {| title := t;
                    city := before (chr ",") t;
                    state := state_label (after (chr ",") t) |} in
    t = city entry ++ chr "," :: after (chr ",") t
    /\ char_in (chr ",") (city entry) = false
    /\ trimmed (state entry)
    /\ exists out1 out2,
        Springfield.parse_us_springfields_from_wikitext content
        = Ok (out1 ++ entry :: out2)
        /\ General.parse_us_cities_from_wikitext content
           = Ok (out1 ++ entry :: out2).
Proof.
  intros content pre line post e Hsplit Hpre Hhead Hbul Hlink Hcomma.
  cbv zeta. cbn [title city state].
  split; [exact (cut_at_first _ _ Hcomma)|].
  split; [apply before_free|].
  split; [apply state_label_clean|].
  exists (collect false pre), (collect true post).
  rewrite parse_cities_collect, parse_collect.
  unfold nl in Hsplit. rewrite Hsplit, collect_app, Hpre.
  cbn [collect]. rewrite Hhead.
  rewrite (bullet_not_heading_start _ Hbul). cbn [andb].
  unfold line_entries. rewrite Hhead, Hbul, Hlink.
  unfold link_entries. rewrite Hcomma.
  split; reflexivity.
Qed.

Lemma parser_splits_on_first_comma_witness :
  exists out1 out2,
    Springfield.parse_us_springfields_from_wikitext page_alias
    = Ok (out1 ++ {| title := str "Springfield, Ohio (town)";
                     city := str "Springfield";
                     state := str "Ohio" |} :: out2).
Proof.
  destruct (@parser_splits_on_first_comma page_alias
              [us_heading]
              (str "* [[Springfield, Ohio (town)|Springfield]], a city")
              [str "* [[Springfield metropolitan area]]"]
              (str "Springfield, Ohio (town)|Springfield")
              eq_refl eq_refl eq_refl eq_refl eq_refl eq_refl)
    as (_ & _ & _ & out1 & out2 & H & _).
  exists out1, out2. exact H.
Defined.

(** C4, as the source has it: a second-level heading does not end the
    collection.  The entry under [== Canada ==] is collected too. *)
Lemma parser_level_two_heading_does_not_stop :
  Springfield.parse_us_springfields_from_wikitext page_level_two
  = Ok [ entry_of_title (str "Springfield, Ohio");
         entry_of_title (str "Springfield, Ontario") ].
Proof. vm_compute. reflexivity. Qed.

(** C4 (amended): the parser collects from the lines that follow the first
    line containing the text [=== United States ===], up to the first later
    line that starts with [===] and does not contain that text; nothing
    after that line is collected, and a line containing the heading text
    contributes no entry.  (A heading with two equal signs does not start
    with three and so does not end the section.) *)
Theorem parser_section_bounds :
  forall content : pystr,
    Springfield.parse_us_springfields_from_wikitext content
    = Ok (flat_map line_entries (section_lines (split nl content)))
    /\ General.parse_us_cities_from_wikitext content
       = Ok (flat_map line_entries (section_lines (split nl content))).
Proof.
  intros content. rewrite parse_cities_collect, parse_collect.
  unfold section_lines, nl. rewrite collect_outside, collect_inside.
  split; reflexivity.
Qed.

(** C7: a bulleted line of the section whose pipe-trimmed link target has
    no comma gives no entry and no error: the parser returns normally, and
    returns what it returns on the page without that line. *)
Theorem parser_drops_link_without_comma :
  forall (content content' : pystr) (pre : list pystr) (line : pystr)
         (post : list pystr),
    split nl content = pre ++ line :: post ->
    split nl content' = pre ++ post ->
    section_state false pre = Some true ->
    is_bullet line = true ->
    (forall e, search_link line = Some e ->
               char_in (chr ",") (pipe_trim e) = false) ->
    (exists out,
        Springfield.parse_us_springfields_from_wikitext content = Ok out
        /\ Springfield.parse_us_springfields_from_wikitext content' = Ok out)
    /\ (exists out,
        General.parse_us_cities_from_wikitext content = Ok out
        /\ General.parse_us_cities_from_wikitext content' = Ok out).
Proof.
  intros content content' pre line post Hc Hc' Hpre Hbul Hno.
  assert (H : collect false (pre ++ line :: post) = collect false (pre ++ post)).
  { rewrite !collect_app, Hpre. f_equal. cbn [collect].
    destruct (is_us_heading line) eqn:Hh; [reflexivity|].
    rewrite (bullet_not_heading_start _ Hbul). cbn [andb].
    unfold line_entries. rewrite Hh, Hbul.
    destruct (search_link line) as [e|] eqn:He; [|reflexivity].
    unfold link_entries. now rewrite (Hno e eq_refl). }
  split; exists (collect false (pre ++ post));
    rewrite ?parse_cities_collect, ?parse_collect;
    unfold nl in Hc, Hc'; rewrite Hc, Hc', H; split; reflexivity.
Qed.

Lemma parser_drops_link_without_comma_witness :
  exists out,
    Springfield.parse_us_springfields_from_wikitext page_alias = Ok out
    /\ Springfield.parse_us_springfields_from_wikitext page_alias_short = Ok out.
Proof.
  refine (proj1 (@parser_drops_link_without_comma page_alias page_alias_short
              [us_heading;
               str "* [[Springfield, Ohio (town)|Springfield]], a city"]
              (str "* [[Springfield metropolitan area]]") []
              eq_refl eq_refl eq_refl eq_refl _)).
  intros e He. vm_compute in He. injection He as <-. reflexivity.
Defined.

(** C9: the state of every emitted entry has no opening parenthesis and no
    white space at either end. *)
Theorem parser_state_label_clean :
  forall (content : pystr) (out : list CandidateEntry) (e : CandidateEntry),
    (Springfield.parse_us_springfields_from_wikitext content = Ok out
     \/ General.parse_us_cities_from_wikitext content = Ok out) ->
    In e out ->
    char_in (chr "(") (state e) = false /\ trimmed (state e).
Proof.
  intros content out e Hparse Hin.
  rewrite parse_cities_collect, parse_collect in Hparse.
  assert (Hout : out = collect false (split (chr "010") content))
    by (destruct Hparse as [H|H]; now injection H).
  subst out. destruct (collect_entries _ _ _ Hin) as [t ->].
  apply state_label_clean.
Qed.

Lemma parser_state_label_clean_witness :
  char_in (chr "(") (str "Ohio") = false /\ trimmed (str "Ohio").
Proof.
  refine (@parser_state_label_clean page_alias
            [entry_of_title (str "Springfield, Ohio (town)")]
            (entry_of_title (str "Springfield, Ohio (town)")) _ _).
  - left. vm_compute. reflexivity.
  - left. reflexivity.
Defined.

(* ================================================================== *)
(** ** The coordinate resolver: properties *)
(* ================================================================== *)

Section RegexLemmas.
Variable A : Type.

Lemma re_star_greedy (cls : char -> bool) (f r : pystr)
      (k : pystr -> pystr -> option A) (a : A) :
  forallb cls f = true ->
  match r with [] => True | c :: _ => cls c = false end ->
  k f r = Some a ->
  re_star cls (f ++ r) k = Some a.
Proof.
  revert k. induction f as [|x f IH]; intros k Hf Hr Hk.
  - cbn [app]. destruct r as [|c r]; cbn [re_star]; [exact Hk|].
    now rewrite Hr.
  - cbn [forallb] in Hf. apply andb_prop in Hf. destruct Hf as [Hx Hf].
    cbn [app re_star]. rewrite Hx.
    now rewrite (IH (fun g r0 => k (x :: g) r0) Hf Hr Hk).
Qed.

Lemma re_plus_greedy (cls : char -> bool) (f r : pystr)
      (k : pystr -> pystr -> option A) (a : A) :
  f <> [] -> forallb cls f = true ->
  match r with [] => True | c :: _ => cls c = false end ->
  k f r = Some a ->
  re_plus cls (f ++ r) k = Some a.
Proof.
  intros Hne Hf Hr Hk. destruct f as [|x f]; [congruence|].
  cbn [forallb] in Hf. apply andb_prop in Hf. destruct Hf as [Hx Hf].
  cbn [app re_plus]. rewrite Hx.
  exact (re_star_greedy cls f r (fun g r0 => k (x :: g) r0) Hf Hr Hk).
Qed.

Lemma re_lit_ignorecase (p m s : pystr) (k : pystr -> option A) :
  map ascii_lower p = p -> map ascii_lower m = p ->
  re_lit same_ignorecase p (m ++ s) k = k s.
Proof.
  revert m. induction p as [|a p IH]; intros m Hp Hm.
  - destruct m; [reflexivity|discriminate].
  - destruct m as [|b m]; [discriminate|].
    cbn [map] in Hp, Hm. injection Hp as Ha Hp. injection Hm as Hb Hm.
    cbn [app re_lit]. unfold same_ignorecase. rewrite Ha, Hb.
    unfold char_eqb. rewrite N.eqb_refl. now apply IH.
Qed.

Lemma re_search_here (m : pystr -> option A) (s : pystr) (a : A) :
  m s = Some a -> re_search m s = Some a.
Proof. intros H. destruct s; cbn [re_search]; now rewrite H. Qed.

Lemma re_search_skip (m : pystr -> option A) (pre s : pystr) :
  (forall c t, In c pre -> m (c :: t) = None) ->
  re_search m (pre ++ s) = re_search m s.
Proof.
  induction pre as [|c pre IH]; intros H; [reflexivity|].
  cbn [app re_search]. rewrite (H c (pre ++ s) (or_introl eq_refl)).
  apply IH. intros c' t Hc'. apply H. now right.
Qed.

End RegexLemmas.

Lemma is_field_spec (f : pystr) :
  is_field f = true -> f <> [] /\ forallb field_char f = true.
Proof. destruct f; [discriminate|]. intros H. split; [discriminate|exact H]. Qed.

Lemma coord_pattern_needs_brace (c : char) (t : pystr) :
  char_eqb (chr "{") c = false -> coord_pattern (c :: t) = None.
Proof.
  intros Hc. unfold coord_pattern.
  change (str "{{coord|") with (chr "{" :: str "{coord|").
  cbn [re_lit]. unfold same_ignorecase.
  replace (char_eqb (ascii_lower (chr "{")) (ascii_lower c)) with false;
    [reflexivity|].
  symmetry. unfold char_eqb in *. apply N.eqb_neq in Hc. apply N.eqb_neq.
  unfold ascii_lower.
  change (chr "{") with 123%N in *. cbn [N.leb N.compare andb].
  destruct ((65 <=? c) && (c <=? 90))%N eqn:Hr; [|exact Hc].
  apply andb_prop in Hr. destruct Hr as [H1 H2].
  apply N.leb_le in H1, H2. change ((123 <=? 90)%N) with false.
  rewrite andb_false_r. lia.
Qed.

(** The pattern finds a template that nothing but text without an opening
    brace precedes, and its groups are the eight fields. *)
Lemma search_coord_template (pre opening rest : pystr) (g : coord_groups) :
  char_in (chr "{") pre = false ->
  map ascii_lower opening = str "{{coord|" ->
  fields_ok g = true ->
  ends_field rest ->
  search_coord (pre ++ coord_template opening g ++ rest) = Some g.
Proof.
  intros Hpre Hop Hg Hrest. unfold search_coord.
  rewrite re_search_skip.
  2:{ intros c t Hc. apply coord_pattern_needs_brace.
      unfold char_in in Hpre.
      destruct (char_eqb (chr "{") c) eqn:Hcc; [|reflexivity].
      exfalso. assert (Hex : existsb (char_eqb (chr "{")) pre = true)
        by (apply existsb_exists; now exists c).
      congruence. }
  unfold fields_ok in Hg.
  repeat (apply andb_prop in Hg; destruct Hg as [Hg ?]).
  repeat match goal with
         | H : is_field _ = true |- _ => apply is_field_spec in H; destruct H
         end.
  destruct g as [f1 f2 f3 f4 f5 f6 f7 f8]. cbn [lat_deg lat_min lat_sec lat_dir
    lon_deg lon_min lon_sec lon_dir] in *.
  unfold coord_template. cbn [lat_deg lat_min lat_sec lat_dir
    lon_deg lon_min lon_sec lon_dir].
  assert (Hm : coord_pattern
                 ((opening ++ f1 ++ chr "|" :: f2 ++ chr "|" :: f3 ++ chr "|" ::
                   f4 ++ chr "|" :: f5 ++ chr "|" :: f6 ++ chr "|" :: f7 ++
                   chr "|" :: f8) ++ rest)
               = Some {| lat_deg := f1; lat_min := f2; lat_sec := f3;
                         lat_dir := f4; lon_deg := f5; lon_min := f6;
                         lon_sec := f7; lon_dir := f8 |}).
  { unfold coord_pattern. rewrite <- !app_assoc.
    rewrite re_lit_ignorecase by (reflexivity || assumption).
    repeat (rewrite <- ?app_comm_cons, <- ?app_assoc;
            apply re_plus_greedy; [assumption|assumption|reflexivity|];
            change (str "|") with [chr "|"]; cbn [re_lit];
            change (same_ignorecase (chr "|") (chr "|")) with true;
            cbv iota).
    apply re_plus_greedy; [assumption|assumption|exact Hrest|reflexivity]. }
  exact (re_search_here coord_pattern _ Hm).
Qed.

Section Resolver.
Context {E : Externals}.

Lemma find_original_title (batch : list CandidateEntry) (page : page_json)
      (original : CandidateEntry) :
  Springfield.find_original batch page = Ok (Some original) ->
  exists t, p_title page = Some t.
Proof.
  unfold Springfield.find_original. destruct batch; [discriminate|].
  destruct (p_title page) as [t|]; [now exists t|discriminate].
Qed.

Lemma dms_to_decimal_spec (g : coord_groups) (d m s d' m' s' : float) :
  float_of_str (lat_deg g) = Some d ->
  float_of_str (lat_min g) = Some m ->
  float_of_str (lat_sec g) = Some s ->
  float_of_str (lon_deg g) = Some d' ->
  float_of_str (lon_min g) = Some m' ->
  float_of_str (lon_sec g) = Some s' ->
  Springfield.dms_to_decimal g =
  Some (negate_if (str_eqb (str_upper (lat_dir g)) (str "S"))
                  (decimal_degrees d m s),
        negate_if (str_eqb (str_upper (lon_dir g)) (str "W"))
                  (decimal_degrees d' m' s')).
Proof.
  intros H1 H2 H3 H4 H5 H6. unfold Springfield.dms_to_decimal.
  rewrite H1, H2, H3, H4, H5, H6. reflexivity.
Qed.

Lemma float_of_literal (ds : pystr) :
  ds <> [] -> forallb is_digit ds = true ->
  float_of_str ds = Some (float_of_Z (decimal ds)).
Proof. apply float_of_digits. Qed.

Lemma search_coord_example :
  search_coord coord_example =
  Some {| lat_deg := str "39"; lat_min := str "55"; lat_sec := str "0";
          lat_dir := str "N";
          lon_deg := str "83"; lon_min := str "48"; lon_sec := str "0";
          lon_dir := str "W" |}.
Proof. vm_compute. reflexivity. Qed.

End Resolver.


Section ResolverLoops.
Context {E : Externals}.

Lemma for_pages_app (batch : list CandidateEntry)
      (results : list ResolvedPlace) (l1 l2 : list page_json) :
  Springfield.for_pages batch results (l1 ++ l2) =
  rbind (Springfield.for_pages batch results l1)
        (fun r => Springfield.for_pages batch r l2).
Proof.
  revert results. induction l1 as [|p l1 IH]; intros results;
    cbn [Springfield.for_pages app rbind]; [reflexivity|].
  destruct (Springfield.page_body batch results p) as [r|e];
    cbn [rbind]; [apply IH|reflexivity].
Qed.

Lemma page_body_empty_coordinates (batch : list CandidateEntry)
      (results : list ResolvedPlace) (page : page_json)
      (original : CandidateEntry) :
  Springfield.find_original batch page = Ok (Some original) ->
  p_coordinates page = Some [] ->
  Springfield.page_body batch results page = Raise IndexError.
Proof.
  intros Ho Hc. unfold Springfield.page_body.
  rewrite Ho. cbn [rbind]. rewrite Hc. reflexivity.
Qed.

(** One batch whose request is answered with a table of pages. *)
Lemma batch_body_pages (cities : list CandidateEntry)
      (results : list ResolvedPlace) (i : nat) (w : world)
      (resp : response) (data : data_json) (q : query_json)
      (pages : list (pystr * page_json)) :
  http_get (http_log w) (coordinates_request (slice cities i 50)) = Some resp ->
  status_ok resp = true ->
  json resp = Some data ->
  d_query data = Some q ->
  q_pages q = Some pages ->
  Springfield.for_pages (slice cities i 50) results (map snd pages)
  <> Raise RequestException ->
  fst (Springfield.batch_body cities results i w) =
  Springfield.for_pages (slice cities i 50) results (map snd pages).
Proof.
  intros Hget Hst Hjs Hq Hp Hne.
  unfold Springfield.batch_body, try_except_request, bind, requests_get.
  unfold coordinates_request in Hget. unfold Springfield.base_url.
  rewrite Hget.
  unfold raise_for_status. rewrite Hst. unfold ret at 1.
  unfold response_json. rewrite Hjs. unfold ret at 1.
  rewrite Hq, Hp. unfold lift.
  destruct (Springfield.for_pages (slice cities i 50) results (map snd pages))
    as [r|e]; [reflexivity|].
  destruct e; try reflexivity. congruence.
Qed.

Lemma range_step_single (n : nat) :
  0 < n <= 50 -> range_step n 50 = [0].
Proof.
  intros Hn. unfold range_step.
  replace ((n + (50 - 1)) / 50) with 1; [reflexivity|].
  apply (Nat.div_unique (n + (50 - 1)) 50 1 (n - 1)); lia.
Qed.

Lemma slice_all {A} (l : list A) (n : nat) :
  List.length l <= n -> slice l 0 n = l.
Proof. intros H. unfold slice. cbn [skipn]. now apply firstn_all2. Qed.

Lemma for_batches_raise (cities : list CandidateEntry)
      (results : list ResolvedPlace) (i : nat) (rest : list nat)
      (w : world) (e : exn) :
  fst (Springfield.batch_body cities results i w) = Raise e ->
  fst (Springfield.for_batches cities results (i :: rest) w) = Raise e.
Proof.
  cbn [Springfield.for_batches]. unfold bind.
  destruct (Springfield.batch_body cities results i w) as [[r|e'] w'];
    cbn [fst]; [discriminate|tauto].
Qed.

End ResolverLoops.

(** C10: the first element of the list of coordinates is read without a
    test.  With a non-empty list the read succeeds and its pair is used;
    with a matched page whose list is empty the loop body raises
    [IndexError], which no handler of [get_coordinates_batch] catches: the
    batch loop, and the function itself for a single batch, end with that
    exception and return no table. *)
Theorem empty_coordinates_raise_index_error :
  forall E : Externals,
    (forall batch results page original,
        Springfield.find_original batch page = Ok (Some original) ->
        p_coordinates page = Some [] ->
        Springfield.page_body batch results page = Raise IndexError
        /\ General.page_body batch results page = Raise IndexError)
    /\ (forall batch results page original c cs lat lon,
        Springfield.find_original batch page = Ok (Some original) ->
        p_coordinates page = Some (c :: cs) ->
        c_lat c = Some lat -> c_lon c = Some lon ->
        exists r,
          Springfield.page_body batch results page = Ok (results ++ [r])
          /\ General.page_body batch results page = Ok (results ++ [r])
          /\ rp_latitude r = lat /\ rp_longitude r = lon)
    /\ (forall cities results0 i rest w resp data q pages
               earlier page later results original,
        http_get (http_log w) (coordinates_request (slice cities i 50))
        = Some resp ->
        status_ok resp = true ->
        json resp = Some data ->
        d_query data = Some q ->
        q_pages q = Some pages ->
        map snd pages = earlier ++ page :: later ->
        Springfield.for_pages (slice cities i 50) results0 earlier = Ok results ->
        Springfield.find_original (slice cities i 50) page = Ok (Some original) ->
        p_coordinates page = Some [] ->
        fst (Springfield.for_batches cities results0 (i :: rest) w)
        = Raise IndexError
        /\ fst (General.for_batches cities results0 (i :: rest) w)
           = Raise IndexError)
    /\ (forall cities w resp data q pages earlier page later results original,
        0 < List.length cities <= 50 ->
        http_get (http_log w) (coordinates_request cities) = Some resp ->
        status_ok resp = true ->
        json resp = Some data ->
        d_query data = Some q ->
        q_pages q = Some pages ->
        map snd pages = earlier ++ page :: later ->
        Springfield.for_pages cities [] earlier = Ok results ->
        Springfield.find_original cities page = Ok (Some original) ->
        p_coordinates page = Some [] ->
        fst (Springfield.get_coordinates_batch cities w) = Raise IndexError
        /\ fst (General.get_coordinates_batch cities w) = Raise IndexError).
Proof.
  intros E.
  assert (Hbatches :
    forall cities results0 i rest w resp data q pages
           earlier page later results original,
      http_get (http_log w) (coordinates_request (slice cities i 50))
      = Some resp ->
      status_ok resp = true ->
      json resp = Some data ->
      d_query data = Some q ->
      q_pages q = Some pages ->
      map snd pages = earlier ++ page :: later ->
      Springfield.for_pages (slice cities i 50) results0 earlier = Ok results ->
      Springfield.find_original (slice cities i 50) page = Ok (Some original) ->
      p_coordinates page = Some [] ->
      fst (Springfield.for_batches cities results0 (i :: rest) w)
      = Raise IndexError).
  { intros cities results0 i rest w resp data q pages earlier page later
           results original Hget Hst Hjs Hq Hp Hpages Hearlier Horig Hco.
    assert (Hraise :
      Springfield.for_pages (slice cities i 50) results0 (map snd pages)
      = Raise IndexError).
    { rewrite Hpages, for_pages_app, Hearlier. cbn [rbind Springfield.for_pages].
      now rewrite (@page_body_empty_coordinates E _ results _ _ Horig Hco). }
    apply for_batches_raise.
    rewrite (@batch_body_pages E cities results0 i w _ _ _ _ Hget Hst Hjs Hq Hp);
      [exact Hraise|].
    rewrite Hraise. discriminate. }
  split; [|split; [|split]].
  - intros batch results page original Ho Hc.
    split; exact (@page_body_empty_coordinates E _ results _ _ Ho Hc).
  - intros batch results page original c cs lat lon Ho Hc Hlat Hlon.
    destruct (find_original_title _ _ Ho) as [t Ht].
    eexists.
    assert (Hs : Springfield.page_body batch results page =
                 Ok (results ++
                     [ {| rp_title := t; rp_city := city original;
                          rp_state := state original;
                          rp_latitude := lat; rp_longitude := lon;
                          rp_url := match p_canonicalurl page with
                                    | Some u => u
                                    | None => []
                                    end |} ])).
    { unfold Springfield.page_body. rewrite Ho. cbn [rbind]. rewrite Hc.
      cbn [item0 rbind]. rewrite Hlat, Hlon. cbn [key rbind].
      unfold Springfield.append_result. rewrite Ht. reflexivity. }
    split; [exact Hs|]. split; [exact Hs|]. split; reflexivity.
  - intros cities results0 i rest w resp data q pages earlier page later
           results original Hget Hst Hjs Hq Hp Hpages Hearlier Horig Hco.
    split;
      exact (Hbatches cities results0 i rest w resp data q pages earlier page
               later results original Hget Hst Hjs Hq Hp Hpages Hearlier
               Horig Hco).
  - intros cities w resp data q pages earlier page later results original
           Hlen Hget Hst Hjs Hq Hp Hpages Hearlier Horig Hco.
    assert (Hslice : slice cities 0 50 = cities)
      by (apply slice_all; lia).
    split;
      change (fst (Springfield.get_coordinates_batch cities w) = Raise IndexError);
      unfold Springfield.get_coordinates_batch;
      rewrite (@range_step_single _ Hlen);
      apply (Hbatches cities [] 0 [] w resp data q pages earlier page later
               results original);
      rewrite ?Hslice; assumption.
Qed.

Lemma empty_coordinates_raise_index_error_witness :
  fst (@Springfield.get_coordinates_batch
         (externals_serving (response_with page_empty_coordinates))
         demo_entries empty_world) = Raise IndexError
  /\ fst (@General.get_coordinates_batch
            (externals_serving (response_with page_empty_coordinates))
            demo_entries empty_world) = Raise IndexError.
Proof.
  refine (proj2 (proj2 (proj2 (empty_coordinates_raise_index_error
            (externals_serving (response_with page_empty_coordinates)))))
            demo_entries empty_world
            (response_with page_empty_coordinates) _ _
            [(str "1", page_empty_coordinates)] [] page_empty_coordinates []
            [] {| title := str "Springfield, Ohio"; city := str "Springfield";
                  state := str "Ohio" |}
            _ eq_refl eq_refl eq_refl eq_refl eq_refl eq_refl eq_refl eq_refl
            eq_refl).
  cbn. lia.
Defined.

(* ================================================================== *)
(** ** The spatial joiner: lemmas *)
(* ================================================================== *)

Section Fetch.
Context {E : Externals}.

Lemma zip_is_not_data : str_eqb zip_path (str "data") = false.
Proof. vm_compute. reflexivity. Qed.

Lemma dirname_zip : dirname zip_path = str "data".
Proof. vm_compute. reflexivity. Qed.

(** What one run of the fetch does to the log of requests and to the
    cache file. *)
Lemma fetch_states_trace (w : world) :
  exists r w',
    Springfield.fetch_states w = (r, w')
    /\ (fs w zip_path <> None ->
        http_log w' = http_log w /\ fs w' zip_path = fs w zip_path)
    /\ (http_log w' = http_log w
        \/ http_log w' = http_log w ++ [states_request])
    /\ (forall t, r = Ok t -> fs w' zip_path <> None).
Proof.
  destruct w as [f mw log out].
  unfold Springfield.fetch_states, bind, os_path_exists, os_makedirs,
    write_binary, gpd_read_file, requests_get, print, ret, fs_set.
  fold zip_path. rewrite dirname_zip.
  cbn [fs may_write http_log stdout negb].
  repeat (split_match; cbn [fs may_write http_log stdout negb];
          rewrite ?zip_is_not_data, ?str_eqb_refl in * ).
  all: do 2 eexists; (split; [reflexivity|]);
    cbn [fs may_write http_log stdout];
    rewrite ?zip_is_not_data, ?str_eqb_refl.
  all: repeat match goal with
              | |- _ /\ _ => split
              | |- _ \/ _ => first [left; reflexivity | right; reflexivity]
              | |- _ -> _ => intro
              end;
    try reflexivity; try discriminate; congruence.
Qed.

(** The cache file is there: it is read, and nothing else happens. *)
Lemma fetch_states_cached (w : world) (d : bytes) (n : node) :
  fs w (str "data") = Some n ->
  fs w zip_path = Some (File d) ->
  Springfield.fetch_states w =
  (match read_shapefile d with
   | Some t => Ok t
   | None => Raise DriverError
   end, w).
Proof.
  intros Hd Hz.
  unfold Springfield.fetch_states, bind, os_path_exists, gpd_read_file, ret.
  fold zip_path. cbv beta. rewrite Hd. cbn [negb]. cbv beta.
  rewrite Hz. cbn [negb]. cbv beta. rewrite Hz.
  destruct (read_shapefile d); reflexivity.
Qed.

End Fetch.

Section Join.
Context {E : Externals}.

Lemma join_springfields_after_fetch (gdf : GeoDataFrame) (w : world) :
  exists r w1 w',
    Springfield.fetch_states w = (r, w1)
    /\ fs w' = fs w1 /\ http_log w' = http_log w1
    /\ Springfield.join_springfields_to_states gdf w =
       (match r with
        | Ok t => Ok (springfield_rows gdf t)
        | Raise e => Raise e
        end, w').
Proof.
  unfold Springfield.join_springfields_to_states, bind.
  destruct (Springfield.fetch_states w) as [[t|e] w1].
  - fold (reprojected (crs gdf) t).
    match goal with
    | |- context [match ?l with [] => _ | _ :: _ => _ end] => destruct l
    end; unfold print, ret; cbn [fs http_log];
      do 3 eexists; (split; [reflexivity|]);
      (split; [|split]); [| |reflexivity| | |reflexivity]; reflexivity.
  - exists (Raise e), w1, w1. repeat split; reflexivity.
Qed.

Lemma join_cities_after_fetch (gdf : GeoDataFrame) (w : world) :
  exists r w1 w',
    Springfield.fetch_states w = (r, w1)
    /\ fs w' = fs w1 /\ http_log w' = http_log w1
    /\ General.join_cities_to_states gdf w =
       (match r with
        | Ok t => Ok (general_rows gdf t)
        | Raise e => Raise e
        end, w').
Proof.
  unfold General.join_cities_to_states, bind.
  change (@General.fetch_states E) with (@Springfield.fetch_states E).
  destruct (Springfield.fetch_states w) as [[t|e] w1].
  - fold (reprojected (crs gdf) t).
    match goal with
    | |- context [match ?l with [] => _ | _ :: _ => _ end] => destruct l
    end; unfold print, ret; cbn [fs http_log];
      do 3 eexists; (split; [reflexivity|]);
      (split; [|split]); [| |reflexivity| | |reflexivity]; reflexivity.
  - exists (Raise e), w1, w1. repeat split; reflexivity.
Qed.

Lemma join_springfields_fetches_once (gdf : GeoDataFrame) :
  fetches_at_most_once (Springfield.join_springfields_to_states gdf).
Proof.
  intros w.
  destruct (join_springfields_after_fetch gdf w)
    as (r & w1 & w' & Hf & Hfs & Hlog & Hj).
  destruct (fetch_states_trace w) as (r0 & w0 & Hf0 & H1 & H2 & H3).
  rewrite Hf in Hf0. injection Hf0 as <- <-.
  do 2 eexists. split; [exact Hj|]. rewrite Hfs, Hlog.
  split; [exact H1|]. split; [exact H2|].
  intros a Ha. destruct r as [t|e]; [exact (H3 t eq_refl)|discriminate].
Qed.

Lemma join_cities_fetches_once (gdf : GeoDataFrame) :
  fetches_at_most_once (General.join_cities_to_states gdf).
Proof.
  intros w.
  destruct (join_cities_after_fetch gdf w)
    as (r & w1 & w' & Hf & Hfs & Hlog & Hj).
  destruct (fetch_states_trace w) as (r0 & w0 & Hf0 & H1 & H2 & H3).
  rewrite Hf in Hf0. injection Hf0 as <- <-.
  do 2 eexists. split; [exact Hj|]. rewrite Hfs, Hlog.
  split; [exact H1|]. split; [exact H2|].
  intros a Ha. destruct r as [t|e]; [exact (H3 t eq_refl)|discriminate].
Qed.

(** Two runs in sequence issue one request at most. *)
Lemma twice_one_request {A B} (m1 : M A) (m2 : M B) :
  fetches_at_most_once m1 -> fetches_at_most_once m2 ->
  forall w, exists l,
    http_log (snd (bind m1 (fun _ => m2) w)) = http_log w ++ l
    /\ List.length l <= 1.
Proof.
  intros H1 H2 w. unfold bind.
  destruct (H1 w) as (r1 & w1 & -> & _ & Hlog1 & Hex1).
  assert (Hl1 : exists l, http_log w1 = http_log w ++ l /\ List.length l <= 1).
  { destruct Hlog1 as [->| ->].
    - exists []. rewrite app_nil_r. split; [reflexivity|apply Nat.le_0_l].
    - exists [states_request]. split; [reflexivity|apply Nat.le_refl]. }
  destruct r1 as [a|e]; [|exact Hl1].
  destruct (H2 w1) as (r2 & w2 & -> & Hsame & _ & _).
  destruct (Hsame (Hex1 a eq_refl)) as [Hlog2 _].
  cbn [snd]. rewrite Hlog2. exact Hl1.
Qed.

End Join.

(* ================================================================== *)
(** ** The spatial joiner: properties *)
(* ================================================================== *)

(** C8: when the cache file exists, the join issues no request and leaves
    the cache file as it is; with the cache directory and file in place the
    table is computed from the cached copy; a run that returns normally
    leaves the cache file in place; and two runs of the join in sequence
    issue one request at most. *)
Theorem boundary_fetch_downloads_once :
  forall E : Externals,
    (forall gdf w,
        fs w zip_path <> None ->
        (http_log (snd (Springfield.join_springfields_to_states gdf w))
         = http_log w
         /\ fs (snd (Springfield.join_springfields_to_states gdf w)) zip_path
            = fs w zip_path)
        /\ (http_log (snd (General.join_cities_to_states gdf w)) = http_log w
            /\ fs (snd (General.join_cities_to_states gdf w)) zip_path
               = fs w zip_path))
    /\ (forall gdf w nd d,
        fs w (str "data") = Some nd ->
        fs w zip_path = Some (File d) ->
        fst (Springfield.join_springfields_to_states gdf w)
        = match read_shapefile d with
          | Some t => Ok (springfield_rows gdf t)
          | None => Raise DriverError
          end
        /\ fst (General.join_cities_to_states gdf w)
           = match read_shapefile d with
             | Some t => Ok (general_rows gdf t)
             | None => Raise DriverError
             end)
    /\ (forall gdf w joined w1,
        Springfield.join_springfields_to_states gdf w = (Ok joined, w1)
        \/ General.join_cities_to_states gdf w = (Ok joined, w1) ->
        fs w1 zip_path <> None)
    /\ (forall gdf1 gdf2 w,
        (exists l,
            http_log (snd (bind (Springfield.join_springfields_to_states gdf1)
                                (fun _ => Springfield.join_springfields_to_states gdf2)
                                w))
            = http_log w ++ l /\ List.length l <= 1)
        /\ (exists l,
            http_log (snd (bind (General.join_cities_to_states gdf1)
                                (fun _ => General.join_cities_to_states gdf2)
                                w))
            = http_log w ++ l /\ List.length l <= 1)).
Proof.
  intros E. split; [|split; [|split]].
  - intros gdf w Hex. split.
    + destruct (join_springfields_fetches_once gdf w)
        as (r & w' & -> & Hsame & _). exact (Hsame Hex).
    + destruct (join_cities_fetches_once gdf w)
        as (r & w' & -> & Hsame & _). exact (Hsame Hex).
  - intros gdf w nd d Hd Hz. split.
    + destruct (join_springfields_after_fetch gdf w)
        as (r & w1 & w' & Hf & _ & _ & ->).
      rewrite (fetch_states_cached w Hd Hz) in Hf. injection Hf as <- _.
      cbn [fst]. destruct (read_shapefile d); reflexivity.
    + destruct (join_cities_after_fetch gdf w)
        as (r & w1 & w' & Hf & _ & _ & ->).
      rewrite (fetch_states_cached w Hd Hz) in Hf. injection Hf as <- _.
      cbn [fst]. destruct (read_shapefile d); reflexivity.
  - intros gdf w joined w1 [H|H].
    + destruct (join_springfields_fetches_once gdf w)
        as (r & w' & Hj & _ & _ & Hex).
      rewrite Hj in H. injection H as -> ->. exact (Hex joined eq_refl).
    + destruct (join_cities_fetches_once gdf w)
        as (r & w' & Hj & _ & _ & Hex).
      rewrite Hj in H. injection H as -> ->. exact (Hex joined eq_refl).
  - intros gdf1 gdf2 w. split.
    + apply twice_one_request; apply join_springfields_fetches_once.
    + apply twice_one_request; apply join_cities_fetches_once.
Qed.

Lemma boundary_fetch_downloads_once_witness :
  http_log (snd (@Springfield.join_springfields_to_states demo_externals
                   (gdf_of (row_at 40 (Some (str "Ohio")))) cached_world))
  = []
  /\ fs (snd (@Springfield.join_springfields_to_states demo_externals
                (gdf_of (row_at 40 (Some (str "Ohio")))) cached_world))
        zip_path
     = Some (File [80; 75]%N).
Proof.
  refine (proj1 (proj1 (boundary_fetch_downloads_once demo_externals)
                   (gdf_of (row_at 40 (Some (str "Ohio")))) cached_world _)).
  vm_compute. discriminate.
Defined.

Section MatchFlag.
Context {E : Externals}.

Lemma match_lambda_spec (a b : option pystr) :
  Springfield.match_lambda a b = true <->
  exists x y, a = Some x /\ b = Some y /\ strip x = strip y.
Proof.
  unfold Springfield.match_lambda. split.
  - destruct a as [x|]; [|discriminate]. destruct b as [y|]; [|discriminate].
    intros H. apply str_eqb_eq in H. now exists x, y.
  - intros (x & y & -> & -> & H). now apply str_eqb_eq.
Qed.

Lemma joined_row_flag (pr : GeoRow * option (StateRecord polygon)) :
  state_match (joined_row pr) =
  Springfield.match_lambda (state_from_wiki (joined_row pr))
                           (state_name (joined_row pr)).
Proof. reflexivity. Qed.

Lemma join_rows_flag (gdf : GeoDataFrame) (w w' : world)
      (joined : list JoinedRow) (r : JoinedRow) :
  Springfield.join_springfields_to_states gdf w = (Ok joined, w')
  \/ General.join_cities_to_states gdf w = (Ok joined, w') ->
  In r joined ->
  state_match r = Springfield.match_lambda (state_from_wiki r) (state_name r).
Proof.
  intros [H|H] Hin.
  - destruct (join_springfields_after_fetch gdf w)
      as (r0 & w1 & w2 & _ & _ & _ & Hj).
    rewrite Hj in H. destruct r0 as [t|e]; [|discriminate].
    injection H as <- _. unfold springfield_rows in Hin.
    apply in_map_iff in Hin. destruct Hin as (pr & <- & _).
    apply joined_row_flag.
  - destruct (join_cities_after_fetch gdf w)
      as (r0 & w1 & w2 & _ & _ & _ & Hj).
    rewrite Hj in H. destruct r0 as [t|e]; [|discriminate].
    injection H as <- _. unfold general_rows in Hin.
    apply in_map_iff in Hin. destruct Hin as (pr & <- & _).
    apply joined_row_flag.
Qed.

End MatchFlag.

(** C1, as the source has it: the comparison is case-sensitive.  The wiki
    label "ohio" and the polygon name "Ohio" differ only in case, and the
    row is flagged as not matching. *)
Lemma state_match_is_case_sensitive :
  fst (@Springfield.join_springfields_to_states demo_externals
         (gdf_of (row_at 40 (Some (str "ohio")))) cached_world)
  = Ok [ {| j_point := row_at 40 (Some (str "ohio"));
            state_name := Some (str "Ohio");
            state_abbrev := Some (str "OH");
            state_match := false |} ]
  /\ caseless_eq (strip (str "ohio")) (strip (str "Ohio")).
Proof. split; vm_compute; reflexivity. Qed.

(** C1 (amended): for every row of the joined table, [state_match] is true
    iff both the wiki label and the polygon state name are present and
    their trimmed texts are equal, character for character (the comparison
    is case-sensitive); a row with a null on either side is flagged false;
    and white space around either text does not change the flag. *)
Theorem state_match_trimmed_equality :
  forall E : Externals,
    (forall gdf w w' joined r,
        Springfield.join_springfields_to_states gdf w = (Ok joined, w')
        \/ General.join_cities_to_states gdf w = (Ok joined, w') ->
        In r joined ->
        (state_match r = true <->
         exists a b, state_from_wiki r = Some a /\ state_name r = Some b
                     /\ strip a = strip b)
        /\ (state_from_wiki r = None \/ state_name r = None ->
            state_match r = false))
    /\ (forall a b ws1 ws2 ws3 ws4,
        all_space ws1 = true -> all_space ws2 = true ->
        all_space ws3 = true -> all_space ws4 = true ->
        Springfield.match_lambda (Some (ws1 ++ a ++ ws2)) (Some (ws3 ++ b ++ ws4))
        = Springfield.match_lambda (Some a) (Some b)
        /\ General.match_lambda (Some (ws1 ++ a ++ ws2)) (Some (ws3 ++ b ++ ws4))
           = General.match_lambda (Some a) (Some b)).
Proof.
  intros E. split.
  - intros gdf w w' joined r Hj Hin.
    rewrite (@join_rows_flag E gdf w w' joined r Hj Hin). split.
    + apply match_lambda_spec.
    + intros [H|H]; rewrite H; unfold Springfield.match_lambda;
        [reflexivity|]. now destruct (state_from_wiki r).
  - intros a b ws1 ws2 ws3 ws4 H1 H2 H3 H4.
    unfold General.match_lambda, Springfield.match_lambda.
    rewrite !strip_padding by assumption. split; reflexivity.
Qed.

Lemma state_match_trimmed_equality_witness :
  let r := {| j_point := row_at 40 (Some (str " Ohio"));
              state_name := Some (str "Ohio");
              state_abbrev := Some (str "OH");
              state_match := true |} in
  (state_match r = true <->
   exists a b, state_from_wiki r = Some a /\ state_name r = Some b
               /\ strip a = strip b)
  /\ (state_from_wiki r = None \/ state_name r = None ->
      state_match r = false).
Proof.
  refine (proj1 (state_match_trimmed_equality demo_externals)
            (gdf_of (row_at 40 (Some (str " Ohio")))) cached_world
            (snd (@Springfield.join_springfields_to_states demo_externals
                    (gdf_of (row_at 40 (Some (str " Ohio")))) cached_world))
            [ {| j_point := row_at 40 (Some (str " Ohio"));
                 state_name := Some (str "Ohio");
                 state_abbrev := Some (str "OH");
                 state_match := true |} ]
            {| j_point := row_at 40 (Some (str " Ohio"));
               state_name := Some (str "Ohio");
               state_abbrev := Some (str "OH");
               state_match := true |}
            (or_introl _) (or_introl eq_refl)).
  apply injective_projections; [vm_compute; reflexivity|reflexivity].
Defined.

Section Agreement.
Context {E : Externals}.

Lemma filter_within_kept {A} (f keep : A -> bool) (l : list A) :
  (forall s, In s l -> keep s = false -> f s = false) ->
  filter f (filter keep l) = filter f l.
Proof.
  induction l as [|a l IH]; intros H; cbn [filter]; [reflexivity|].
  destruct (keep a) eqn:Hk; cbn [filter].
  - rewrite IH; [reflexivity|]. intros s Hs. apply H. now right.
  - rewrite (H a (or_introl eq_refl) Hk). apply IH.
    intros s Hs. apply H. now right.
Qed.

Lemma sjoin_filter_irrelevant (left : list GeoRow)
      (right : list (StateRecord polygon))
      (keep : StateRecord polygon -> bool) :
  (forall s p, In s right -> keep s = false -> In p left ->
               within (g_point p) (geometry s) = false) ->
  sjoin_left_within within left (filter keep right)
  = sjoin_left_within within left right.
Proof.
  unfold sjoin_left_within.
  induction left as [|p left IH]; intros H; cbn [flat_map]; [reflexivity|].
  rewrite filter_within_kept.
  - rewrite IH; [reflexivity|]. intros s q Hs Hk Hq. apply H; auto. now right.
  - intros s Hs Hk. apply H; auto. now left.
Qed.

Lemma joins_agree (gdf : GeoDataFrame) (w : world) :
  (forall t w1 s p,
      Springfield.fetch_states w = (Ok t, w1) ->
      In s t -> excluded_state s = true -> In p (rows gdf) ->
      within (g_point p) (reproject (crs gdf) (geometry s)) = false) ->
  General.join_cities_to_states gdf w
  = Springfield.join_springfields_to_states gdf w.
Proof.
  intros H.
  unfold General.join_cities_to_states, Springfield.join_springfields_to_states,
    bind.
  change (@General.fetch_states E) with (@Springfield.fetch_states E).
  destruct (Springfield.fetch_states w) as [[t|e] w1] eqn:Hf; [|reflexivity].
  cbv zeta. rewrite sjoin_filter_irrelevant; [reflexivity|].
  intros s p Hs Hk Hp.
  apply in_map_iff in Hs. destruct Hs as (s0 & <- & Hs0).
  cbn [geometry STUSPS] in *. apply (H t w1 s0 p eq_refl Hs0); [|exact Hp].
  unfold excluded_state. now destruct (isin (STUSPS s0) _).
Qed.

End Agreement.

(** C6, as the source has it: the general join leaves Alaska, Hawaii and
    Puerto Rico out of the boundary dataset.  A point inside the Alaska
    polygon is joined to Alaska by the Springfield module and to no state
    by the general module. *)
Lemma joins_differ_in_alaska :
  fst (@Springfield.join_springfields_to_states demo_externals
         (gdf_of (row_at 61 (Some (str "Alaska")))) cached_world)
  = Ok [ {| j_point := row_at 61 (Some (str "Alaska"));
            state_name := Some (str "Alaska");
            state_abbrev := Some (str "AK");
            state_match := true |} ]
  /\ fst (@General.join_cities_to_states demo_externals
            (gdf_of (row_at 61 (Some (str "Alaska")))) cached_world)
     = Ok [ {| j_point := row_at 61 (Some (str "Alaska"));
               state_name := None;
               state_abbrev := None;
               state_match := false |} ]
  /\ @Springfield.join_springfields_to_states demo_externals
       (gdf_of (row_at 61 (Some (str "Alaska")))) cached_world
     <> @General.join_cities_to_states demo_externals
          (gdf_of (row_at 61 (Some (str "Alaska")))) cached_world.
Proof.
  split; [vm_compute; reflexivity|].
  split; [vm_compute; reflexivity|].
  intros H. apply (f_equal fst) in H. vm_compute in H. discriminate.
Qed.

(** C6 (amended): the two parsers are the same function and the two
    [get_coordinates_batch] are the same function; the two joins return the
    same result on every point set none of whose points lies within the
    polygon of Alaska, Hawaii or Puerto Rico in the loaded boundary
    dataset. *)
Theorem pipelines_agree_off_excluded_states :
  forall E : Externals,
    (forall content,
        General.parse_us_cities_from_wikitext content
        = Springfield.parse_us_springfields_from_wikitext content)
    /\ (forall cities w,
        General.get_coordinates_batch cities w
        = Springfield.get_coordinates_batch cities w)
    /\ (forall gdf w,
        (forall t w1 s p,
            Springfield.fetch_states w = (Ok t, w1) ->
            In s t -> excluded_state s = true -> In p (rows gdf) ->
            within (g_point p) (reproject (crs gdf) (geometry s)) = false) ->
        General.join_cities_to_states gdf w
        = Springfield.join_springfields_to_states gdf w).
Proof.
  intros E. split; [|split].
  - intros content. reflexivity.
  - intros cities w. reflexivity.
  - intros gdf w H. now apply joins_agree.
Qed.

Lemma pipelines_agree_off_excluded_states_witness :
  @General.join_cities_to_states demo_externals
    (gdf_of (row_at 40 (Some (str "Ohio")))) cached_world
  = @Springfield.join_springfields_to_states demo_externals
      (gdf_of (row_at 40 (Some (str "Ohio")))) cached_world.
Proof.
  refine (proj2 (proj2 (pipelines_agree_off_excluded_states demo_externals))
            (gdf_of (row_at 40 (Some (str "Ohio")))) cached_world _).
  intros t w1 s p Hf Hs Hx Hp.
  rewrite (@fetch_states_cached demo_externals cached_world
             [80; 75]%N Dir eq_refl eq_refl) in Hf.
  cbn [read_shapefile demo_externals externals_serving] in Hf.
  injection Hf as <- _.
  destruct Hp as [<-|[]].
  destruct Hs as [<-|[<-|[]]].
  - vm_compute. reflexivity.
  - vm_compute in Hx. discriminate.
Defined.

(* ================================================================== *)
(** ** The distribution analyzer *)
(* ================================================================== *)

Section Sorting.
Variables (A : Type) (leb : A -> A -> bool).

Lemma insert_sorted_perm (x : A) (l : list A) :
  Permutation (x :: l) (insert_sorted leb x l).
Proof.
  induction l as [|y l IH]; cbn [insert_sorted]; [apply Permutation_refl|].
  destruct (leb x y); [apply Permutation_refl|].
  eapply perm_trans; [apply perm_swap|]. now apply perm_skip.
Qed.

Lemma sort_by_perm (l : list A) : Permutation l (sort_by leb l).
Proof.
  induction l as [|x l IH]; cbn [sort_by fold_right]; [apply perm_nil|].
  eapply perm_trans; [apply perm_skip, IH|apply insert_sorted_perm].
Qed.

Hypothesis leb_total : forall a b, leb a b = true \/ leb b a = true.

Let R (a b : A) : Prop := leb a b = true.

Lemma insert_sorted_head (x y : A) (l : list A) :
  R y x -> HdRel R y l -> HdRel R y (insert_sorted leb x l).
Proof.
  intros Hyx Hl. destruct l as [|z l]; cbn [insert_sorted].
  - now constructor.
  - destruct (leb x z); constructor; [exact Hyx|].
    now inversion Hl.
Qed.

Lemma insert_sorted_sorted (x : A) (l : list A) :
  Sorted R l -> Sorted R (insert_sorted leb x l).
Proof.
  induction l as [|y l IH]; intros Hs; cbn [insert_sorted].
  - repeat constructor.
  - inversion Hs as [|? ? Hl Hhd]; subst.
    destruct (leb x y) eqn:Hxy.
    + constructor; [exact Hs|]. now constructor.
    + constructor; [now apply IH|].
      apply insert_sorted_head; [|exact Hhd].
      destruct (leb_total x y) as [H|H]; [congruence|exact H].
Qed.

Lemma sort_by_sorted (l : list A) : Sorted R (sort_by leb l).
Proof.
  induction l as [|x l IH]; cbn [sort_by fold_right]; [constructor|].
  now apply insert_sorted_sorted.
Qed.
End Sorting.

Lemma list_sum_perm (l l' : list nat) :
  Permutation l l' -> list_sum l = list_sum l'.
Proof.
  unfold list_sum. induction 1; cbn [fold_right]; lia.
Qed.

Lemma list_sum_cons (x : nat) (l : list nat) :
  list_sum (x :: l) = x + list_sum l.
Proof. reflexivity. Qed.

Lemma count_occ_step (a k : group_key) (keys : list group_key) :
  count_occ key_eq_dec (a :: keys) k
  = (if key_eq_dec a k then 1 else 0) + count_occ key_eq_dec keys k.
Proof. cbn [count_occ]. destruct (key_eq_dec a k); reflexivity. Qed.

Lemma sum_indicator (a : group_key) (ks : list group_key) :
  NoDup ks ->
  list_sum (map (fun k => if key_eq_dec a k then 1 else 0) ks)
  = if in_dec key_eq_dec a ks then 1 else 0.
Proof.
  induction 1 as [|k ks Hk Hnd IH]; [reflexivity|].
  rewrite map_cons, list_sum_cons, IH.
  destruct (key_eq_dec a k) as [->|Hne].
  - destruct (in_dec key_eq_dec k ks) as [Hin|_]; [contradiction|].
    destruct (in_dec key_eq_dec k (k :: ks)) as [_|Hn]; [reflexivity|].
    exfalso. apply Hn. now left.
  - destruct (in_dec key_eq_dec a ks) as [Hin|Hnin];
      destruct (in_dec key_eq_dec a (k :: ks)) as [Hin'|Hnin'];
      try reflexivity.
    + exfalso. apply Hnin'. now right.
    + exfalso. destruct Hin' as [->|Hin']; [now apply Hne|contradiction].
Qed.

Lemma sum_of_counts (keys ks : list group_key) :
  NoDup ks -> (forall k, In k keys -> In k ks) ->
  list_sum (map (count_occ key_eq_dec keys) ks) = List.length keys.
Proof.
  intros Hnd. induction keys as [|a keys IH]; intros Hin.
  - cbn [count_occ List.length]. clear.
    induction ks as [|k ks IH]; [reflexivity|].
    rewrite map_cons, list_sum_cons. exact IH.
  - assert (Hsplit :
      list_sum (map (count_occ key_eq_dec (a :: keys)) ks)
      = list_sum (map (fun k => if key_eq_dec a k then 1 else 0) ks)
        + list_sum (map (count_occ key_eq_dec keys) ks)).
    { clear. induction ks as [|k ks IH]; [reflexivity|].
      rewrite !map_cons, !list_sum_cons, IH, count_occ_step. lia. }
    rewrite Hsplit, (sum_indicator a Hnd), IH.
    + destruct (in_dec key_eq_dec a ks) as [_|Hn]; [reflexivity|].
      exfalso. apply Hn, Hin. now left.
    + intros k Hk. apply Hin. now right.
Qed.

Lemma group_keys_cons (r : JoinedRow) (t : list JoinedRow) :
  group_keys (r :: t)
  = match state_name r, state_abbrev r with
    | Some n, Some a => [(n, a)]
    | _, _ => []
    end ++ group_keys t.
Proof. reflexivity. Qed.

Lemma group_keys_length (t : list JoinedRow) :
  List.length (group_keys t) = List.length (filter has_state t).
Proof.
  induction t as [|r t IH]; [reflexivity|].
  rewrite group_keys_cons. cbn [filter]. unfold has_state at 1.
  destruct (state_name r), (state_abbrev r); cbn [app List.length];
    [f_equal|..]; exact IH.
Qed.

Lemma groupby_size_sum (t : list JoinedRow) :
  list_sum (map count (groupby_size t)) = List.length (filter has_state t).
Proof.
  transitivity (List.length (group_keys t)); [|apply group_keys_length].
  unfold groupby_size. rewrite map_map.
  change (list_sum (map (count_occ key_eq_dec (group_keys t))
                        (sort_by key_leb (nodup key_eq_dec (group_keys t))))
          = List.length (group_keys t)).
  transitivity (list_sum (map (count_occ key_eq_dec (group_keys t))
                              (nodup key_eq_dec (group_keys t)))).
  - apply list_sum_perm, Permutation_map, Permutation_sym, sort_by_perm.
  - apply sum_of_counts; [apply NoDup_nodup|].
    intros k Hk. now apply nodup_In.
Qed.

Lemma sort_values_sum (t : list CountRow) :
  list_sum (map count (sort_values_count_desc t)) = list_sum (map count t).
Proof.
  symmetry. apply list_sum_perm, Permutation_map, sort_by_perm.
Qed.

Lemma sort_values_sorted (t : list CountRow) :
  StronglySorted (fun a b => count b <= count a) (sort_values_count_desc t).
Proof.
  apply Sorted_StronglySorted.
  - intros a b c Hab Hbc. lia.
  - unfold sort_values_count_desc.
    assert (Hs := @sort_by_sorted CountRow (fun a b => count b <=? count a)).
    cbv zeta in Hs.
    assert (Htot : forall a b : CountRow,
               (count b <=? count a) = true \/ (count a <=? count b) = true).
    { intros a b. destruct (Nat.le_ge_cases (count b) (count a)) as [H|H];
        [left|right]; now apply Nat.leb_le. }
    specialize (Hs Htot t).
    induction Hs as [|a l Hl IH Hhd]; constructor; [exact IH|].
    destruct Hhd; constructor. now apply Nat.leb_le.
Qed.

(** C2, as the source has it: a row whose state columns are null belongs
    to no group, so the counts do not add up to the number of rows. *)
Lemma distribution_leaves_out_unmatched_rows :
  fst (Springfield.analyze_springfield_distribution [unmatched_row] empty_world)
  = Ok []
  /\ fst (General.analyze_cities_distribution [unmatched_row] empty_world)
     = Ok []
  /\ list_sum (map count []) <> List.length [unmatched_row].
Proof.
  split; [vm_compute; reflexivity|].
  split; [vm_compute; reflexivity|]. cbn. discriminate.
Qed.

(** C2 (amended): the analyzer returns a table whose counts add up to the
    number of joined rows whose state name and abbreviation are both
    present (rows with null state fields are in no group), and whose rows
    are in non-increasing order of count. *)
Theorem distribution_counts_rows_with_state :
  forall (joined : list JoinedRow) (w : world),
  exists counts,
    fst (Springfield.analyze_springfield_distribution joined w) = Ok counts
    /\ fst (General.analyze_cities_distribution joined w) = Ok counts
    /\ list_sum (map count counts) = List.length (filter has_state joined)
    /\ StronglySorted (fun a b => count b <= count a) counts.
Proof.
  intros joined w.
  exists (sort_values_count_desc (groupby_size joined)).
  split; [reflexivity|]. split; [reflexivity|].
  split; [|apply sort_values_sorted].
  now rewrite sort_values_sum, groupby_size_sum.
Qed.

(* ================================================================== *)
(** ** More on the parser *)
(* ================================================================== *)

Lemma collect_no_heading (lines : list pystr) :
  forallb (fun l => negb (is_us_heading l)) lines = true ->
  collect false lines = [].
Proof.
  induction lines as [|l rest IH]; cbn [forallb collect]; [reflexivity|].
  intros H. apply andb_prop in H. destruct H as [Hl Hrest].
  destruct (is_us_heading l); [discriminate|]. cbn [andb app].
  exact (IH Hrest).
Qed.

(** X1: a page none of whose lines contains the text
    [=== United States ===] gives the empty list, whatever bulleted links it
    has. *)
Theorem parser_without_heading_is_empty :
  forall content : pystr,
    forallb (fun l => negb (is_us_heading l)) (split nl content) = true ->
    Springfield.parse_us_springfields_from_wikitext content = Ok []
    /\ General.parse_us_cities_from_wikitext content = Ok [].
Proof.
  intros content H. rewrite parse_cities_collect, parse_collect.
  unfold nl in H. rewrite (collect_no_heading _ H). split; reflexivity.
Qed.

Lemma parser_without_heading_is_empty_witness :
  Springfield.parse_us_springfields_from_wikitext page_tight_heading = Ok []
  /\ General.parse_us_cities_from_wikitext page_tight_heading = Ok [].
Proof.
  exact (parser_without_heading_is_empty page_tight_heading eq_refl).
Defined.

Section RegexGroups.
Variable A : Type.

Lemma re_search_found (m : pystr -> option A) (s : pystr) (a : A) :
  re_search m s = Some a -> exists t, m t = Some a.
Proof.
  induction s as [|c s IH]; cbn [re_search].
  - destruct (m []) eqn:Hm; [|discriminate].
    intros H. injection H as <-. now exists [].
  - destruct (m (c :: s)) eqn:Hm.
    + intros H. injection H as <-. now exists (c :: s).
    + exact IH.
Qed.

Lemma re_lit_found (same : char -> char -> bool) (p s : pystr)
      (k : pystr -> option A) (a : A) :
  re_lit same p s k = Some a -> exists s', k s' = Some a.
Proof.
  revert s. induction p as [|x p IH]; intros s; cbn [re_lit].
  - intros H. now exists s.
  - destruct s as [|y s]; [discriminate|].
    destruct (same x y); [apply IH|discriminate].
Qed.

Lemma re_star_group (cls : char -> bool) (s : pystr)
      (k : pystr -> pystr -> option A) (a : A) :
  re_star cls s k = Some a ->
  exists g r, forallb cls g = true /\ k g r = Some a.
Proof.
  revert k. induction s as [|c s IH]; intros k; cbn [re_star].
  - intros H. now exists [], [].
  - destruct (cls c) eqn:Hc.
    + destruct (re_star cls s (fun g r => k (c :: g) r)) as [a'|] eqn:Hs.
      * intros H. injection H as <-.
        destruct (IH _ Hs) as (g & r & Hg & Hk).
        exists (c :: g), r. cbn [forallb]. now rewrite Hc, Hg.
      * intros H. now exists [], (c :: s).
    + intros H. now exists [], (c :: s).
Qed.

Lemma re_plus_group (cls : char -> bool) (s : pystr)
      (k : pystr -> pystr -> option A) (a : A) :
  re_plus cls s k = Some a ->
  exists g r, g <> [] /\ forallb cls g = true /\ k g r = Some a.
Proof.
  destruct s as [|c s]; cbn [re_plus]; [discriminate|].
  destruct (cls c) eqn:Hc; [|discriminate].
  intros H. destruct (re_star_group _ _ _ H) as (g & r & Hg & Hk).
  exists (c :: g), r. cbn [forallb]. rewrite Hc, Hg.
  repeat split; [discriminate|exact Hk].
Qed.

End RegexGroups.

Lemma search_link_group (line k : pystr) :
  search_link line = Some k -> k <> [] /\ char_in (chr "]") k = false.
Proof.
  unfold search_link. intros H.
  destruct (re_search_found _ _ H) as [t Ht]. unfold link_pattern in Ht.
  destruct (re_lit_found _ _ _ _ Ht) as [s1 H1].
  destruct (re_plus_group _ _ _ H1) as (g & r & Hne & Hg & H2).
  destruct (re_lit_found _ _ _ _ H2) as [s2 H3]. injection H3 as <-.
  split; [exact Hne|]. unfold char_in.
  clear -Hg. induction g as [|c g IH]; [reflexivity|].
  cbn [forallb existsb] in *. apply andb_prop in Hg. destruct Hg as [Hc Hg].
  rewrite (IH Hg), orb_false_r, char_eqb_sym.
  now destruct (char_eqb c (chr "]")).
Qed.

Lemma before_prefix (c : char) (s : pystr) : exists r, s = before c s ++ r.
Proof.
  induction s as [|a s [r IH]]; cbn [before]; [now exists []|].
  destruct (char_eqb a c); [now exists (a :: s)|].
  exists r. cbn [app]. now rewrite <- IH.
Qed.

Lemma before_keeps_free (c d : char) (s : pystr) :
  char_in d s = false -> char_in d (before c s) = false.
Proof.
  destruct (before_prefix c s) as [r Hr]. intros H.
  rewrite Hr, char_in_app in H.
  now destruct (char_in d (before c s)).
Qed.

Lemma collect_entries_link (b : bool) (lines : list pystr)
      (e : CandidateEntry) :
  In e (collect b lines) ->
  exists line k,
    In line lines /\ search_link line = Some k
    /\ char_in (chr ",") (pipe_trim k) = true
    /\ e = entry_of_title (pipe_trim k).
Proof.
  revert b. induction lines as [|l rest IH]; intros b; cbn [collect];
    [intros []|].
  assert (Hrest : forall b', In e (collect b' rest) ->
            exists line k, In line (l :: rest) /\ search_link line = Some k
              /\ char_in (chr ",") (pipe_trim k) = true
              /\ e = entry_of_title (pipe_trim k)).
  { intros b' H. destruct (IH _ H) as (line & k & Hin & Hrest).
    exists line, k. split; [now right|exact Hrest]. }
  destruct (is_us_heading l) eqn:Hh; [apply Hrest|].
  destruct (b && startswith (str "===") l); [intros []|].
  rewrite in_app_iff. intros [H|H]; [|exact (Hrest _ H)].
  destruct b; [|destruct H].
  unfold line_entries in H. rewrite Hh in H.
  destruct (is_bullet l); [|destruct H].
  destruct (search_link l) as [k|] eqn:Hk; [|destruct H].
  unfold link_entries in H.
  destruct (char_in (chr ",") (pipe_trim k)) eqn:Hc; [|destruct H].
  destruct H as [<-|[]]. exists l, k. repeat split; auto. now left.
Qed.

Lemma emitted_title_shape
      (content : pystr) (out : list CandidateEntry) (e : CandidateEntry) :
  (Springfield.parse_us_springfields_from_wikitext content = Ok out
   \/ General.parse_us_cities_from_wikitext content = Ok out) ->
  In e out ->
  char_in (chr ",") (title e) = true
  /\ char_in (chr "|") (title e) = false
  /\ char_in (chr "]") (title e) = false
  /\ title e = city e ++ chr "," :: after (chr ",") (title e)
  /\ char_in (chr ",") (city e) = false.
Proof.
  intros Hparse Hin.
  rewrite parse_cities_collect, parse_collect in Hparse.
  assert (Hout : out = collect false (split (chr "010") content))
    by (destruct Hparse as [H|H]; now injection H).
  subst out.
  destruct (collect_entries_link _ _ _ Hin) as (line & k & _ & Hk & Hc & ->).
  destruct (search_link_group _ Hk) as [_ Hb].
  cbn [entry_of_title title city].
  split; [exact Hc|]. split; [apply before_free|].
  split; [now apply before_keeps_free|].
  split; [exact (cut_at_first _ _ Hc)|apply before_free].
Qed.

(** X2: the title of every emitted entry has a comma, no pipe and no
    closing bracket, and the city is the part of the title before its first
    comma. *)
Theorem parser_titles_wellformed :
  forall (content : pystr) (out : list CandidateEntry) (e : CandidateEntry),
    (Springfield.parse_us_springfields_from_wikitext content = Ok out
     \/ General.parse_us_cities_from_wikitext content = Ok out) ->
    In e out ->
    char_in (chr ",") (title e) = true
    /\ char_in (chr "|") (title e) = false
    /\ char_in (chr "]") (title e) = false
    /\ title e = city e ++ chr "," :: after (chr ",") (title e)
    /\ char_in (chr ",") (city e) = false.
Proof.
  intros content out e. apply emitted_title_shape.
Qed.

Lemma parser_titles_wellformed_witness :
  char_in (chr ",") (str "Springfield, Ohio (town)") = true
  /\ char_in (chr "|") (str "Springfield, Ohio (town)") = false
  /\ char_in (chr "]") (str "Springfield, Ohio (town)") = false
  /\ str "Springfield, Ohio (town)"
     = str "Springfield" ++ chr "," :: after (chr ",") (str "Springfield, Ohio (town)")
  /\ char_in (chr ",") (str "Springfield") = false.
Proof.
  refine (@parser_titles_wellformed page_alias
            [entry_of_title (str "Springfield, Ohio (town)")]
            (entry_of_title (str "Springfield, Ohio (town)")) _ _).
  - left. vm_compute. reflexivity.
  - left. reflexivity.
Defined.

Lemma split_free (c : char) (x : pystr) :
  char_in c x = false -> split c x = [x].
Proof.
  unfold char_in. induction x as [|a x IH]; cbn [split existsb]; [reflexivity|].
  rewrite (char_eqb_sym c a). destruct (char_eqb a c); cbn [orb]; [discriminate|].
  intros H. now rewrite (IH H).
Qed.

Lemma split_app_sep (c : char) (x t : pystr) :
  char_in c x = false -> split c (x ++ c :: t) = x :: split c t.
Proof.
  unfold char_in. induction x as [|a x IH]; cbn [split existsb app].
  - intros _. unfold char_eqb. now rewrite N.eqb_refl.
  - rewrite (char_eqb_sym c a). destruct (char_eqb a c); cbn [orb];
      [discriminate|].
    intros H. now rewrite (IH H).
Qed.

Lemma split_join (c : char) (l : list pystr) :
  l <> [] -> (forall x, In x l -> char_in c x = false) ->
  split c (join [c] l) = l.
Proof.
  induction l as [|x l IH]; [congruence|]. intros _ H.
  destruct l as [|y l].
  - cbn [join]. apply split_free, H. now left.
  - change (join [c] (x :: y :: l)) with (x ++ c :: join [c] (y :: l)).
    rewrite split_app_sep by (apply H; now left).
    rewrite IH; [reflexivity|discriminate|].
    intros z Hz. apply H. now right.
Qed.


Lemma link_pattern_needs_bracket (c : char) (t : pystr) :
  char_eqb (chr "[") c = false -> link_pattern (c :: t) = None.
Proof.
  intros Hc. unfold link_pattern.
  change (str "[[") with [chr "["; chr "["]. cbn [re_lit]. now rewrite Hc.
Qed.

Lemma search_link_first (pre t rest : pystr) :
  char_in (chr "[") pre = false ->
  t <> [] -> char_in (chr "]") t = false ->
  search_link (pre ++ str "[[" ++ t ++ str "]]" ++ rest) = Some t.
Proof.
  intros Hpre Hne Ht. unfold search_link.
  rewrite re_search_skip.
  2:{ intros c u Hc. apply link_pattern_needs_bracket.
      destruct (char_eqb (chr "[") c) eqn:Hcc; [|reflexivity].
      exfalso. unfold char_in in Hpre.
      assert (Hex : existsb (char_eqb (chr "[")) pre = true)
        by (apply existsb_exists; now exists c).
      congruence. }
  apply re_search_here. unfold link_pattern.
  change (str "[[") with [chr "["; chr "["].
  change (str "]]") with [chr "]"; chr "]"].
  cbn [app re_lit]. change (char_eqb (chr "[") (chr "[")) with true. cbv iota.
  apply re_plus_greedy; [exact Hne| |reflexivity|reflexivity].
  clear -Ht. unfold char_in in Ht. induction t as [|c t IH]; [reflexivity|].
  cbn [existsb forallb] in *. apply orb_false_elim in Ht.
  destruct Ht as [Hc Ht]. rewrite (IH Ht), andb_true_r, char_eqb_sym.
  now rewrite Hc.
Qed.

(** X4: only the first link of a line counts.  Inside the section, when
    the first opening bracket of a bulleted line opens a link [[t]], the
    line gives the entry made from [t] alone, whatever else is on the line,
    with one exception: a line that contains the text
    [=== United States ===] is taken as the heading and gives no entry. *)
Theorem parser_uses_first_link :
  forall (s : parser_state) (pre t rest : pystr),
    in_us_section s = true ->
    is_bullet (pre ++ str "[[" ++ t ++ str "]]" ++ rest) = true ->
    char_in (chr "[") pre = false ->
    t <> [] -> char_in (chr "]") t = false ->
    Springfield.parse_line s (pre ++ str "[[" ++ t ++ str "]]" ++ rest)
    = Ok (Next,
          {| entries :=
               entries s
               ++ (if is_us_heading (pre ++ str "[[" ++ t ++ str "]]" ++ rest)
                   then [] else link_entries t);
             in_us_section := true |})
    /\ General.parse_line s (pre ++ str "[[" ++ t ++ str "]]" ++ rest)
       = Ok (Next,
             {| entries :=
                  entries s
                  ++ (if is_us_heading
                           (pre ++ str "[[" ++ t ++ str "]]" ++ rest)
                      then [] else link_entries t);
                in_us_section := true |}).
Proof.
  intros s pre t rest Hs Hb Hpre Hne Ht.
  assert (H : Springfield.parse_line s (pre ++ str "[[" ++ t ++ str "]]" ++ rest)
              = Ok (Next,
                    {| entries :=
                         entries s
                         ++ (if is_us_heading
                                  (pre ++ str "[[" ++ t ++ str "]]" ++ rest)
                             then [] else link_entries t);
                       in_us_section := true |})).
  { unfold Springfield.parse_line, is_us_heading.
    destruct (contains (str "=== United States ===")
                       (pre ++ str "[[" ++ t ++ str "]]" ++ rest)) eqn:Hh.
    - now rewrite app_nil_r.
    - rewrite (bullet_not_heading_start _ Hb), Hs. cbn [andb].
      unfold is_bullet in Hb. rewrite Hb.
      rewrite (search_link_first pre rest Hpre Hne Ht), add_entry_spec.
      reflexivity. }
  split; exact H.
Qed.

Lemma parser_uses_first_link_witness :
  Springfield.parse_line {| entries := []; in_us_section := true |}
    (str "* " ++ str "[[" ++ str "Springfield, Ohio" ++ str "]]"
     ++ str " near [[Dayton, Ohio]]")
  = Ok (Next, {| entries := [] ++ link_entries (str "Springfield, Ohio");
                 in_us_section := true |})
  /\ Springfield.parse_line {| entries := []; in_us_section := true |}
       (str "* " ++ str "[[" ++ str "Springfield, Ohio" ++ str "]]"
        ++ str " (see === United States === above)")
     = Ok (Next, {| entries := []; in_us_section := true |}).
Proof.
  split.
  - refine (proj1 (@parser_uses_first_link
                     {| entries := []; in_us_section := true |}
                     (str "* ") (str "Springfield, Ohio")
                     (str " near [[Dayton, Ohio]]")
                     eq_refl eq_refl eq_refl _ eq_refl)).
    discriminate.
  - refine (proj1 (@parser_uses_first_link
                     {| entries := []; in_us_section := true |}
                     (str "* ") (str "Springfield, Ohio")
                     (str " (see === United States === above)")
                     eq_refl eq_refl eq_refl _ eq_refl)).
    discriminate.
Defined.

(* ================================================================== *)
(** ** More on the coordinate resolver *)
(* ================================================================== *)

Section ResolverMore.
Context {E : Externals}.

Lemma key_exn {A} (o : option A) (e : exn) :
  key o = Raise e -> e = KeyError.
Proof. destruct o; [discriminate|]. intros H. now injection H. Qed.

Lemma item0_exn {A} (l : list A) (e : exn) :
  item0 l = Raise e -> e = IndexError.
Proof. destruct l; [|discriminate]. intros H. now injection H. Qed.

Lemma append_result_exn (results : list ResolvedPlace) (page : page_json)
      (original : CandidateEntry) (c : float * float) (e : exn) :
  Springfield.append_result results page original c = Raise e -> e = KeyError.
Proof.
  unfold Springfield.append_result.
  destruct (p_title page); cbn [key rbind]; [discriminate|].
  intros H. now injection H.
Qed.

Lemma page_body_exn (batch : list CandidateEntry)
      (results : list ResolvedPlace) (page : page_json) (e : exn) :
  Springfield.page_body batch results page = Raise e ->
  e = KeyError \/ e = IndexError.
Proof.
  unfold Springfield.page_body, Springfield.find_original.
  destruct batch as [|b batch]; cbn [rbind]; [discriminate|].
  destruct (p_title page) as [t|] eqn:Ht; cbn [key rbind];
    [|intros H; injection H as <-; now left].
  destruct (find _ (b :: batch)) as [original|]; [|discriminate].
  destruct (p_coordinates page) as [cl|].
  - destruct cl as [|c cl]; cbn [item0 rbind];
      [intros H; injection H as <-; now right|].
    destruct (c_lat c); cbn [key rbind];
      [|intros H; injection H as <-; now left].
    destruct (c_lon c); cbn [key rbind];
      [|intros H; injection H as <-; now left].
    intros H. left. exact (append_result_exn _ _ _ _ H).
  - destruct (p_revisions page) as [[|rev revs]|]; try discriminate.
    destruct (rev_star rev); cbn [key rbind];
      [|intros H; injection H as <-; now left].
    destruct (search_coord _); [|discriminate].
    destruct (Springfield.dms_to_decimal _); [|discriminate].
    intros H. left. exact (append_result_exn _ _ _ _ H).
Qed.

Lemma for_pages_exn (batch : list CandidateEntry) (pages : list page_json)
      (results : list ResolvedPlace) (e : exn) :
  Springfield.for_pages batch results pages = Raise e ->
  e = KeyError \/ e = IndexError.
Proof.
  revert results. induction pages as [|p pages IH]; intros results;
    cbn [Springfield.for_pages]; [discriminate|].
  destruct (Springfield.page_body batch results p) as [r|e'] eqn:Hp;
    cbn [rbind].
  - apply IH.
  - intros H. injection H as <-. exact (page_body_exn _ _ _ Hp).
Qed.

(** What one batch does: one request, always; then either the table is
    left as it was, or the pages of the answer are processed. *)
Lemma batch_body_cases (cities : list CandidateEntry)
      (results : list ResolvedPlace) (i : nat) (w : world) :
  exists r w',
    Springfield.batch_body cities results i w = (r, w')
    /\ http_log w' = http_log w ++ [coordinates_request (slice cities i 50)]
    /\ fs w' = fs w
    /\ (r = Ok results
        \/ exists pages,
            r = Springfield.for_pages (slice cities i 50) results pages).
Proof.
  destruct w as [f mw log out].
  unfold Springfield.batch_body, try_except_request, bind, requests_get,
    raise_for_status, response_json, print, ret, raise, lift.
  unfold Springfield.base_url. fold (coordinates_request (slice cities i 50)).
  cbn [fs may_write http_log stdout].
  destruct (http_get log (coordinates_request (slice cities i 50))) as [resp|];
    cbn [fs may_write http_log stdout].
  2:{ do 2 eexists. split; [reflexivity|]. cbn [fs http_log]. auto. }
  destruct (status_ok resp); cbn [fs may_write http_log stdout].
  2:{ do 2 eexists. split; [reflexivity|]. cbn [fs http_log]. auto. }
  destruct (json resp) as [data|]; cbn [fs may_write http_log stdout].
  2:{ do 2 eexists. split; [reflexivity|]. cbn [fs http_log]. auto. }
  destruct (d_query data) as [q|].
  2:{ do 2 eexists. split; [reflexivity|]. cbn [fs http_log]. auto. }
  destruct (q_pages q) as [pages|].
  2:{ do 2 eexists. split; [reflexivity|]. cbn [fs http_log]. auto. }
  destruct (Springfield.for_pages (slice cities i 50) results (map snd pages))
    as [r|e] eqn:Hp.
  - do 2 eexists. split; [reflexivity|]. cbn [fs http_log].
    repeat split. right. exists (map snd pages). now rewrite Hp.
  - destruct (for_pages_exn _ _ _ Hp) as [-> | ->];
      (do 2 eexists; split; [reflexivity|]; cbn [fs http_log];
       repeat split; right; exists (map snd pages); now rewrite Hp).
Qed.

Lemma for_batches_exn (cities : list CandidateEntry) (starts : list nat)
      (results : list ResolvedPlace) (w : world) (e : exn) :
  fst (Springfield.for_batches cities results starts w) = Raise e ->
  e = KeyError \/ e = IndexError.
Proof.
  revert results w. induction starts as [|i starts IH]; intros results w;
    cbn [Springfield.for_batches]; [discriminate|].
  unfold bind.
  destruct (batch_body_cases cities results i w)
    as (r & w' & -> & _ & _ & Hr).
  destruct r as [results'|e'].
  - apply IH.
  - cbn [fst]. intros H. injection H as <-.
    destruct Hr as [Hr|[pages Hr]]; [discriminate|].
    symmetry in Hr. exact (for_pages_exn _ _ _ Hr).
Qed.

End ResolverMore.

(** X5: the only exceptions [get_coordinates_batch] lets out are [KeyError]
    and [IndexError], raised while reading the pages of an answer; a failed
    request is never passed on to the caller. *)
Theorem get_coordinates_batch_exceptions :
  forall (E : Externals) (cities : list CandidateEntry) (w : world) (e : exn),
    fst (Springfield.get_coordinates_batch cities w) = Raise e
    \/ fst (General.get_coordinates_batch cities w) = Raise e ->
    e = KeyError \/ e = IndexError.
Proof.
  intros E cities w e H.
  assert (H' : fst (Springfield.get_coordinates_batch cities w) = Raise e)
    by (destruct H as [H|H]; exact H).
  exact (for_batches_exn _ _ _ _ H').
Qed.

Lemma get_coordinates_batch_exceptions_witness :
  IndexError = KeyError \/ IndexError = IndexError.
Proof.
  refine (@get_coordinates_batch_exceptions
            (externals_serving (response_with page_empty_coordinates))
            demo_entries empty_world IndexError _).
  left. vm_compute. reflexivity.
Defined.

Section ResolverRows.
Context {E : Externals}.
Variable cities : list CandidateEntry.

Let from_cities (results : list ResolvedPlace) : Prop :=
  forall r, In r results -> exists c, In c cities /\ row_of_entry r c.

Lemma slice_incl {A} (l : list A) (i n : nat) : incl (slice l i n) l.
Proof.
  intros x Hx. unfold slice in Hx.
  rewrite <- (firstn_skipn i l). apply in_or_app. right.
  rewrite <- (firstn_skipn n (skipn i l)). apply in_or_app. now left.
Qed.

Lemma append_result_rows (batch : list CandidateEntry)
      (results results' : list ResolvedPlace) (page : page_json)
      (original : CandidateEntry) (t : pystr) (c : float * float) :
  incl batch cities ->
  p_title page = Some t ->
  find (fun s => str_eqb (title s) t) batch = Some original ->
  from_cities results ->
  Springfield.append_result results page original c = Ok results' ->
  from_cities results'.
Proof.
  intros Hincl Ht Hfind Hres. unfold Springfield.append_result.
  rewrite Ht. cbn [key rbind]. intros H. injection H as <-.
  intros r Hr. apply in_app_or in Hr. destruct Hr as [Hr|[<-|[]]];
    [exact (Hres r Hr)|].
  destruct (find_some _ _ Hfind) as [Hin Heq]. apply str_eqb_eq in Heq.
  exists original. split; [exact (Hincl _ Hin)|].
  unfold row_of_entry. cbn [rp_title rp_city rp_state]. auto.
Qed.

Lemma page_body_rows (batch : list CandidateEntry)
      (results results' : list ResolvedPlace) (page : page_json) :
  incl batch cities ->
  from_cities results ->
  Springfield.page_body batch results page = Ok results' ->
  from_cities results'.
Proof.
  intros Hincl Hres.
  unfold Springfield.page_body, Springfield.find_original.
  destruct batch as [|b batch]; cbn [rbind];
    [intros H; injection H as <-; exact Hres|].
  destruct (p_title page) as [t|] eqn:Ht; cbn [key rbind]; [|discriminate].
  destruct (find _ (b :: batch)) as [original|] eqn:Hfind;
    [|intros H; injection H as <-; exact Hres].
  destruct (p_coordinates page) as [cl|].
  - destruct cl as [|c cl]; cbn [item0 rbind]; [discriminate|].
    destruct (c_lat c); cbn [key rbind]; [|discriminate].
    destruct (c_lon c); cbn [key rbind]; [|discriminate].
    intros H. eapply append_result_rows; eassumption.
  - destruct (p_revisions page) as [[|rev revs]|];
      try (intros H; injection H as <-; exact Hres).
    destruct (rev_star rev); cbn [key rbind]; [|discriminate].
    destruct (search_coord _);
      [|intros H; injection H as <-; exact Hres].
    destruct (Springfield.dms_to_decimal _);
      [|intros H; injection H as <-; exact Hres].
    intros H. eapply append_result_rows; eassumption.
Qed.

Lemma for_pages_rows (batch : list CandidateEntry) (pages : list page_json)
      (results results' : list ResolvedPlace) :
  incl batch cities ->
  from_cities results ->
  Springfield.for_pages batch results pages = Ok results' ->
  from_cities results'.
Proof.
  intros Hincl. revert results.
  induction pages as [|p pages IH]; intros results Hres;
    cbn [Springfield.for_pages].
  - intros H. injection H as <-. exact Hres.
  - destruct (Springfield.page_body batch results p) as [r|e] eqn:Hp;
      cbn [rbind]; [|discriminate].
    apply IH. eapply page_body_rows; eassumption.
Qed.

Lemma for_batches_rows (starts : list nat) (results out : list ResolvedPlace)
      (w w' : world) :
  from_cities results ->
  Springfield.for_batches cities results starts w = (Ok out, w') ->
  from_cities out
  /\ http_log w' = http_log w
                   ++ map (fun i => coordinates_request (slice cities i 50)) starts
  /\ fs w' = fs w.
Proof.
  revert results w. induction starts as [|i starts IH]; intros results w Hres;
    cbn [Springfield.for_batches].
  - unfold ret. intros H. injection H as <- <-.
    cbn [map]. now rewrite app_nil_r.
  - unfold bind.
    destruct (batch_body_cases cities results i w)
      as (r & w1 & -> & Hlog & Hfs & Hr).
    destruct r as [results1|e]; [|discriminate].
    intros H.
    assert (Hres1 : from_cities results1).
    { destruct Hr as [Hr|[pages Hr]].
      - injection Hr as ->. exact Hres.
      - symmetry in Hr.
        eapply for_pages_rows; [apply slice_incl|exact Hres|exact Hr]. }
    destruct (IH _ _ Hres1 H) as (Hout & Hlog' & Hfs').
    split; [exact Hout|]. split.
    + rewrite Hlog', Hlog. cbn [map]. now rewrite <- app_assoc.
    + now rewrite Hfs', Hfs.
Qed.

End ResolverRows.

Lemma firstn_plus {A} (a b : nat) (l : list A) :
  firstn (a + b) l = firstn a l ++ firstn b (skipn a l).
Proof.
  revert l. induction a as [|a IH]; intros l; [reflexivity|].
  destruct l as [|x l]; cbn [Nat.add firstn skipn app].
  - now destruct b.
  - now rewrite IH.
Qed.

Lemma concat_slices {A} (l : list A) (K : nat) :
  List.concat (map (fun k => slice l (k * 50) 50) (seq 0 K)) = firstn (K * 50) l.
Proof.
  induction K as [|K IH]; [reflexivity|].
  rewrite seq_S, map_app, concat_app, IH. cbn [map List.concat Nat.add].
  rewrite app_nil_r. unfold slice.
  replace (S K * 50) with (K * 50 + 50) by lia.
  now rewrite firstn_plus.
Qed.

Lemma batches_unfold (cities : list CandidateEntry) :
  batches cities
  = map (fun k => slice cities (k * 50) 50)
        (seq 0 ((List.length cities + (50 - 1)) / 50)).
Proof. unfold batches, range_step. now rewrite map_map. Qed.

(** X6: the batches cut the input without loss or overlap: in order they
    make up the list of entries again, none is empty and none has more
    than 50 entries. *)
Theorem batches_partition_entries :
  forall cities : list CandidateEntry,
    List.concat (batches cities) = cities
    /\ Forall (fun b => b <> [] /\ List.length b <= 50) (batches cities).
Proof.
  intros cities. rewrite batches_unfold.
  set (n := List.length cities).
  assert (Hdiv : n + (50 - 1) = 50 * ((n + (50 - 1)) / 50)
                                + (n + (50 - 1)) mod 50)
    by (apply Nat.div_mod_eq).
  assert (Hmod : (n + (50 - 1)) mod 50 < 50)
    by (apply Nat.mod_upper_bound; discriminate).
  set (K := (n + (50 - 1)) / 50) in *.
  split.
  - rewrite concat_slices. apply firstn_all2. fold n. lia.
  - apply Forall_forall. intros b Hb. apply in_map_iff in Hb.
    destruct Hb as (k & <- & Hk). apply in_seq in Hk.
    unfold slice. split.
    + assert (Hlt : k * 50 < n) by lia.
      assert (Hlen : List.length (skipn (k * 50) cities) = n - k * 50)
        by (apply length_skipn).
      destruct (skipn (k * 50) cities) as [|x t]; [cbn in Hlen; lia|].
      discriminate.
    + apply firstn_le_length.
Qed.

(* ================================================================== *)
(** ** The coordinate resolver: from the answers to the rows *)
(* ================================================================== *)

Section ResolverTrace.
Context {E : Externals}.

(** One batch: one request, and the pages of its answer are processed. *)
Lemma batch_body_answer (cities : list CandidateEntry)
      (results : list ResolvedPlace) (i : nat) (w : world) :
  exists w',
    Springfield.batch_body cities results i w
    = (Springfield.for_pages (slice cities i 50) results
         (answer_pages (http_get (http_log w)
                                 (coordinates_request (slice cities i 50)))),
       w')
    /\ http_log w' = http_log w ++ [coordinates_request (slice cities i 50)]
    /\ fs w' = fs w.
Proof.
  destruct w as [f mw log out].
  unfold Springfield.batch_body, try_except_request, bind, requests_get,
    raise_for_status, response_json, print, ret, raise, lift, answer_pages.
  unfold Springfield.base_url. fold (coordinates_request (slice cities i 50)).
  cbn [fs may_write http_log stdout].
  destruct (http_get log (coordinates_request (slice cities i 50))) as [resp|];
    cbn [fs may_write http_log stdout].
  2:{ eexists. split; [reflexivity|]. cbn [fs http_log]. auto. }
  destruct (status_ok resp); cbn [fs may_write http_log stdout].
  2:{ eexists. split; [reflexivity|]. cbn [fs http_log]. auto. }
  destruct (json resp) as [data|]; cbn [fs may_write http_log stdout].
  2:{ eexists. split; [reflexivity|]. cbn [fs http_log]. auto. }
  destruct (d_query data) as [q|].
  2:{ eexists. split; [reflexivity|]. cbn [fs http_log]. auto. }
  destruct (q_pages q) as [pages|].
  2:{ eexists. split; [reflexivity|]. cbn [fs http_log]. auto. }
  destruct (Springfield.for_pages (slice cities i 50) results (map snd pages))
    as [r|e] eqn:Hp.
  - eexists. split; [reflexivity|]. cbn [fs http_log]. auto.
  - destruct (for_pages_exn _ _ _ Hp) as [-> | ->];
      (eexists; split; [reflexivity|]; cbn [fs http_log]; auto).
Qed.

Lemma append_result_row (results results' : list ResolvedPlace)
      (page : page_json) (original : CandidateEntry) (t : pystr)
      (c : float * float) :
  p_title page = Some t ->
  title original = t ->
  Springfield.append_result results page original c = Ok results' ->
  exists r, results' = results ++ [r] /\ row_of_entry r original.
Proof.
  intros Ht Heq. unfold Springfield.append_result.
  rewrite Ht. cbn [key rbind]. intros H. injection H as <-.
  eexists. split; [reflexivity|].
  unfold row_of_entry. cbn [rp_title rp_city rp_state]. auto.
Qed.

(** A page leaves the table as it is or adds one row, made from an entry
    of the batch that has the title of the page. *)
Lemma page_body_step (batch : list CandidateEntry)
      (results results' : list ResolvedPlace) (page : page_json) :
  Springfield.page_body batch results page = Ok results' ->
  results' = results
  \/ exists c r, In c batch /\ p_title page = Some (title c)
                 /\ row_of_entry r c /\ results' = results ++ [r].
Proof.
  unfold Springfield.page_body, Springfield.find_original.
  destruct batch as [|b batch]; cbn [rbind];
    [intros H; injection H as <-; now left|].
  destruct (p_title page) as [t|] eqn:Ht; cbn [key rbind]; [|discriminate].
  destruct (find _ (b :: batch)) as [original|] eqn:Hfind;
    [|intros H; injection H as <-; now left].
  destruct (find_some _ _ Hfind) as [Hin Heq]. apply str_eqb_eq in Heq.
  assert (Happ : forall c0,
             Springfield.append_result results page original c0 = Ok results' ->
             results' = results
             \/ exists c r, In c (b :: batch) /\ Some t = Some (title c)
                            /\ row_of_entry r c /\ results' = results ++ [r]).
  { intros c0 H. right.
    destruct (append_result_row _ _ _ _ Ht Heq H) as (r & -> & Hr).
    exists original, r. rewrite Heq. auto. }
  destruct (p_coordinates page) as [cl|].
  - destruct cl as [|c cl]; cbn [item0 rbind]; [discriminate|].
    destruct (c_lat c); cbn [key rbind]; [|discriminate].
    destruct (c_lon c); cbn [key rbind]; [|discriminate].
    apply Happ.
  - destruct (p_revisions page) as [[|rev revs]|];
      try (intros H; injection H as <-; now left).
    destruct (rev_star rev); cbn [key rbind]; [|discriminate].
    destruct (search_coord _);
      [|intros H; injection H as <-; now left].
    destruct (Springfield.dms_to_decimal _);
      [|intros H; injection H as <-; now left].
    apply Happ.
Qed.

Lemma for_pages_trace (batch : list CandidateEntry) (pages : list page_json) :
  forall results out : list ResolvedPlace,
    Springfield.for_pages batch results pages = Ok out ->
    incl results out
    /\ forall r, In r out ->
                 In r results
                 \/ exists page c, In page pages /\ In c batch
                                   /\ p_title page = Some (title c)
                                   /\ row_of_entry r c.
Proof.
  induction pages as [|p pages IH]; intros results out;
    cbn [Springfield.for_pages].
  - intros H. injection H as <-. split; [apply incl_refl|]. intros r Hr.
    now left.
  - destruct (Springfield.page_body batch results p) as [r1|e] eqn:Hp;
      cbn [rbind]; [|discriminate].
    intros H. destruct (IH _ _ H) as [Hincl Hrows].
    destruct (page_body_step _ _ _ Hp) as [->|(c & r0 & Hc & Ht & Hr0 & ->)].
    + split; [exact Hincl|]. intros r Hr.
      destruct (Hrows r Hr) as [Hin|(page & c & Hpage & Hrest)];
        [now left|].
      right. exists page, c. split; [now right|exact Hrest].
    + split; [intros x Hx; apply Hincl, in_or_app; now left|].
      intros r Hr.
      destruct (Hrows r Hr) as [Hin|(page & c' & Hpage & Hrest)].
      * apply in_app_or in Hin. destruct Hin as [Hin|[<-|[]]]; [now left|].
        right. exists p, c. split; [now left|]. auto.
      * right. exists page, c'. split; [now right|exact Hrest].
Qed.

Lemma for_pages_complete (batch : list CandidateEntry)
      (pages : list page_json) (page : page_json) (r : ResolvedPlace) :
  (forall results0,
      Springfield.page_body batch results0 page = Ok (results0 ++ [r])) ->
  In page pages ->
  forall results out : list ResolvedPlace,
    Springfield.for_pages batch results pages = Ok out ->
    In r out.
Proof.
  intros Hpage. induction pages as [|p pages IH]; intros Hin results out;
    [destruct Hin|].
  cbn [Springfield.for_pages].
  destruct (Springfield.page_body batch results p) as [r1|e] eqn:Hp;
    cbn [rbind]; [|discriminate].
  intros H. destruct Hin as [->|Hin].
  - rewrite Hpage in Hp. injection Hp as <-.
    apply (proj1 (for_pages_trace _ _ _ H)), in_or_app. right. now left.
  - exact (IH Hin _ _ H).
Qed.

(** The whole loop, batch after batch: the table only grows, every row
    comes from a page of the answer to the request of one batch, and every
    page that gives a row has it in the table. *)
Lemma for_batches_trace (cities : list CandidateEntry) (starts : list nat) :
  forall (results out : list ResolvedPlace) (w w' : world),
    Springfield.for_batches cities results starts w = (Ok out, w') ->
    incl results out
    /\ (forall r, In r out ->
          In r results
          \/ exists k i page c,
              nth_error starts k = Some i
              /\ In page
                    (answer_pages
                       (http_get
                          (http_log w
                           ++ map (fun j => coordinates_request (slice cities j 50))
                                  (firstn k starts))
                          (coordinates_request (slice cities i 50))))
              /\ In c (slice cities i 50)
              /\ p_title page = Some (title c)
              /\ row_of_entry r c)
    /\ (forall k i page r,
          nth_error starts k = Some i ->
          In page
             (answer_pages
                (http_get
                   (http_log w
                    ++ map (fun j => coordinates_request (slice cities j 50))
                           (firstn k starts))
                   (coordinates_request (slice cities i 50)))) ->
          (forall results0,
              Springfield.page_body (slice cities i 50) results0 page
              = Ok (results0 ++ [r])) ->
          In r out).
Proof.
  induction starts as [|i starts IH]; intros results out w w';
    cbn [Springfield.for_batches].
  - unfold ret. intros H. injection H as <- <-.
    split; [apply incl_refl|]. split.
    + intros r Hr. now left.
    + intros [|k] i page r Hk; discriminate.
  - unfold bind.
    destruct (batch_body_answer cities results i w) as (w1 & -> & Hlog & _).
    destruct (Springfield.for_pages (slice cities i 50) results _)
      as [results1|e] eqn:Hp; [|discriminate].
    intros H. destruct (IH _ _ _ _ H) as (Hincl & Hsound & Hcomplete).
    destruct (for_pages_trace _ _ _ Hp) as [Hincl1 Hsound1].
    split; [intros x Hx; apply Hincl, Hincl1, Hx|]. split.
    + intros r Hr. destruct (Hsound r Hr) as [Hin|(k & j & page & c & Hk & Hrest)].
      * destruct (Hsound1 r Hin) as [Hin0|(page & c & Hpage & Hc & Ht & Hrow)];
          [now left|].
        right. exists 0, i, page, c. cbn [nth_error firstn map].
        rewrite app_nil_r. auto.
      * right. exists (S k), j, page, c. cbn [nth_error firstn map].
        rewrite Hlog, <- app_assoc in Hrest. cbn [app] in Hrest.
        split; [exact Hk|exact Hrest].
    + intros [|k] j page r Hk Hpage Hrow.
      * cbn [nth_error] in Hk. injection Hk as <-.
        cbn [firstn map] in Hpage. rewrite app_nil_r in Hpage.
        apply Hincl. exact (@for_pages_complete _ _ _ _ Hrow Hpage _ _ Hp).
      * cbn [nth_error] in Hk. cbn [firstn map] in Hpage.
        apply (Hcomplete k j page r Hk); [|exact Hrow].
        rewrite Hlog, <- app_assoc. exact Hpage.
Qed.

(** The same for [get_coordinates_batch], in terms of its batches. *)
Lemma get_coordinates_batch_trace (cities : list CandidateEntry)
      (out : list ResolvedPlace) (w w' : world) :
  Springfield.get_coordinates_batch cities w = (Ok out, w') ->
  (forall r, In r out ->
      exists k batch page c,
        nth_error (batches cities) k = Some batch
        /\ In page
              (answer_pages
                 (http_get
                    (http_log w
                     ++ map coordinates_request (firstn k (batches cities)))
                    (coordinates_request batch)))
        /\ In c batch
        /\ p_title page = Some (title c)
        /\ row_of_entry r c)
  /\ (forall k batch page r,
        nth_error (batches cities) k = Some batch ->
        In page
           (answer_pages
              (http_get
                 (http_log w
                  ++ map coordinates_request (firstn k (batches cities)))
                 (coordinates_request batch))) ->
        (forall results0,
            Springfield.page_body batch results0 page = Ok (results0 ++ [r])) ->
        In r out).
Proof.
  unfold Springfield.get_coordinates_batch, batches. intros H.
  destruct (@for_batches_trace _ _ _ _ _ _ H) as (_ & Hsound & Hcomplete).
  split.
  - intros r Hr.
    destruct (Hsound r Hr) as [[]|(k & i & page & c & Hk & Hpage & Hrest)].
    exists k, (slice cities i 50), page, c.
    rewrite nth_error_map, Hk, firstn_map, map_map. auto.
  - intros k batch page r Hk Hpage Hrow.
    rewrite nth_error_map in Hk.
    destruct (nth_error (range_step (List.length cities) 50) k) as [i|] eqn:Hi;
      [|discriminate].
    cbn [option_map] in Hk. injection Hk as <-.
    rewrite firstn_map, map_map in Hpage.
    exact (Hcomplete k i page r Hi Hpage Hrow).
Qed.

(** The requests of a call: those of the first batches, one each, and of
    all the batches when the call returns. *)
Lemma for_batches_log (cities : list CandidateEntry) (starts : list nat) :
  forall (results : list ResolvedPlace) (w : world),
  exists n,
    n <= List.length starts
    /\ http_log (snd (Springfield.for_batches cities results starts w))
       = http_log w
         ++ map (fun j => coordinates_request (slice cities j 50))
                (firstn n starts)
    /\ (forall out,
          fst (Springfield.for_batches cities results starts w) = Ok out ->
          n = List.length starts).
Proof.
  induction starts as [|i starts IH]; intros results w;
    cbn [Springfield.for_batches].
  - exists 0. unfold ret. cbn [snd firstn map List.length].
    rewrite app_nil_r. auto.
  - unfold bind.
    destruct (batch_body_answer cities results i w) as (w1 & -> & Hlog & _).
    destruct (Springfield.for_pages (slice cities i 50) results _)
      as [results1|e].
    + destruct (IH results1 w1) as (n & Hle & Hn & Hall). exists (S n).
      cbn [List.length firstn map]. split; [lia|]. split.
      * rewrite Hn, Hlog, <- app_assoc. reflexivity.
      * intros out Hout. now rewrite (Hall out Hout).
    + exists 1. cbn [snd fst firstn map List.length].
      split; [lia|]. split; [exact Hlog|discriminate].
Qed.

Lemma Forall2_map_both {A B C} (R : B -> C -> Prop) (f : A -> B) (g : A -> C)
      (l : list A) :
  (forall x, In x l -> R (f x) (g x)) -> Forall2 R (map f l) (map g l).
Proof.
  induction l as [|x l IH]; intros H; cbn [map]; constructor.
  - apply H. now left.
  - apply IH. intros y Hy. apply H. now right.
Qed.

(** A page with a template whose fields are numeric gives its row. *)
Lemma page_body_template (batch : list CandidateEntry) (page : page_json)
      (original : CandidateEntry) (rev : revision_json)
      (revs : list revision_json) (content : pystr) (g : coord_groups)
      (d m s d' m' s' : float) :
  Springfield.find_original batch page = Ok (Some original) ->
  p_coordinates page = None ->
  p_revisions page = Some (rev :: revs) ->
  rev_star rev = Some content ->
  search_coord content = Some g ->
  float_of_str (lat_deg g) = Some d ->
  float_of_str (lat_min g) = Some m ->
  float_of_str (lat_sec g) = Some s ->
  float_of_str (lon_deg g) = Some d' ->
  float_of_str (lon_min g) = Some m' ->
  float_of_str (lon_sec g) = Some s' ->
  exists r,
    (forall results,
        Springfield.page_body batch results page = Ok (results ++ [r]))
    /\ row_of_entry r original
    /\ rp_latitude r =
       negate_if (str_eqb (str_upper (lat_dir g)) (str "S"))
                 (decimal_degrees d m s)
    /\ rp_longitude r =
       negate_if (str_eqb (str_upper (lon_dir g)) (str "W"))
                 (decimal_degrees d' m' s').
Proof.
  intros Horig Hco Hrev Hstar Hg H1 H2 H3 H4 H5 H6.
  assert (Ht : p_title page = Some (title original)).
  { unfold Springfield.find_original in Horig.
    destruct batch as [|b batch]; [discriminate|].
    destruct (p_title page) as [t|]; [|discriminate].
    cbn [key rbind] in Horig.
    assert (Hfind : find (fun s => str_eqb (title s) t) (b :: batch)
                    = Some original) by congruence.
    destruct (find_some _ _ Hfind) as [_ Heq]. apply str_eqb_eq in Heq.
    now rewrite Heq. }
  eexists. split; [|split; [|split]].
  - intros results. unfold Springfield.page_body. rewrite Horig. cbn [rbind].
    rewrite Hco, Hrev, Hstar. cbn [key rbind]. rewrite Hg.
    rewrite (dms_to_decimal_spec g H1 H2 H3 H4 H5 H6).
    unfold Springfield.append_result. rewrite Ht. cbn [key rbind].
    reflexivity.
  - unfold row_of_entry. cbn [rp_title rp_city rp_state]. auto.
  - reflexivity.
  - reflexivity.
Qed.

(** A template one of whose numeric fields [float] rejects gives no row. *)
Lemma page_body_rejected (batch : list CandidateEntry)
      (results : list ResolvedPlace) (page : page_json)
      (original : CandidateEntry) (rev : revision_json)
      (revs : list revision_json) (content : pystr) (g : coord_groups) :
  Springfield.find_original batch page = Ok (Some original) ->
  p_coordinates page = None ->
  p_revisions page = Some (rev :: revs) ->
  rev_star rev = Some content ->
  search_coord content = Some g ->
  float_of_str (lat_deg g) = None \/ float_of_str (lat_min g) = None
  \/ float_of_str (lat_sec g) = None \/ float_of_str (lon_deg g) = None
  \/ float_of_str (lon_min g) = None \/ float_of_str (lon_sec g) = None ->
  Springfield.page_body batch results page = Ok results.
Proof.
  intros Horig Hco Hrev Hstar Hg Hnone.
  unfold Springfield.page_body. rewrite Horig. cbn [rbind].
  rewrite Hco, Hrev, Hstar. cbn [key rbind]. rewrite Hg.
  replace (Springfield.dms_to_decimal g) with (@None (float * float));
    [reflexivity|].
  unfold Springfield.dms_to_decimal.
  destruct (float_of_str (lat_deg g)), (float_of_str (lat_min g)),
    (float_of_str (lat_sec g)), (float_of_str (lon_deg g)),
    (float_of_str (lon_min g)), (float_of_str (lon_sec g));
    try reflexivity.
  exfalso. repeat (destruct Hnone as [Hnone|Hnone]; [discriminate|]).
  discriminate.
Qed.

(** A call with one batch whose answer holds one page. *)
Lemma get_coordinates_batch_one_page (cities : list CandidateEntry)
      (w : world) (page : page_json) :
  0 < List.length cities <= 50 ->
  answer_pages (http_get (http_log w) (coordinates_request cities)) = [page] ->
  fst (Springfield.get_coordinates_batch cities w)
  = Springfield.page_body cities [] page.
Proof.
  intros Hlen Hans. unfold Springfield.get_coordinates_batch.
  rewrite (range_step_single Hlen). cbn [Springfield.for_batches]. unfold bind.
  destruct (batch_body_answer cities [] 0 w) as (w1 & -> & _ & _).
  rewrite (slice_all cities (proj2 Hlen)), Hans.
  cbn [Springfield.for_pages].
  destruct (Springfield.page_body cities [] page); reflexivity.
Qed.

Lemma search_coord_leftmost (pre s : pystr) (g : coord_groups) :
  (forall s1 s2, pre = s1 ++ s2 -> s2 <> [] ->
                 coord_pattern (s2 ++ s) = None) ->
  coord_pattern s = Some g ->
  search_coord (pre ++ s) = Some g.
Proof.
  intros Hpre Hs. unfold search_coord.
  induction pre as [|c pre IH].
  - now apply re_search_here.
  - assert (Hc : coord_pattern ((c :: pre) ++ s) = None)
      by (apply (Hpre [] (c :: pre)); [reflexivity|discriminate]).
    cbn [app] in *. cbn [re_search]. rewrite Hc. apply IH.
    intros s1 s2 -> Hne. exact (Hpre (c :: s1) s2 eq_refl Hne).
Qed.

End ResolverTrace.

(** X7: every row of the table stems from a page of the answer to the
    request of one batch, and the title of that page is the title of an
    entry of that same batch; the title, city and state of the row are
    those of that entry.  So a page whose title is not in the batch it was
    sent for never becomes a row. *)
Theorem resolved_rows_come_from_entries :
  forall (E : Externals) (cities : list CandidateEntry) (w w' : world)
         (out : list ResolvedPlace) (r : ResolvedPlace),
    Springfield.get_coordinates_batch cities w = (Ok out, w')
    \/ General.get_coordinates_batch cities w = (Ok out, w') ->
    In r out ->
    exists k batch page c,
      nth_error (batches cities) k = Some batch
      /\ In page
            (answer_pages
               (http_get
                  (http_log w
                   ++ map coordinates_request (firstn k (batches cities)))
                  (coordinates_request batch)))
      /\ In c batch
      /\ In c cities
      /\ p_title page = Some (title c)
      /\ row_of_entry r c.
Proof.
  intros E cities w w' out r H Hin.
  assert (H' : Springfield.get_coordinates_batch cities w = (Ok out, w'))
    by (destruct H as [H|H]; exact H).
  destruct (proj1 (get_coordinates_batch_trace _ _ H') r Hin)
    as (k & batch & page & c & Hk & Hpage & Hc & Ht & Hrow).
  exists k, batch, page, c.
  split; [exact Hk|]. split; [exact Hpage|]. split; [exact Hc|].
  split; [|split; [exact Ht|exact Hrow]].
  apply nth_error_In in Hk. unfold batches in Hk. apply in_map_iff in Hk.
  destruct Hk as (i & <- & _). exact (slice_incl _ _ _ _ Hc).
Qed.

Lemma resolved_rows_come_from_entries_witness :
  exists k batch page c,
    nth_error (batches demo_entries) k = Some batch
    /\ In page
          (answer_pages
             (@http_get demo_externals
                (http_log empty_world
                 ++ map coordinates_request (firstn k (batches demo_entries)))
                (coordinates_request batch)))
    /\ In c batch
    /\ In c demo_entries
    /\ p_title page = Some (title c)
    /\ row_of_entry demo_row c.
Proof.
  refine (@resolved_rows_come_from_entries demo_externals demo_entries
            empty_world
            (snd (@Springfield.get_coordinates_batch demo_externals
                    demo_entries empty_world))
            [demo_row] demo_row (or_introl _) (or_introl eq_refl)).
  apply injective_projections; [vm_compute; reflexivity|reflexivity].
Defined.

(** C5, as the source has it: only the leftmost match of the pattern is
    read.  In a content that holds a template of degrees and minutes with
    two further parameters and, after it, the eight-field template
    [{{coord|39|55|0|N|83|48|0|W}}], the groups are taken from the first
    template; [float] rejects the third of them, [N], and the page gives no
    row: the eight-field template is not converted. *)
Lemma coordinate_later_template_ignored :
  two_templates
  = str "{{coord|39|55|N|83|48|W|region:US-OH|display=title}} "
    ++ str "{{coord|39|55|0|N|83|48|0|W}}"
  /\ search_coord two_templates
     = Some {| lat_deg := str "39"; lat_min := str "55"; lat_sec := str "N";
               lat_dir := str "83";
               lon_deg := str "48"; lon_min := str "W";
               lon_sec := str "region:US-OH";
               lon_dir := str "display=title" |}
  /\ fst (@Springfield.get_coordinates_batch
            (externals_serving (response_with page_two_templates))
            demo_entries empty_world) = Ok []
  /\ fst (@General.get_coordinates_batch
            (externals_serving (response_with page_two_templates))
            demo_entries empty_world) = Ok [].
Proof.
  split; [reflexivity|]. split; [vm_compute; reflexivity|].
  split; vm_compute; reflexivity.
Qed.

(** C5: the resolver reads the leftmost match of the coordinate pattern in
    the first revision of a page that has the title of an entry of its
    batch and no [coordinates] key.  (1) An eight-field template that only
    text without an opening brace precedes is that match, with its fields
    as groups; (2) in general the match at a position is the one found
    when the pattern matches at no earlier position.  (3) When [float]
    accepts the degrees, minutes and seconds of the match, the table that
    [get_coordinates_batch] returns has a row for the page, with
    degrees + minutes/60 + seconds/3600 for both coordinates, the latitude
    negated exactly when the upper-cased fourth field is [S] and the
    longitude exactly when the upper-cased eighth field is [W];
    (4) when [float] rejects one of them the page gives no row, and a
    call whose answer holds that page alone returns the empty table.
    (5) [S], [s], [W], [w] negate and [N], [n], [E], [e] do not.
    (6) With one batch and one page in the answer the function returns
    exactly that row, and (7) for [{{coord|39|55|0|N|83|48|0|W}}] its
    coordinates are within 0.0001 of (39.9167, -83.8). *)
Theorem coordinate_template_conversion :
  forall E : Externals,
    (forall pre opening rest g,
        char_in (chr "{") pre = false ->
        map ascii_lower opening = str "{{coord|" ->
        fields_ok g = true ->
        ends_field rest ->
        search_coord (pre ++ coord_template opening g ++ rest) = Some g)
    /\ (forall pre s g,
        (forall s1 s2, pre = s1 ++ s2 -> s2 <> [] ->
                       coord_pattern (s2 ++ s) = None) ->
        coord_pattern s = Some g ->
        search_coord (pre ++ s) = Some g)
    /\ (forall cities w w' out k batch page original rev revs content g
               d m s d' m' s',
        Springfield.get_coordinates_batch cities w = (Ok out, w')
        \/ General.get_coordinates_batch cities w = (Ok out, w') ->
        nth_error (batches cities) k = Some batch ->
        In page
           (answer_pages
              (http_get
                 (http_log w
                  ++ map coordinates_request (firstn k (batches cities)))
                 (coordinates_request batch))) ->
        Springfield.find_original batch page = Ok (Some original) ->
        p_coordinates page = None ->
        p_revisions page = Some (rev :: revs) ->
        rev_star rev = Some content ->
        search_coord content = Some g ->
        float_of_str (lat_deg g) = Some d ->
        float_of_str (lat_min g) = Some m ->
        float_of_str (lat_sec g) = Some s ->
        float_of_str (lon_deg g) = Some d' ->
        float_of_str (lon_min g) = Some m' ->
        float_of_str (lon_sec g) = Some s' ->
        exists r,
          In r out
          /\ row_of_entry r original
          /\ rp_latitude r =
             negate_if (str_eqb (str_upper (lat_dir g)) (str "S"))
                       (decimal_degrees d m s)
          /\ rp_longitude r =
             negate_if (str_eqb (str_upper (lon_dir g)) (str "W"))
                       (decimal_degrees d' m' s'))
    /\ (forall batch results page original rev revs content g,
        Springfield.find_original batch page = Ok (Some original) ->
        p_coordinates page = None ->
        p_revisions page = Some (rev :: revs) ->
        rev_star rev = Some content ->
        search_coord content = Some g ->
        float_of_str (lat_deg g) = None \/ float_of_str (lat_min g) = None
        \/ float_of_str (lat_sec g) = None \/ float_of_str (lon_deg g) = None
        \/ float_of_str (lon_min g) = None \/ float_of_str (lon_sec g) = None ->
        (Springfield.page_body batch results page = Ok results
         /\ General.page_body batch results page = Ok results)
        /\ (forall w,
              0 < List.length batch <= 50 ->
              answer_pages (http_get (http_log w) (coordinates_request batch))
              = [page] ->
              fst (Springfield.get_coordinates_batch batch w) = Ok []
              /\ fst (General.get_coordinates_batch batch w) = Ok []))
    /\ (map (fun h => str_eqb (str_upper (str h)) (str "S"))
            ["S"; "s"; "N"; "n"]%string = [true; true; false; false]
        /\ map (fun h => str_eqb (str_upper (str h)) (str "W"))
               ["W"; "w"; "E"; "e"]%string = [true; true; false; false])
    /\ (forall cities w page original rev revs content g d m s d' m' s',
        0 < List.length cities <= 50 ->
        answer_pages (http_get (http_log w) (coordinates_request cities))
        = [page] ->
        Springfield.find_original cities page = Ok (Some original) ->
        p_coordinates page = None ->
        p_revisions page = Some (rev :: revs) ->
        rev_star rev = Some content ->
        search_coord content = Some g ->
        float_of_str (lat_deg g) = Some d ->
        float_of_str (lat_min g) = Some m ->
        float_of_str (lat_sec g) = Some s ->
        float_of_str (lon_deg g) = Some d' ->
        float_of_str (lon_min g) = Some m' ->
        float_of_str (lon_sec g) = Some s' ->
        exists r,
          fst (Springfield.get_coordinates_batch cities w) = Ok [r]
          /\ fst (General.get_coordinates_batch cities w) = Ok [r]
          /\ row_of_entry r original
          /\ rp_latitude r =
             negate_if (str_eqb (str_upper (lat_dir g)) (str "S"))
                       (decimal_degrees d m s)
          /\ rp_longitude r =
             negate_if (str_eqb (str_upper (lon_dir g)) (str "W"))
                       (decimal_degrees d' m' s'))
    /\ (forall w,
        answer_pages (http_get (http_log w) (coordinates_request demo_entries))
        = [demo_page] ->
        exists r,
          fst (Springfield.get_coordinates_batch demo_entries w) = Ok [r]
          /\ fst (General.get_coordinates_batch demo_entries w) = Ok [r]
          /\ approx (rp_latitude r) (399167 # 10000) (1 # 10000)
          /\ approx (rp_longitude r) (- (838 # 10)) (1 # 10000)).
Proof.
  intros E.
  assert (Hone : forall cities w page original rev revs content g
                        d m s d' m' s',
    0 < List.length cities <= 50 ->
    answer_pages (http_get (http_log w) (coordinates_request cities))
    = [page] ->
    Springfield.find_original cities page = Ok (Some original) ->
    p_coordinates page = None ->
    p_revisions page = Some (rev :: revs) ->
    rev_star rev = Some content ->
    search_coord content = Some g ->
    float_of_str (lat_deg g) = Some d ->
    float_of_str (lat_min g) = Some m ->
    float_of_str (lat_sec g) = Some s ->
    float_of_str (lon_deg g) = Some d' ->
    float_of_str (lon_min g) = Some m' ->
    float_of_str (lon_sec g) = Some s' ->
    exists r,
      fst (Springfield.get_coordinates_batch cities w) = Ok [r]
      /\ row_of_entry r original
      /\ rp_latitude r =
         negate_if (str_eqb (str_upper (lat_dir g)) (str "S"))
                   (decimal_degrees d m s)
      /\ rp_longitude r =
         negate_if (str_eqb (str_upper (lon_dir g)) (str "W"))
                   (decimal_degrees d' m' s')).
  { intros cities w page original rev revs content g d m s d' m' s'
           Hlen Hans Horig Hco Hrev Hstar Hg H1 H2 H3 H4 H5 H6.
    destruct (page_body_template _ _ Horig Hco Hrev Hstar Hg H1 H2 H3 H4 H5 H6)
      as (r & Hbody & Hrow & Hlat & Hlon).
    exists r. split; [|auto].
    rewrite (get_coordinates_batch_one_page _ _ Hlen Hans).
    exact (Hbody []). }
  split; [|split; [|split; [|split; [|split; [|split]]]]].
  - intros pre opening rest g. apply search_coord_template.
  - intros pre s g. apply search_coord_leftmost.
  - intros cities w w' out k batch page original rev revs content g
           d m s d' m' s' H Hk Hpage Horig Hco Hrev Hstar Hg
           H1 H2 H3 H4 H5 H6.
    assert (H' : Springfield.get_coordinates_batch cities w = (Ok out, w'))
      by (destruct H as [H|H]; exact H).
    destruct (page_body_template _ _ Horig Hco Hrev Hstar Hg H1 H2 H3 H4 H5 H6)
      as (r & Hbody & Hrow & Hlat & Hlon).
    exists r. split; [|auto].
    exact (proj2 (get_coordinates_batch_trace _ _ H') k batch page r
                 Hk Hpage Hbody).
  - intros batch results page original rev revs content g
           Horig Hco Hrev Hstar Hg Hnone.
    split.
    + split;
        exact (page_body_rejected _ results _ Horig Hco Hrev Hstar Hg Hnone).
    + intros w Hlen Hans.
      assert (Hrun : fst (Springfield.get_coordinates_batch batch w) = Ok []).
      { rewrite (get_coordinates_batch_one_page _ _ Hlen Hans).
        exact (page_body_rejected _ [] _ Horig Hco Hrev Hstar Hg Hnone). }
      split; exact Hrun.
  - cbn [map]. rewrite !upper_ascii by reflexivity.
    split; vm_compute; reflexivity.
  - intros cities w page original rev revs content g d m s d' m' s'
           Hlen Hans Horig Hco Hrev Hstar Hg H1 H2 H3 H4 H5 H6.
    destruct (Hone cities w page original rev revs content g d m s d' m' s'
                   Hlen Hans Horig Hco Hrev Hstar Hg H1 H2 H3 H4 H5 H6)
      as (r & Hrun & Hrest).
    exists r. split; [exact Hrun|]. split; [exact Hrun|exact Hrest].
  - intros w Hans.
    assert (Hlen : 0 < List.length demo_entries <= 50) by (cbn; lia).
    assert (Hfloat : forall ds, ds <> [] -> forallb is_digit ds = true ->
                                float_of_str ds = Some (float_of_Z (decimal ds)))
      by (apply float_of_digits).
    destruct (Hone demo_entries w demo_page
                   {| title := str "Springfield, Ohio";
                      city := str "Springfield"; state := str "Ohio" |}
                   {| rev_star := Some coord_example |} [] coord_example
                   {| lat_deg := str "39"; lat_min := str "55";
                      lat_sec := str "0"; lat_dir := str "N";
                      lon_deg := str "83"; lon_min := str "48";
                      lon_sec := str "0"; lon_dir := str "W" |}
                   (float_of_Z 39) (float_of_Z 55) (float_of_Z 0)
                   (float_of_Z 83) (float_of_Z 48) (float_of_Z 0)
                   Hlen Hans eq_refl eq_refl eq_refl eq_refl
                   search_coord_example
                   (Hfloat (str "39") ltac:(discriminate) eq_refl)
                   (Hfloat (str "55") ltac:(discriminate) eq_refl)
                   (Hfloat (str "0") ltac:(discriminate) eq_refl)
                   (Hfloat (str "83") ltac:(discriminate) eq_refl)
                   (Hfloat (str "48") ltac:(discriminate) eq_refl)
                   (Hfloat (str "0") ltac:(discriminate) eq_refl))
      as (r & Hrun & _ & Hlat & Hlon).
    exists r. split; [exact Hrun|]. split; [exact Hrun|].
    rewrite Hlat, Hlon. cbn [lat_dir lon_dir].
    rewrite !upper_ascii by reflexivity.
    split; unfold approx; vm_compute; discriminate.
Qed.

Lemma coordinate_template_conversion_witness :
  exists r,
    In r [demo_row]
    /\ row_of_entry r {| title := str "Springfield, Ohio";
                         city := str "Springfield"; state := str "Ohio" |}
    /\ rp_latitude r =
       negate_if false
         (decimal_degrees (float_of_Z 39) (float_of_Z 55) (float_of_Z 0))
    /\ rp_longitude r =
       negate_if true
         (decimal_degrees (float_of_Z 83) (float_of_Z 48) (float_of_Z 0)).
Proof.
  refine (proj1 (proj2 (proj2 (coordinate_template_conversion demo_externals)))
            demo_entries empty_world
            (snd (@Springfield.get_coordinates_batch demo_externals
                    demo_entries empty_world))
            [demo_row] 0 demo_entries demo_page
            {| title := str "Springfield, Ohio"; city := str "Springfield";
               state := str "Ohio" |}
            {| rev_star := Some coord_example |} [] coord_example
            {| lat_deg := str "39"; lat_min := str "55"; lat_sec := str "0";
               lat_dir := str "N";
               lon_deg := str "83"; lon_min := str "48"; lon_sec := str "0";
               lon_dir := str "W" |}
            (float_of_Z 39) (float_of_Z 55) (float_of_Z 0)
            (float_of_Z 83) (float_of_Z 48) (float_of_Z 0)
            (or_introl _) eq_refl (or_introl eq_refl) eq_refl eq_refl eq_refl
            eq_refl _ eq_refl eq_refl eq_refl eq_refl eq_refl eq_refl).
  - apply injective_projections; [vm_compute; reflexivity|reflexivity].
  - vm_compute. reflexivity.
Defined.

Lemma batches_nonempty (cities b : list CandidateEntry) :
  In b (batches cities) -> b <> [].
Proof.
  rewrite batches_unfold. intros Hb. apply in_map_iff in Hb.
  destruct Hb as (k & <- & Hk). apply in_seq in Hk.
  set (n := List.length cities) in *.
  assert (Hdiv : n + (50 - 1) = 50 * ((n + (50 - 1)) / 50)
                                + (n + (50 - 1)) mod 50)
    by (apply Nat.div_mod_eq).
  assert (Hmod : (n + (50 - 1)) mod 50 < 50)
    by (apply Nat.mod_upper_bound; discriminate).
  assert (Hlt : k * 50 < n) by lia.
  assert (Hlen : List.length (skipn (k * 50) cities) = n - k * 50)
    by (apply length_skipn).
  unfold slice.
  destruct (skipn (k * 50) cities) as [|x t]; [cbn in Hlen; lia|].
  discriminate.
Qed.

(** X3: the [titles] parameter of every request can be read back.  The
    requests that [get_coordinates_batch] issues for a list of entries that
    the parser returned go with the batches of the list, in order: each
    carries, under [titles], a text that cut at the pipes gives exactly the
    titles of its batch (no title has a pipe and no batch is empty); and
    when the function returns there is one request for every batch. *)
Theorem batch_titles_round_trip :
  forall (E : Externals) (content : pystr) (out : list CandidateEntry)
         (w : world),
    (Springfield.parse_us_springfields_from_wikitext content = Ok out
     \/ General.parse_us_cities_from_wikitext content = Ok out) ->
    exists issued,
      http_log (snd (Springfield.get_coordinates_batch out w))
      = http_log w ++ issued
      /\ http_log (snd (General.get_coordinates_batch out w))
         = http_log w ++ issued
      /\ Forall2 (fun rq batch =>
                    exists titles,
                      param (str "titles") rq = Some titles
                      /\ split (chr "|") titles = map title batch)
                 issued (firstn (List.length issued) (batches out))
      /\ (forall table,
            fst (Springfield.get_coordinates_batch out w) = Ok table
            \/ fst (General.get_coordinates_batch out w) = Ok table ->
            List.length issued = List.length (batches out)).
Proof.
  intros E content out w Hparse.
  destruct (for_batches_log out (range_step (List.length out) 50) [] w)
    as (n & Hle & Hn & Hall).
  set (starts := range_step (List.length out) 50) in *.
  exists (map (fun j => coordinates_request (slice out j 50))
              (firstn n starts)).
  assert (Hlen : List.length (map (fun j => coordinates_request (slice out j 50))
                                  (firstn n starts)) = n)
    by (rewrite length_map; now apply firstn_length_le).
  split; [exact Hn|]. split; [exact Hn|]. split.
  - rewrite Hlen. unfold batches. fold starts. rewrite firstn_map.
    apply Forall2_map_both. intros j Hj.
    assert (Hstart : In j starts).
    { rewrite <- (firstn_skipn n starts). apply in_or_app. now left. }
    assert (Hbatch : In (slice out j 50) (batches out))
      by (unfold batches; exact (in_map (fun i => slice out i 50) _ _ Hstart)).
    exists (join (str "|") (map title (slice out j 50))).
    split; [reflexivity|].
    change (str "|") with [chr "|"]. apply split_join.
    + pose proof (@batches_nonempty _ _ Hbatch) as Hne.
      destruct (slice out j 50); [congruence|discriminate].
    + intros x Hx. apply in_map_iff in Hx. destruct Hx as (e & <- & He).
      exact (proj1 (proj2 (@emitted_title_shape content out e Hparse
                             (@slice_incl _ _ _ _ _ He)))).
  - intros table Htable. rewrite Hlen. unfold batches. fold starts.
    rewrite length_map. apply (Hall table).
    destruct Htable as [H|H]; exact H.
Qed.

Lemma batch_titles_round_trip_witness :
  exists issued,
    http_log (snd (@Springfield.get_coordinates_batch demo_externals
                     [entry_of_title (str "Springfield, Ohio (town)")]
                     empty_world))
    = http_log empty_world ++ issued
    /\ http_log (snd (@General.get_coordinates_batch demo_externals
                        [entry_of_title (str "Springfield, Ohio (town)")]
                        empty_world))
       = http_log empty_world ++ issued
    /\ Forall2 (fun rq batch =>
                  exists titles,
                    param (str "titles") rq = Some titles
                    /\ split (chr "|") titles = map title batch)
               issued
               (firstn (List.length issued)
                  (batches [entry_of_title (str "Springfield, Ohio (town)")]))
    /\ (forall table,
          fst (@Springfield.get_coordinates_batch demo_externals
                 [entry_of_title (str "Springfield, Ohio (town)")]
                 empty_world) = Ok table
          \/ fst (@General.get_coordinates_batch demo_externals
                    [entry_of_title (str "Springfield, Ohio (town)")]
                    empty_world) = Ok table ->
          List.length issued
          = List.length
              (batches [entry_of_title (str "Springfield, Ohio (town)")])).
Proof.
  refine (@batch_titles_round_trip demo_externals page_alias
            [entry_of_title (str "Springfield, Ohio (town)")]
            empty_world _).
  left. vm_compute. reflexivity.
Defined.


(** X8: when [get_coordinates_batch] returns, it has issued exactly one
    request per batch, in the order of the batches, each with the titles of
    its batch, and it has not touched the file system. *)
Theorem one_request_per_batch :
  forall (E : Externals) (cities : list CandidateEntry) (w w' : world)
         (out : list ResolvedPlace),
    Springfield.get_coordinates_batch cities w = (Ok out, w')
    \/ General.get_coordinates_batch cities w = (Ok out, w') ->
    http_log w' = http_log w ++ map coordinates_request (batches cities)
    /\ fs w' = fs w.
Proof.
  intros E cities w w' out H.
  assert (H' : Springfield.get_coordinates_batch cities w = (Ok out, w'))
    by (destruct H as [H|H]; exact H).
  unfold Springfield.get_coordinates_batch in H'.
  destruct (@for_batches_rows E cities _ [] out w w' (fun r0 F => match F with end) H')
    as (_ & Hlog & Hfs).
  split; [|exact Hfs]. rewrite Hlog. unfold batches. now rewrite map_map.
Qed.

Lemma one_request_per_batch_witness :
  http_log (snd (@Springfield.get_coordinates_batch demo_externals
                   demo_entries empty_world))
  = http_log empty_world ++ map coordinates_request (batches demo_entries)
  /\ fs (snd (@Springfield.get_coordinates_batch demo_externals
                demo_entries empty_world))
     = fs empty_world.
Proof.
  refine (@one_request_per_batch demo_externals demo_entries empty_world _
            (match fst (@Springfield.get_coordinates_batch demo_externals
                          demo_entries empty_world) with
             | Ok t => t
             | Raise _ => []
             end) (or_introl _)).
  apply injective_projections; [vm_compute; reflexivity|reflexivity].
Defined.

Section Offline.
Context {E : Externals}.
Hypothesis offline : forall log rq, http_get log rq = None.

Lemma for_batches_offline (cities : list CandidateEntry) (starts : list nat)
      (results : list ResolvedPlace) (w : world) :
  fst (Springfield.for_batches cities results starts w) = Ok results
  /\ stdout (snd (Springfield.for_batches cities results starts w))
     = stdout w
       ++ map (fun _ => PError (str "Error in batch coordinate request: ")
                               RequestException) starts.
Proof.
  revert w. induction starts as [|i starts IH]; intros w;
    cbn [Springfield.for_batches].
  - unfold ret. cbn [fst snd map]. now rewrite app_nil_r.
  - unfold bind.
    assert (Hb : Springfield.batch_body cities results i w
                 = (Ok results,
                    {| fs := fs w; may_write := may_write w;
                       http_log := http_log w
                                   ++ [coordinates_request (slice cities i 50)];
                       stdout := stdout w
                                 ++ [PError (str "Error in batch coordinate request: ")
                                            RequestException] |})).
    { unfold Springfield.batch_body, try_except_request, bind, requests_get,
        print, ret. rewrite offline. reflexivity. }
    rewrite Hb.
    match goal with
    | |- context [Springfield.for_batches cities results starts ?w1] =>
        destruct (IH w1) as [H1 H2]
    end.
    split; [exact H1|].
    rewrite H2. cbn [stdout map]. now rewrite <- app_assoc.
Qed.

End Offline.

(** X9: when every request fails, [get_coordinates_batch] raises nothing:
    it returns the empty table and has printed one error line per batch. *)
Theorem unreachable_server_gives_empty_table :
  forall (E : Externals) (cities : list CandidateEntry) (w : world),
    (forall log rq, http_get log rq = None) ->
    (fst (Springfield.get_coordinates_batch cities w) = Ok []
     /\ stdout (snd (Springfield.get_coordinates_batch cities w))
        = stdout w
          ++ map (fun _ => PError (str "Error in batch coordinate request: ")
                                  RequestException) (batches cities))
    /\ (fst (General.get_coordinates_batch cities w) = Ok []
        /\ stdout (snd (General.get_coordinates_batch cities w))
           = stdout w
             ++ map (fun _ => PError (str "Error in batch coordinate request: ")
                                     RequestException) (batches cities)).
Proof.
  intros E cities w Hoff.
  assert (H : fst (Springfield.get_coordinates_batch cities w) = Ok []
              /\ stdout (snd (Springfield.get_coordinates_batch cities w))
                 = stdout w
                   ++ map (fun _ => PError (str "Error in batch coordinate request: ")
                                           RequestException) (batches cities)).
  { unfold Springfield.get_coordinates_batch, batches.
    rewrite map_map. apply for_batches_offline. exact Hoff. }
  split; exact H.
Qed.

Lemma unreachable_server_gives_empty_table_witness :
  fst (@Springfield.get_coordinates_batch externals_offline
         demo_entries empty_world) = Ok [].
Proof.
  exact (proj1 (proj1 (@unreachable_server_gives_empty_table externals_offline
                         demo_entries empty_world (fun _ _ => eq_refl)))).
Defined.

(* ================================================================== *)
(** ** The page fetch and the GeoDataFrame: lemmas *)
(* ================================================================== *)

Section PageFetch.
Context {E : Externals} {P : PageJson}.

Lemma get_content_run (city_name : pystr) (w : world) :
  let a := http_get (http_log w) (page_request city_name) in
  GeneralPage.get_disambiguation_content city_name w
  = (if transport_failure a then Ok None
     else if lacks_wikitext a then Raise ValueError
          else match wikitext_of a with
               | Some t => Ok (Some t)
               | None => Raise KeyError
               end,
     {| fs := fs w; may_write := may_write w;
        http_log := http_log w ++ [page_request city_name];
        stdout := stdout w
                  ++ if transport_failure a
                     then [PError (str "Error fetching disambiguation page: ")
                                  RequestException]
                     else [] |}).
Proof.
  destruct w as [f mw log out]. cbv zeta.
  unfold GeneralPage.get_disambiguation_content, try_except_request, bind,
    requests_get, raise_for_status, print, ret, raise, lift.
  fold (page_request city_name). cbn [fs may_write http_log stdout].
  unfold transport_failure, lacks_wikitext, wikitext_of.
  destruct (http_get log (page_request city_name)) as [resp|];
    cbn [fs may_write http_log stdout]; [|reflexivity].
  destruct (status_ok resp); cbn [negb orb andb fs may_write http_log stdout];
    [|reflexivity].
  destruct (parse_response_json resp) as [d|];
    cbn [fs may_write http_log stdout]; [|reflexivity].
  destruct (d_parse d) as [p|]; [|now rewrite app_nil_r].
  destruct (pj_wikitext p) as [wt|]; [|now rewrite app_nil_r].
  destruct (wt_star wt); cbn [key]; now rewrite app_nil_r.
Qed.

Lemma get_springfield_content_same (w : world) :
  SpringfieldPage.get_disambiguation_content w
  = GeneralPage.get_disambiguation_content (str "Springfield") w.
Proof. reflexivity. Qed.

End PageFetch.

(** X10: [get_disambiguation_content] issues exactly one request, for the
    page asked, and leaves the file system alone.  It returns [None]
    exactly when the request fails, the status is an error or the body is
    not JSON; it returns the markup exactly when the answer carries it; and
    when the JSON answer has no [parse] or no [wikitext] key it raises
    [ValueError], which its [except] clause does not catch. *)
Theorem page_fetch_outcomes :
  forall (E : Externals) (P : PageJson) (city_name : pystr) (w : world),
    let a := http_get (http_log w) (page_request city_name) in
    let run := GeneralPage.get_disambiguation_content city_name w in
    http_log (snd run) = http_log w ++ [page_request city_name]
    /\ fs (snd run) = fs w
    /\ (fst run = Ok None <-> transport_failure a = true)
    /\ (fst run = Raise ValueError <-> lacks_wikitext a = true)
    /\ (forall t, fst run = Ok (Some t) <-> wikitext_of a = Some t)
    /\ fst run <> Raise RequestException
    /\ SpringfieldPage.get_disambiguation_content
       = GeneralPage.get_disambiguation_content (str "Springfield").
Proof.
  intros E P city_name w a run. subst run.
  rewrite get_content_run. fold a. cbn [fst snd fs http_log].
  split; [reflexivity|]. split; [reflexivity|].
  unfold transport_failure, lacks_wikitext, wikitext_of.
  destruct a as [resp|]; cbn [negb orb andb].
  2:{ repeat split; try discriminate; try reflexivity; intros; discriminate. }
  destruct (status_ok resp); cbn [negb orb andb].
  2:{ repeat split; try discriminate; try reflexivity; intros; discriminate. }
  destruct (parse_response_json resp) as [d|].
  2:{ repeat split; try discriminate; try reflexivity; intros; discriminate. }
  destruct (d_parse d) as [p|].
  2:{ repeat split; try discriminate; try reflexivity; intros; discriminate. }
  destruct (pj_wikitext p) as [wt|].
  2:{ repeat split; try discriminate; try reflexivity; intros; discriminate. }
  destruct (wt_star wt) as [t|];
    repeat split; try discriminate; try reflexivity; intros; congruence.
Qed.

Section Create.
Context {E : Externals} {P : PageJson}.

Lemma wikitext_not_failure (a : option response) (text : pystr) :
  wikitext_of a = Some text -> transport_failure a = false.
Proof.
  unfold wikitext_of, transport_failure.
  destruct a as [resp|]; [|discriminate].
  destruct (status_ok resp); [|discriminate].
  destruct (parse_response_json resp); [reflexivity|discriminate].
Qed.

Lemma wikitext_not_lacking (a : option response) (text : pystr) :
  wikitext_of a = Some text -> lacks_wikitext a = false.
Proof.
  unfold wikitext_of, lacks_wikitext.
  destruct a as [resp|]; [|discriminate].
  destruct (status_ok resp); [|discriminate].
  destruct (parse_response_json resp) as [d|]; [|discriminate].
  destruct (d_parse d) as [p|]; [|discriminate].
  destruct (pj_wikitext p); [reflexivity|discriminate].
Qed.

Lemma failure_no_wikitext (a : option response) :
  transport_failure a = true \/ lacks_wikitext a = true ->
  wikitext_of a = None.
Proof.
  intros H. destruct (wikitext_of a) as [t|] eqn:Ht; [|reflexivity].
  rewrite (wikitext_not_failure _ Ht), (wikitext_not_lacking _ Ht) in H.
  destruct H; discriminate.
Qed.

Lemma create_cities_stops (city_name : pystr) (w : world) :
  wikitext_of (http_get (http_log w) (page_request city_name)) = None ->
  exists w1,
    GeneralPage.create_cities_geodataframe city_name w
    = (if transport_failure (http_get (http_log w) (page_request city_name))
          || lacks_wikitext (http_get (http_log w) (page_request city_name))
       then Raise ValueError else Raise KeyError, w1)
    /\ http_log w1 = http_log w ++ [page_request city_name]
    /\ fs w1 = fs w.
Proof.
  intros Hnone.
  unfold GeneralPage.create_cities_geodataframe, bind at 1, print at 1.
  unfold bind at 1. rewrite get_content_run. cbn [http_log fs stdout may_write].
  rewrite Hnone.
  destruct (transport_failure _); cbn [orb].
  - unfold raise. eexists. split; [reflexivity|]. cbn [http_log fs]. auto.
  - destruct (lacks_wikitext _);
      eexists; (split; [reflexivity|]); cbn [http_log fs]; auto.
Qed.

Lemma create_cities_run (city_name text : pystr) (w : world) :
  wikitext_of (http_get (http_log w) (page_request city_name)) = Some text ->
  exists w2,
    http_log w2 = http_log w ++ [page_request city_name]
    /\ fs w2 = fs w
    /\ forall r w3,
        General.get_coordinates_batch
          (collect false (split (chr "010") text)) w2 = (r, w3) ->
        exists w4,
          GeneralPage.create_cities_geodataframe city_name w
          = (match r with
             | Raise e => Raise e
             | Ok [] => Raise KeyError
             | Ok df =>
                 Ok (make_geodataframe df
                       (combine (map rp_longitude df) (map rp_latitude df))
                       (str "EPSG:4326"))
             end, w4)
          /\ http_log w4 = http_log w3 /\ fs w4 = fs w3.
Proof.
  intros Htext.
  unfold GeneralPage.create_cities_geodataframe, bind at 1, print at 1.
  unfold bind at 1. rewrite get_content_run. cbn [http_log fs stdout may_write].
  rewrite Htext, (wikitext_not_failure _ Htext), (wikitext_not_lacking _ Htext).
  rewrite app_nil_r.
  unfold bind at 1, print at 1. unfold bind at 1, lift at 1.
  rewrite parse_cities_collect.
  unfold bind at 1, print at 1. unfold bind at 1, print at 1.
  unfold bind at 1. cbn [fs may_write http_log stdout].
  eexists. split; [|split].
  3:{ intros r w3 Hr. rewrite Hr.
      destruct r as [[|x df]|e]; unfold bind, print, lift, column, ret;
        cbn [fs http_log]; eexists; (split; [reflexivity|]);
        cbn [fs http_log]; auto. }
  all: reflexivity.
Qed.

Lemma create_springfields_stops (w : world) :
  wikitext_of (http_get (http_log w) (page_request (str "Springfield"))) = None ->
  exists w1,
    SpringfieldPage.create_springfields_geodataframe w
    = (if transport_failure (http_get (http_log w) (page_request (str "Springfield")))
          || lacks_wikitext (http_get (http_log w) (page_request (str "Springfield")))
       then Raise ValueError else Raise KeyError, w1)
    /\ http_log w1 = http_log w ++ [page_request (str "Springfield")]
    /\ fs w1 = fs w.
Proof.
  intros Hnone.
  unfold SpringfieldPage.create_springfields_geodataframe, bind at 1, print at 1.
  unfold bind at 1. rewrite get_springfield_content_same, get_content_run. cbn [http_log fs stdout may_write].
  rewrite Hnone.
  destruct (transport_failure _); cbn [orb].
  - unfold raise. eexists. split; [reflexivity|]. cbn [http_log fs]. auto.
  - destruct (lacks_wikitext _);
      eexists; (split; [reflexivity|]); cbn [http_log fs]; auto.
Qed.

Lemma create_springfields_run (text : pystr) (w : world) :
  wikitext_of (http_get (http_log w) (page_request (str "Springfield"))) = Some text ->
  exists w2,
    http_log w2 = http_log w ++ [page_request (str "Springfield")]
    /\ fs w2 = fs w
    /\ forall r w3,
        Springfield.get_coordinates_batch
          (collect false (split (chr "010") text)) w2 = (r, w3) ->
        exists w4,
          SpringfieldPage.create_springfields_geodataframe w
          = (match r with
             | Raise e => Raise e
             | Ok [] => Raise KeyError
             | Ok df =>
                 Ok (make_geodataframe df
                       (combine (map rp_longitude df) (map rp_latitude df))
                       (str "EPSG:4326"))
             end, w4)
          /\ http_log w4 = http_log w3 /\ fs w4 = fs w3.
Proof.
  intros Htext.
  unfold SpringfieldPage.create_springfields_geodataframe, bind at 1, print at 1.
  unfold bind at 1. rewrite get_springfield_content_same, get_content_run. cbn [http_log fs stdout may_write].
  rewrite Htext, (wikitext_not_failure _ Htext), (wikitext_not_lacking _ Htext).
  rewrite app_nil_r.
  unfold bind at 1, print at 1. unfold bind at 1, lift at 1.
  rewrite parse_collect.
  unfold bind at 1, print at 1. unfold bind at 1, print at 1.
  unfold bind at 1. cbn [fs may_write http_log stdout].
  eexists. split; [|split].
  3:{ intros r w3 Hr. rewrite Hr.
      destruct r as [[|x df]|e]; unfold bind, print, lift, column, ret;
        cbn [fs http_log]; eexists; (split; [reflexivity|]);
        cbn [fs http_log]; auto. }
  all: reflexivity.
Qed.

End Create.

Lemma combine_maps {A B C} (f : A -> B) (g : A -> C) (l : list A) :
  combine l (combine (map f l) (map g l)) = map (fun x => (x, (f x, g x))) l.
Proof.
  induction l as [|x l IH]; [reflexivity|]. cbn [map combine]. now rewrite IH.
Qed.

Lemma made_rows (df : list ResolvedPlace) (c : pystr) :
  rows (make_geodataframe df
          (combine (map rp_longitude df) (map rp_latitude df)) c)
  = map (fun r => {| g_title := rp_title r;
                     g_city := rp_city r;
                     g_state := Some (rp_state r);
                     g_latitude := rp_latitude r;
                     g_longitude := rp_longitude r;
                     g_url := rp_url r;
                     g_point := (rp_longitude r, rp_latitude r) |}) df.
Proof.
  unfold make_geodataframe. cbn [rows]. rewrite combine_maps, map_map.
  reflexivity.
Qed.

Section Created.
Context {E : Externals}.

Lemma created_rows_shape (text : pystr) (w2 w3 : world)
      (df : list ResolvedPlace) :
  Springfield.get_coordinates_batch (collect false (split (chr "010") text)) w2
  = (Ok df, w3) ->
  Forall created_row
         (rows (make_geodataframe df
                  (combine (map rp_longitude df) (map rp_latitude df))
                  (str "EPSG:4326"))).
Proof.
  intros Hrun. rewrite made_rows. apply Forall_forall.
  intros row Hrow. apply in_map_iff in Hrow. destruct Hrow as (r & <- & Hr).
  unfold Springfield.get_coordinates_batch in Hrun.
  destruct (@for_batches_rows E _ _ [] df w2 w3
              (fun r0 F => match F with end) Hrun) as (Hfrom & _ & _).
  destruct (Hfrom r Hr) as (c & Hc & Ht & _ & Hs).
  destruct (collect_entries_link _ _ _ Hc) as (line & k & _ & _ & Hcomma & ->).
  unfold created_row. cbn [g_point g_longitude g_latitude g_title g_state].
  split; [reflexivity|]. split.
  - rewrite Ht. exact Hcomma.
  - exists (rp_state r). split; [reflexivity|]. rewrite Hs.
    apply state_label_clean.
Qed.

End Created.

(** X11: when the page cannot be fetched (transport failure) or its answer
    has no [parse] / [wikitext] key, [create_*_geodataframe] ends with
    [ValueError] after that single request: nothing is parsed and no
    coordinates are asked for. *)
Theorem create_fails_when_page_unusable :
  forall (E : Externals) (P : PageJson) (city_name : pystr) (w : world),
    (transport_failure (http_get (http_log w) (page_request city_name)) = true
     \/ lacks_wikitext (http_get (http_log w) (page_request city_name)) = true ->
     fst (GeneralPage.create_cities_geodataframe city_name w) = Raise ValueError
     /\ http_log (snd (GeneralPage.create_cities_geodataframe city_name w))
        = http_log w ++ [page_request city_name])
    /\ (transport_failure
          (http_get (http_log w) (page_request (str "Springfield"))) = true
        \/ lacks_wikitext
             (http_get (http_log w) (page_request (str "Springfield"))) = true ->
        fst (SpringfieldPage.create_springfields_geodataframe w)
        = Raise ValueError
        /\ http_log (snd (SpringfieldPage.create_springfields_geodataframe w))
           = http_log w ++ [page_request (str "Springfield")]).
Proof.
  intros E P city_name w. split; intros H.
  - destruct (create_cities_stops city_name w (failure_no_wikitext _ H))
      as (w1 & -> & Hlog & _).
    cbn [fst snd]. split; [|exact Hlog].
    destruct H as [-> | ->]; [reflexivity|]. now rewrite orb_true_r.
  - destruct (create_springfields_stops w (failure_no_wikitext _ H))
      as (w1 & -> & Hlog & _).
    cbn [fst snd]. split; [|exact Hlog].
    destruct H as [-> | ->]; [reflexivity|]. now rewrite orb_true_r.
Qed.

Lemma create_fails_when_page_unusable_witness :
  fst (@SpringfieldPage.create_springfields_geodataframe
         (externals_serving demo_response) keyless_page_json empty_world)
  = Raise ValueError
  /\ http_log (snd (@SpringfieldPage.create_springfields_geodataframe
                      (externals_serving demo_response) keyless_page_json
                      empty_world))
     = http_log empty_world ++ [page_request (str "Springfield")].
Proof.
  exact (proj2 (@create_fails_when_page_unusable
                  (externals_serving demo_response) keyless_page_json
                  (str "Springfield") empty_world)
           (or_intror eq_refl)).
Defined.

(** X12: a GeoDataFrame that [create_*_geodataframe] returns has the
    reference system EPSG:4326 and at least one row; in every row the point
    is (longitude, latitude), the title has a comma, and the wiki state is
    present, trimmed and without opening parenthesis. *)
Theorem created_frame_invariants :
  forall (E : Externals) (P : PageJson) (city_name : pystr) (w : world)
         (gdf : GeoDataFrame),
    fst (GeneralPage.create_cities_geodataframe city_name w) = Ok gdf
    \/ fst (SpringfieldPage.create_springfields_geodataframe w) = Ok gdf ->
    crs gdf = str "EPSG:4326"
    /\ rows gdf <> []
    /\ Forall created_row (rows gdf).
Proof.
  intros E P city_name w gdf [H|H].
  - destruct (wikitext_of (http_get (http_log w) (page_request city_name)))
      as [text|] eqn:Ht.
    + destruct (create_cities_run city_name w Ht) as (w2 & _ & _ & Hrun).
      destruct (General.get_coordinates_batch
                  (collect false (split (chr "010") text)) w2)
        as [r w3] eqn:Hgcb.
      destruct (Hrun r w3 eq_refl) as (w4 & Heq & _).
      rewrite Heq in H. cbn [fst] in H.
      destruct r as [[|x df]|e]; try discriminate.
      injection H as <-.
      split; [reflexivity|]. split.
      * rewrite made_rows. discriminate.
      * exact (@created_rows_shape E text w2 w3 (x :: df) Hgcb).
    + destruct (create_cities_stops city_name w Ht) as (w1 & Heq & _).
      rewrite Heq in H. cbn [fst] in H.
      destruct (_ || _); discriminate.
  - destruct (wikitext_of
                (http_get (http_log w) (page_request (str "Springfield"))))
      as [text|] eqn:Ht.
    + destruct (create_springfields_run w Ht) as (w2 & _ & _ & Hrun).
      destruct (Springfield.get_coordinates_batch
                  (collect false (split (chr "010") text)) w2)
        as [r w3] eqn:Hgcb.
      destruct (Hrun r w3 eq_refl) as (w4 & Heq & _).
      rewrite Heq in H. cbn [fst] in H.
      destruct r as [[|x df]|e]; try discriminate.
      injection H as <-.
      split; [reflexivity|]. split.
      * rewrite made_rows. discriminate.
      * exact (@created_rows_shape E text w2 w3 (x :: df) Hgcb).
    + destruct (create_springfields_stops w Ht) as (w1 & Heq & _).
      rewrite Heq in H. cbn [fst] in H.
      destruct (_ || _); discriminate.
Qed.

(** X13: when the page is fetched but the parser finds no entry in it,
    [create_*_geodataframe] ends with [KeyError] (the empty table has no
    [longitude] column), having issued the page request only. *)
Theorem create_without_entries_raises_key_error :
  forall (E : Externals) (P : PageJson) (city_name text : pystr) (w : world),
    (wikitext_of (http_get (http_log w) (page_request city_name)) = Some text ->
     General.parse_us_cities_from_wikitext text = Ok [] ->
     fst (GeneralPage.create_cities_geodataframe city_name w) = Raise KeyError
     /\ http_log (snd (GeneralPage.create_cities_geodataframe city_name w))
        = http_log w ++ [page_request city_name])
    /\ (wikitext_of (http_get (http_log w) (page_request (str "Springfield")))
        = Some text ->
        Springfield.parse_us_springfields_from_wikitext text = Ok [] ->
        fst (SpringfieldPage.create_springfields_geodataframe w) = Raise KeyError
        /\ http_log (snd (SpringfieldPage.create_springfields_geodataframe w))
           = http_log w ++ [page_request (str "Springfield")]).
Proof.
  intros E P city_name text w. split; intros Ht Hparse.
  - assert (Hnil : collect false (split (chr "010") text) = [])
      by (rewrite parse_cities_collect in Hparse; now injection Hparse).
    destruct (create_cities_run city_name w Ht) as (w2 & Hlog & _ & Hrun).
    rewrite Hnil in Hrun.
    destruct (Hrun (Ok []) w2 eq_refl) as (w4 & -> & Hlog4 & _).
    cbn [fst snd]. split; [reflexivity|]. now rewrite Hlog4.
  - assert (Hnil : collect false (split (chr "010") text) = [])
      by (rewrite parse_collect in Hparse; now injection Hparse).
    destruct (create_springfields_run w Ht) as (w2 & Hlog & _ & Hrun).
    rewrite Hnil in Hrun.
    destruct (Hrun (Ok []) w2 eq_refl) as (w4 & -> & Hlog4 & _).
    cbn [fst snd]. split; [reflexivity|]. now rewrite Hlog4.
Qed.

Lemma create_without_entries_raises_key_error_witness :
  fst (@SpringfieldPage.create_springfields_geodataframe
         (externals_serving (full_response page_tight_heading))
         demo_page_json empty_world) = Raise KeyError
  /\ http_log (snd (@SpringfieldPage.create_springfields_geodataframe
                      (externals_serving (full_response page_tight_heading))
                      demo_page_json empty_world))
     = http_log empty_world ++ [page_request (str "Springfield")].
Proof.
  refine (proj2 (@create_without_entries_raises_key_error
                   (externals_serving (full_response page_tight_heading))
                   demo_page_json (str "Springfield") page_tight_heading
                   empty_world) eq_refl _).
  vm_compute. reflexivity.
Defined.

Lemma created_frame_invariants_witness :
  crs {| crs := str "EPSG:4326"; rows := [demo_created_row] |}
  = str "EPSG:4326"
  /\ rows {| crs := str "EPSG:4326"; rows := [demo_created_row] |} <> []
  /\ Forall created_row
            (rows {| crs := str "EPSG:4326"; rows := [demo_created_row] |}).
Proof.
  refine (@created_frame_invariants
            (externals_serving (full_response page_ohio)) demo_page_json
            (str "Springfield") empty_world
            {| crs := str "EPSG:4326"; rows := [demo_created_row] |}
            (or_intror _)).
  vm_compute. reflexivity.
Defined.

(* ================================================================== *)
(** ** More on the spatial joiner *)
(* ================================================================== *)

Section JoinMore.
Context {E : Externals}.

Lemma point_matches (p : GeoRow) (ms : list (StateRecord polygon)) :
  let l := match ms with
           | [] => [(p, None)]
           | s :: ms' => map (fun s0 => (p, Some s0)) (s :: ms')
           end in
  (exists pr, In pr l /\ fst pr = p)
  /\ (forall pr, In pr l -> fst pr = p)
  /\ 1 <= List.length l.
Proof.
  cbv zeta. destruct ms as [|s ms].
  - repeat split.
    + exists (p, None). split; [now left|reflexivity].
    + intros pr [<-|[]]. reflexivity.
    + apply Nat.le_refl.
  - repeat split.
    + exists (p, Some s). split; [now left|reflexivity].
    + intros pr Hpr. apply in_map_iff in Hpr.
      destruct Hpr as (s' & <- & _). reflexivity.
    + cbn [map List.length]. lia.
Qed.

Lemma sjoin_keeps_left (left : list GeoRow)
      (right : list (StateRecord polygon)) :
  (forall p, In p left ->
             exists pr, In pr (sjoin_left_within within left right)
                        /\ fst pr = p)
  /\ (forall pr, In pr (sjoin_left_within within left right) ->
                 In (fst pr) left)
  /\ List.length left <= List.length (sjoin_left_within within left right).
Proof.
  unfold sjoin_left_within.
  induction left as [|p left (IH1 & IH2 & IH3)]; cbn [flat_map].
  - repeat split; [intros p []|intros pr []|apply Nat.le_refl].
  - destruct (point_matches p
                (filter (fun s => within (g_point p) (geometry s)) right))
      as (Hhead & Hall & Hlen).
    cbv zeta in Hhead, Hall, Hlen.
    repeat split.
    + intros q [<-|Hq].
      * destruct Hhead as (pr & Hpr & Hfst). exists pr.
        split; [apply in_or_app; left; exact Hpr|exact Hfst].
      * destruct (IH1 q Hq) as (pr & Hpr & Hfst). exists pr.
        split; [apply in_or_app; right; exact Hpr|exact Hfst].
    + intros pr Hpr. apply in_app_or in Hpr. destruct Hpr as [Hpr|Hpr].
      * left. symmetry. now apply Hall.
      * right. now apply IH2.
    + rewrite length_app. cbn [List.length] in *. lia.
Qed.

Lemma sjoin_sound (left : list GeoRow) (right : list (StateRecord polygon))
      (pr : GeoRow * option (StateRecord polygon)) :
  In pr (sjoin_left_within within left right) ->
  match snd pr with
  | Some s => In s right /\ within (g_point (fst pr)) (geometry s) = true
  | None => forall s, In s right ->
                      within (g_point (fst pr)) (geometry s) = false
  end.
Proof.
  unfold sjoin_left_within. intros H. apply in_flat_map in H.
  destruct H as (p & _ & H).
  destruct (filter (fun s => within (g_point p) (geometry s)) right)
    as [|s0 ms] eqn:Hf.
  - destruct H as [<-|[]]. cbn [fst snd]. intros s Hs.
    destruct (within (g_point p) (geometry s)) eqn:Hw; [|reflexivity].
    assert (Hin : In s (filter (fun s => within (g_point p) (geometry s)) right))
      by (apply filter_In; now split).
    rewrite Hf in Hin. destruct Hin.
  - apply in_map_iff in H. destruct H as (s & <- & Hs). cbn [fst snd].
    rewrite <- Hf in Hs. apply filter_In in Hs. exact Hs.
Qed.

Lemma join_springfields_table (gdf : GeoDataFrame) (w w' : world)
      (joined : list JoinedRow) :
  Springfield.join_springfields_to_states gdf w = (Ok joined, w') ->
  exists t w1,
    Springfield.fetch_states w = (Ok t, w1)
    /\ joined = springfield_rows gdf t.
Proof.
  intros H.
  destruct (join_springfields_after_fetch gdf w)
    as (r & w1 & w2 & Hf & _ & _ & Hj).
  rewrite Hj in H. destruct r as [t|e]; [|discriminate].
  injection H as <- _. now exists t, w1.
Qed.

Lemma join_cities_table (gdf : GeoDataFrame) (w w' : world)
      (joined : list JoinedRow) :
  General.join_cities_to_states gdf w = (Ok joined, w') ->
  exists t w1,
    Springfield.fetch_states w = (Ok t, w1)
    /\ joined = general_rows gdf t.
Proof.
  intros H.
  destruct (join_cities_after_fetch gdf w)
    as (r & w1 & w2 & Hf & _ & _ & Hj).
  rewrite Hj in H. destruct r as [t|e]; [|discriminate].
  injection H as <- _. now exists t, w1.
Qed.

Lemma joined_rows_keep_points (gdf : GeoDataFrame)
      (states : list (StateRecord polygon)) :
  let joined := map joined_row (sjoin_left_within within (rows gdf) states) in
  (forall p, In p (rows gdf) -> exists r, In r joined /\ j_point r = p)
  /\ (forall r, In r joined -> In (j_point r) (rows gdf))
  /\ List.length (rows gdf) <= List.length joined.
Proof.
  cbv zeta. destruct (sjoin_keeps_left (rows gdf) states) as (H1 & H2 & H3).
  repeat split.
  - intros p Hp. destruct (H1 p Hp) as (pr & Hpr & <-).
    exists (joined_row pr). split; [now apply in_map|reflexivity].
  - intros r Hr. apply in_map_iff in Hr. destruct Hr as (pr & <- & Hpr).
    exact (H2 pr Hpr).
  - now rewrite length_map.
Qed.

Lemma joined_rows_justified (gdf : GeoDataFrame)
      (t : list (StateRecord polygon)) (keep : StateRecord polygon -> bool)
      (r : JoinedRow) :
  (forall s, keep {| NAME := NAME s; STUSPS := STUSPS s;
                     geometry := reproject (crs gdf) (geometry s) |} = keep s) ->
  In r (map joined_row
            (sjoin_left_within within (rows gdf)
               (filter keep (reprojected (crs gdf) t)))) ->
  justified gdf (filter keep t) r.
Proof.
  intros Hkeep Hr. apply in_map_iff in Hr. destruct Hr as (pr & <- & Hpr).
  apply sjoin_sound in Hpr. unfold justified, joined_row.
  cbn [state_name state_abbrev state_match j_point].
  destruct pr as [p [s|]]; cbn [fst snd option_map] in *.
  - destruct Hpr as [Hs Hw]. apply filter_In in Hs. destruct Hs as [Hs Hk].
    unfold reprojected in Hs. apply in_map_iff in Hs.
    destruct Hs as (s0 & <- & Hs0). cbn [NAME STUSPS geometry] in *.
    exists s0. rewrite Hkeep in Hk.
    repeat split; auto. apply filter_In. now split.
  - split; [unfold Springfield.match_lambda; now destruct (g_state p)|].
    intros s Hs. apply filter_In in Hs. destruct Hs as [Hs Hk].
    apply (Hpr {| NAME := NAME s; STUSPS := STUSPS s;
                  geometry := reproject (crs gdf) (geometry s) |}).
    apply filter_In. split; [|now rewrite Hkeep].
    unfold reprojected. apply in_map_iff. now exists s.
Qed.

End JoinMore.

(** X14: the join is a left join: every point row of the input is in the
    joined table at least once, the joined table has no other point, and
    it is at least as long as the input. *)
Theorem join_keeps_every_point :
  forall (E : Externals) (gdf : GeoDataFrame) (w w' : world)
         (joined : list JoinedRow),
    Springfield.join_springfields_to_states gdf w = (Ok joined, w')
    \/ General.join_cities_to_states gdf w = (Ok joined, w') ->
    (forall p, In p (rows gdf) -> exists r, In r joined /\ j_point r = p)
    /\ (forall r, In r joined -> In (j_point r) (rows gdf))
    /\ List.length (rows gdf) <= List.length joined.
Proof.
  intros E gdf w w' joined [H|H].
  - destruct (join_springfields_table _ _ H) as (t & w1 & _ & ->).
    apply joined_rows_keep_points.
  - destruct (join_cities_table _ _ H) as (t & w1 & _ & ->).
    apply joined_rows_keep_points.
Qed.

Lemma join_keeps_every_point_witness :
  (forall p, In p (rows (gdf_of (row_at 61 (Some (str "Alaska"))))) ->
             exists r,
               In r [ {| j_point := row_at 61 (Some (str "Alaska"));
                         state_name := None; state_abbrev := None;
                         state_match := false |} ]
               /\ j_point r = p)
  /\ (forall r,
         In r [ {| j_point := row_at 61 (Some (str "Alaska"));
                   state_name := None; state_abbrev := None;
                   state_match := false |} ] ->
         In (j_point r) (rows (gdf_of (row_at 61 (Some (str "Alaska"))))))
  /\ List.length (rows (gdf_of (row_at 61 (Some (str "Alaska")))))
     <= List.length [ {| j_point := row_at 61 (Some (str "Alaska"));
                         state_name := None; state_abbrev := None;
                         state_match := false |} ].
Proof.
  refine (@join_keeps_every_point demo_externals
            (gdf_of (row_at 61 (Some (str "Alaska")))) cached_world
            (snd (@General.join_cities_to_states demo_externals
                    (gdf_of (row_at 61 (Some (str "Alaska")))) cached_world))
            _ (or_intror _)).
  apply injective_projections; [vm_compute; reflexivity|reflexivity].
Defined.

(** X15: the state columns of a joined row are justified by the loaded
    dataset.  A row with a state name carries the name and abbreviation of
    a state of the dataset whose reprojected polygon contains the point; a
    row without one has neither name nor abbreviation, is flagged as not
    matching, and its point is in no polygon.  For the general module the
    dataset is the loaded one without Alaska, Hawaii and Puerto Rico. *)
Theorem joined_state_is_justified :
  forall (E : Externals) (gdf : GeoDataFrame) (w w' w1 : world)
         (t : list (StateRecord polygon)) (joined : list JoinedRow),
    Springfield.fetch_states w = (Ok t, w1) ->
    (Springfield.join_springfields_to_states gdf w = (Ok joined, w') ->
     Forall (justified gdf t) joined)
    /\ (General.join_cities_to_states gdf w = (Ok joined, w') ->
        Forall (justified gdf (filter (fun s => negb (excluded_state s)) t))
               joined).
Proof.
  intros E gdf w w' w1 t joined Hf. split; intros H.
  - destruct (join_springfields_table _ _ H) as (t' & w1' & Hf' & ->).
    rewrite Hf in Hf'. injection Hf' as <- _.
    apply Forall_forall. intros r Hr.
    assert (Hall : filter (fun _ : StateRecord polygon => true) t = t)
      by (apply forallb_filter_id; now apply forallb_forall).
    rewrite <- Hall.
    apply joined_rows_justified; [reflexivity|].
    unfold springfield_rows in Hr.
    replace (filter (fun _ => true) (reprojected (crs gdf) t))
      with (reprojected (crs gdf) t); [exact Hr|].
    symmetry. apply forallb_filter_id. now apply forallb_forall.
  - destruct (join_cities_table _ _ H) as (t' & w1' & Hf' & ->).
    rewrite Hf in Hf'. injection Hf' as <- _.
    apply Forall_forall. intros r Hr.
    apply joined_rows_justified; [reflexivity|exact Hr].
Qed.

(** X16: the general join never assigns Alaska, Hawaii or Puerto Rico: no
    row of its table has one of the abbreviations AK, HI, PR. *)
Theorem general_join_never_assigns_excluded :
  forall (E : Externals) (gdf : GeoDataFrame) (w w' : world)
         (joined : list JoinedRow) (r : JoinedRow) (a : pystr),
    General.join_cities_to_states gdf w = (Ok joined, w') ->
    In r joined ->
    state_abbrev r = Some a ->
    isin a [str "AK"; str "HI"; str "PR"] = false.
Proof.
  intros E gdf w w' joined r a H Hr Ha.
  destruct (join_cities_table _ _ H) as (t & w1 & Hf & ->).
  assert (Hj := @joined_rows_justified E gdf t
                  (fun s => negb (excluded_state s)) r (fun _ => eq_refl) Hr).
  unfold justified in Hj. rewrite Ha in Hj.
  destruct (state_name r); [|destruct Hj].
  destruct Hj as (s & Hs & _ & <- & _).
  apply filter_In in Hs. destruct Hs as [_ Hk].
  unfold excluded_state in Hk. now destruct (isin (STUSPS s) _).
Qed.

Lemma joined_state_is_justified_witness :
  Forall (@justified demo_externals (gdf_of (row_at 40 (Some (str "Ohio"))))
            demo_states)
         [ {| j_point := row_at 40 (Some (str "Ohio"));
              state_name := Some (str "Ohio");
              state_abbrev := Some (str "OH");
              state_match := true |} ].
Proof.
  refine (proj1 (@joined_state_is_justified demo_externals
                   (gdf_of (row_at 40 (Some (str "Ohio")))) cached_world
                   (snd (@Springfield.join_springfields_to_states demo_externals
                           (gdf_of (row_at 40 (Some (str "Ohio"))))
                           cached_world))
                   cached_world demo_states _ _) _).
  - exact (@fetch_states_cached demo_externals cached_world [80; 75]%N Dir
             eq_refl eq_refl).
  - apply injective_projections; [vm_compute; reflexivity|reflexivity].
Defined.

Lemma general_join_never_assigns_excluded_witness :
  isin (str "OH") [str "AK"; str "HI"; str "PR"] = false.
Proof.
  refine (@general_join_never_assigns_excluded demo_externals
            (gdf_of (row_at 40 (Some (str "Ohio")))) cached_world
            (snd (@General.join_cities_to_states demo_externals
                    (gdf_of (row_at 40 (Some (str "Ohio")))) cached_world))
            [ {| j_point := row_at 40 (Some (str "Ohio"));
                 state_name := Some (str "Ohio");
                 state_abbrev := Some (str "OH");
                 state_match := true |} ]
            {| j_point := row_at 40 (Some (str "Ohio"));
               state_name := Some (str "Ohio");
               state_abbrev := Some (str "OH");
               state_match := true |}
            (str "OH") _ (or_introl eq_refl) eq_refl).
  apply injective_projections; [vm_compute; reflexivity|reflexivity].
Defined.

Section Poisoned.
Context {E : Externals}.

Lemma fetch_states_undecodable (w : world) (resp : response) :
  fs w (str "data") = Some Dir ->
  fs w zip_path = None ->
  may_write w zip_path = true ->
  http_get (http_log w) states_request = Some resp ->
  read_shapefile (content resp) = None ->
  exists w1,
    Springfield.fetch_states w = (Raise DriverError, w1)
    /\ fs w1 (str "data") = Some Dir
    /\ fs w1 zip_path = Some (File (content resp))
    /\ http_log w1 = http_log w ++ [states_request].
Proof.
  destruct w as [f mw log out]. cbn [fs may_write http_log].
  intros Hd Hz Hmw Hget Hread.
  unfold Springfield.fetch_states, bind, os_path_exists, os_makedirs,
    write_binary, gpd_read_file, requests_get, print, ret, fs_set.
  fold zip_path. rewrite dirname_zip.
  change {| req_url := Springfield.states_url; req_params := [] |}
    with states_request.
  cbn [fs may_write http_log stdout negb].
  rewrite Hd. cbn [negb fs may_write http_log stdout].
  rewrite Hz. cbn [negb fs may_write http_log stdout].
  rewrite Hget. cbn [fs may_write http_log stdout].
  rewrite Hd, Hz, Hmw. cbn [fs may_write http_log stdout].
  rewrite str_eqb_refl, Hread.
  eexists. split; [reflexivity|]. cbn [fs http_log].
  rewrite str_eqb_refl. repeat split.
  destruct (str_eqb (str "data") zip_path) eqn:Heq; [|exact Hd].
  apply str_eqb_eq in Heq. discriminate.
Qed.

Lemma poisoned_springfields (gdf gdf2 : GeoDataFrame) (w : world)
      (resp : response) :
  fs w (str "data") = Some Dir ->
  fs w zip_path = None ->
  may_write w zip_path = true ->
  http_get (http_log w) states_request = Some resp ->
  read_shapefile (content resp) = None ->
  exists w',
    Springfield.join_springfields_to_states gdf w = (Raise DriverError, w')
    /\ fs w' zip_path = Some (File (content resp))
    /\ http_log w' = http_log w ++ [states_request]
    /\ fst (Springfield.join_springfields_to_states gdf2 w')
       = Raise DriverError
    /\ http_log (snd (Springfield.join_springfields_to_states gdf2 w'))
       = http_log w'.
Proof.
  intros Hd Hz Hmw Hget Hread.
  destruct (fetch_states_undecodable w Hd Hz Hmw Hget Hread)
    as (w1 & Hf & Hd1 & Hz1 & Hlog1).
  destruct (join_springfields_after_fetch gdf w)
    as (r & w1' & w' & Hf' & Hfs & Hlog & Hj).
  rewrite Hf in Hf'. injection Hf' as <- <-.
  exists w'. split; [exact Hj|]. rewrite Hfs, Hlog.
  split; [exact Hz1|]. split; [exact Hlog1|].
  assert (Hd' : fs w' (str "data") = Some Dir) by (now rewrite Hfs).
  assert (Hz' : fs w' zip_path = Some (File (content resp)))
    by (now rewrite Hfs).
  destruct (join_springfields_after_fetch gdf2 w')
    as (r2 & w2 & w2' & Hf2 & _ & Hlog2 & Hj2).
  rewrite (fetch_states_cached w' Hd' Hz'), Hread in Hf2.
  injection Hf2 as <- <-. rewrite Hj2. cbn [fst snd].
  split; [reflexivity|congruence].
Qed.

Lemma poisoned_cities (gdf gdf2 : GeoDataFrame) (w : world)
      (resp : response) :
  fs w (str "data") = Some Dir ->
  fs w zip_path = None ->
  may_write w zip_path = true ->
  http_get (http_log w) states_request = Some resp ->
  read_shapefile (content resp) = None ->
  exists w',
    General.join_cities_to_states gdf w = (Raise DriverError, w')
    /\ fs w' zip_path = Some (File (content resp))
    /\ http_log w' = http_log w ++ [states_request]
    /\ fst (General.join_cities_to_states gdf2 w') = Raise DriverError
    /\ http_log (snd (General.join_cities_to_states gdf2 w')) = http_log w'.
Proof.
  intros Hd Hz Hmw Hget Hread.
  destruct (fetch_states_undecodable w Hd Hz Hmw Hget Hread)
    as (w1 & Hf & Hd1 & Hz1 & Hlog1).
  destruct (join_cities_after_fetch gdf w)
    as (r & w1' & w' & Hf' & Hfs & Hlog & Hj).
  rewrite Hf in Hf'. injection Hf' as <- <-.
  exists w'. split; [exact Hj|]. rewrite Hfs, Hlog.
  split; [exact Hz1|]. split; [exact Hlog1|].
  assert (Hd' : fs w' (str "data") = Some Dir) by (now rewrite Hfs).
  assert (Hz' : fs w' zip_path = Some (File (content resp)))
    by (now rewrite Hfs).
  destruct (join_cities_after_fetch gdf2 w')
    as (r2 & w2 & w2' & Hf2 & _ & Hlog2 & Hj2).
  rewrite (fetch_states_cached w' Hd' Hz'), Hread in Hf2.
  injection Hf2 as <- <-. rewrite Hj2. cbn [fst snd].
  split; [reflexivity|congruence].
Qed.

End Poisoned.

(** X17: a download that cannot be decoded stays in the cache.  When the
    cache file is missing and the body that the server sends is not a
    readable shapefile archive, the join writes that body to the cache file
    and ends with [DriverError]; every later join finds the file, issues no
    request, and ends with [DriverError] again. *)
Theorem undecodable_download_poisons_cache :
  forall (E : Externals) (gdf gdf2 : GeoDataFrame) (w : world)
         (resp : response),
    fs w (str "data") = Some Dir ->
    fs w zip_path = None ->
    may_write w zip_path = true ->
    http_get (http_log w) states_request = Some resp ->
    read_shapefile (content resp) = None ->
    (exists w',
        Springfield.join_springfields_to_states gdf w = (Raise DriverError, w')
        /\ fs w' zip_path = Some (File (content resp))
        /\ http_log w' = http_log w ++ [states_request]
        /\ fst (Springfield.join_springfields_to_states gdf2 w')
           = Raise DriverError
        /\ http_log (snd (Springfield.join_springfields_to_states gdf2 w'))
           = http_log w')
    /\ (exists w',
        General.join_cities_to_states gdf w = (Raise DriverError, w')
        /\ fs w' zip_path = Some (File (content resp))
        /\ http_log w' = http_log w ++ [states_request]
        /\ fst (General.join_cities_to_states gdf2 w') = Raise DriverError
        /\ http_log (snd (General.join_cities_to_states gdf2 w'))
           = http_log w').
Proof.
  intros E gdf gdf2 w resp Hd Hz Hmw Hget Hread. split.
  - now apply poisoned_springfields.
  - now apply poisoned_cities.
Qed.

Lemma undecodable_download_poisons_cache_witness :
  exists w',
    @Springfield.join_springfields_to_states
      (externals_serving empty_body_response)
      (gdf_of (row_at 40 (Some (str "Ohio")))) world_without_cache
    = (Raise DriverError, w')
    /\ fs w' zip_path = Some (File (content empty_body_response))
    /\ http_log w' = http_log world_without_cache ++ [states_request]
    /\ fst (@Springfield.join_springfields_to_states
              (externals_serving empty_body_response)
              (gdf_of (row_at 61 (Some (str "Alaska")))) w')
       = Raise DriverError
    /\ http_log (snd (@Springfield.join_springfields_to_states
                        (externals_serving empty_body_response)
                        (gdf_of (row_at 61 (Some (str "Alaska")))) w'))
       = http_log w'.
Proof.
  exact (proj1 (@undecodable_download_poisons_cache
                  (externals_serving empty_body_response)
                  (gdf_of (row_at 40 (Some (str "Ohio"))))
                  (gdf_of (row_at 61 (Some (str "Alaska"))))
                  world_without_cache empty_body_response
                  eq_refl eq_refl eq_refl eq_refl eq_refl)).
Defined.

(* ================================================================== *)
(** ** More on the distribution analyzer *)
(* ================================================================== *)

Lemma group_keys_in (t : list JoinedRow) (k : group_key) :
  In k (group_keys t) <-> exists r, In r t /\ has_key k r = true.
Proof.
  induction t as [|r t IH].
  - split; [intros []|intros (r & [] & _)].
  - rewrite group_keys_cons, in_app_iff, IH. unfold has_key at 2. split.
    + intros [H|(r' & Hr' & Hk)].
      * exists r. split; [now left|]. unfold has_key.
        destruct (state_name r) as [n|]; [|destruct H].
        destruct (state_abbrev r) as [a|]; [|destruct H].
        destruct H as [<-|[]]. now destruct (key_eq_dec (n, a) (n, a)).
      * exists r'. split; [now right|exact Hk].
    + intros (r' & [<-|Hr'] & Hk).
      * left. unfold has_key in Hk.
        destruct (state_name r) as [n|]; [|discriminate].
        destruct (state_abbrev r) as [a|]; [|discriminate].
        destruct (key_eq_dec (n, a) k) as [<-|]; [now left|discriminate].
      * right. now exists r'.
Qed.

Lemma count_occ_rows (t : list JoinedRow) (k : group_key) :
  count_occ key_eq_dec (group_keys t) k = List.length (filter (has_key k) t).
Proof.
  induction t as [|r t IH]; [reflexivity|].
  rewrite group_keys_cons. cbn [filter]. unfold has_key at 1.
  destruct (state_name r) as [n|]; [|exact IH].
  destruct (state_abbrev r) as [a|]; [|exact IH].
  cbn [app count_occ].
  destruct (key_eq_dec (n, a) k); cbn [List.length]; now rewrite IH.
Qed.

Lemma groupby_size_keys (t : list JoinedRow) :
  map key_of (groupby_size t)
  = sort_by key_leb (nodup key_eq_dec (group_keys t)).
Proof.
  unfold groupby_size. rewrite map_map.
  rewrite <- (map_id (sort_by key_leb (nodup key_eq_dec (group_keys t)))) at 2.
  apply map_ext. intros [n a]. reflexivity.
Qed.

Lemma groupby_size_rows (t : list JoinedRow) (c : CountRow) :
  In c (groupby_size t) ->
  In (key_of c) (group_keys t)
  /\ count c = count_occ key_eq_dec (group_keys t) (key_of c).
Proof.
  unfold groupby_size. intros H. apply in_map_iff in H.
  destruct H as ([n a] & <- & Hk). cbn [key_of cr_state_name cr_state_abbrev
    count fst snd]. split; [|reflexivity].
  apply (Permutation_in _ (Permutation_sym (sort_by_perm key_leb _))) in Hk.
  now apply nodup_In in Hk.
Qed.

(** X18: the distribution table has one row per pair of state name and
    abbreviation that occurs in the joined table: no pair twice, a pair is
    there exactly when some joined row has it, and its count is the number
    of joined rows that have it, which is at least one. *)
Theorem distribution_one_row_per_state :
  forall (joined : list JoinedRow) (w : world),
  exists counts,
    fst (Springfield.analyze_springfield_distribution joined w) = Ok counts
    /\ fst (General.analyze_cities_distribution joined w) = Ok counts
    /\ NoDup (map key_of counts)
    /\ (forall k, In k (map key_of counts) <->
                  exists r, In r joined /\ has_key k r = true)
    /\ (forall c, In c counts ->
                  count c = List.length (filter (has_key (key_of c)) joined)
                  /\ 1 <= count c).
Proof.
  intros joined w.
  exists (sort_values_count_desc (groupby_size joined)).
  split; [reflexivity|]. split; [reflexivity|].
  assert (Hperm : Permutation (groupby_size joined)
                              (sort_values_count_desc (groupby_size joined)))
    by (apply sort_by_perm).
  assert (Hkeys : Permutation (nodup key_eq_dec (group_keys joined))
                              (map key_of (sort_values_count_desc
                                             (groupby_size joined)))).
  { eapply perm_trans; [apply (sort_by_perm key_leb)|].
    rewrite <- groupby_size_keys. now apply Permutation_map. }
  split; [|split].
  - exact (Permutation_NoDup Hkeys (NoDup_nodup _ _)).
  - intros k. rewrite <- group_keys_in. split; intros H.
    + apply (Permutation_in _ (Permutation_sym Hkeys)) in H.
      now apply nodup_In in H.
    + apply (Permutation_in _ Hkeys). now apply nodup_In.
  - intros c Hc. apply (Permutation_in _ (Permutation_sym Hperm)) in Hc.
    destruct (groupby_size_rows _ _ Hc) as [Hin Hcount].
    rewrite Hcount, <- count_occ_rows. split; [reflexivity|].
    now apply count_occ_In.
Qed.

(* ================================================================== *)
(** ** The general module at the name Springfield *)
(* ================================================================== *)

Section Printing.
Context {E : Externals} {P : PageJson}.

Local Open Scope io_scope.

(** A computation reads the world apart from the printed lines only, and
    only appends to them. *)
Lemma bind_blind {A B} (m : M A) (k : A -> M B) :
  (forall w1 w2,
      fs w1 = fs w2 -> may_write w1 = may_write w2 ->
      http_log w1 = http_log w2 ->
      fst (m w1) = fst (m w2)
      /\ fs (snd (m w1)) = fs (snd (m w2))
      /\ may_write (snd (m w1)) = may_write (snd (m w2))
      /\ http_log (snd (m w1)) = http_log (snd (m w2))
      /\ exists out, stdout (snd (m w1)) = stdout w1 ++ out
                     /\ stdout (snd (m w2)) = stdout w2 ++ out) ->
  (forall a w1 w2,
      fs w1 = fs w2 -> may_write w1 = may_write w2 ->
      http_log w1 = http_log w2 ->
      fst (k a w1) = fst (k a w2)
      /\ fs (snd (k a w1)) = fs (snd (k a w2))
      /\ may_write (snd (k a w1)) = may_write (snd (k a w2))
      /\ http_log (snd (k a w1)) = http_log (snd (k a w2))
      /\ exists out, stdout (snd (k a w1)) = stdout w1 ++ out
                     /\ stdout (snd (k a w2)) = stdout w2 ++ out) ->
  forall w1 w2,
    fs w1 = fs w2 -> may_write w1 = may_write w2 ->
    http_log w1 = http_log w2 ->
    fst (bind m k w1) = fst (bind m k w2)
    /\ fs (snd (bind m k w1)) = fs (snd (bind m k w2))
    /\ may_write (snd (bind m k w1)) = may_write (snd (bind m k w2))
    /\ http_log (snd (bind m k w1)) = http_log (snd (bind m k w2))
    /\ exists out, stdout (snd (bind m k w1)) = stdout w1 ++ out
                   /\ stdout (snd (bind m k w2)) = stdout w2 ++ out.
Proof.
  intros Hm Hk w1 w2 H1 H2 H3. unfold bind.
  destruct (Hm w1 w2 H1 H2 H3) as (Hr & G1 & G2 & G3 & out & Ho1 & Ho2).
  destruct (m w1) as [r1 v1], (m w2) as [r2 v2]. cbn [fst snd] in *.
  subst r2. destruct r1 as [a|e].
  - destruct (Hk a v1 v2 G1 G2 G3) as (Kr & K1 & K2 & K3 & out' & Ko1 & Ko2).
    repeat split; try assumption.
    exists (out ++ out'). rewrite Ko1, Ko2, Ho1, Ho2, !app_assoc. now split.
  - cbn [fst snd]. repeat split; try assumption. now exists out.
Qed.

Lemma try_blind {A} (m : M A) (h : exn -> M A) :
  (forall w1 w2,
      fs w1 = fs w2 -> may_write w1 = may_write w2 ->
      http_log w1 = http_log w2 ->
      fst (m w1) = fst (m w2)
      /\ fs (snd (m w1)) = fs (snd (m w2))
      /\ may_write (snd (m w1)) = may_write (snd (m w2))
      /\ http_log (snd (m w1)) = http_log (snd (m w2))
      /\ exists out, stdout (snd (m w1)) = stdout w1 ++ out
                     /\ stdout (snd (m w2)) = stdout w2 ++ out) ->
  (forall e w1 w2,
      fs w1 = fs w2 -> may_write w1 = may_write w2 ->
      http_log w1 = http_log w2 ->
      fst (h e w1) = fst (h e w2)
      /\ fs (snd (h e w1)) = fs (snd (h e w2))
      /\ may_write (snd (h e w1)) = may_write (snd (h e w2))
      /\ http_log (snd (h e w1)) = http_log (snd (h e w2))
      /\ exists out, stdout (snd (h e w1)) = stdout w1 ++ out
                     /\ stdout (snd (h e w2)) = stdout w2 ++ out) ->
  forall w1 w2,
    fs w1 = fs w2 -> may_write w1 = may_write w2 ->
    http_log w1 = http_log w2 ->
    fst (try_except_request m h w1) = fst (try_except_request m h w2)
    /\ fs (snd (try_except_request m h w1))
       = fs (snd (try_except_request m h w2))
    /\ may_write (snd (try_except_request m h w1))
       = may_write (snd (try_except_request m h w2))
    /\ http_log (snd (try_except_request m h w1))
       = http_log (snd (try_except_request m h w2))
    /\ exists out,
        stdout (snd (try_except_request m h w1)) = stdout w1 ++ out
        /\ stdout (snd (try_except_request m h w2)) = stdout w2 ++ out.
Proof.
  intros Hm Hh w1 w2 H1 H2 H3. unfold try_except_request.
  destruct (Hm w1 w2 H1 H2 H3) as (Hr & G1 & G2 & G3 & out & Ho1 & Ho2).
  destruct (m w1) as [r1 v1], (m w2) as [r2 v2]. cbn [fst snd] in *.
  subst r2.
  assert (Hpass : fst (r1, v1) = fst (r1, v2)
                  /\ fs (snd (r1, v1)) = fs (snd (r1, v2))
                  /\ may_write (snd (r1, v1)) = may_write (snd (r1, v2))
                  /\ http_log (snd (r1, v1)) = http_log (snd (r1, v2))
                  /\ exists out0, stdout (snd (r1, v1)) = stdout w1 ++ out0
                                  /\ stdout (snd (r1, v2)) = stdout w2 ++ out0).
  { cbn [fst snd]. repeat split; try assumption. now exists out. }
  destruct r1 as [a|e]; [exact Hpass|].
  destruct e; try exact Hpass.
  destruct (Hh RequestException v1 v2 G1 G2 G3)
    as (Kr & K1 & K2 & K3 & out' & Ko1 & Ko2).
  repeat split; try assumption.
  exists (out ++ out'). rewrite Ko1, Ko2, Ho1, Ho2, !app_assoc. now split.
Qed.

Lemma pure_blind {A} (r : result A) (w1 w2 : world) :
  fs w1 = fs w2 -> may_write w1 = may_write w2 ->
  http_log w1 = http_log w2 ->
  fst (lift r w1) = fst (lift r w2)
  /\ fs (snd (lift r w1)) = fs (snd (lift r w2))
  /\ may_write (snd (lift r w1)) = may_write (snd (lift r w2))
  /\ http_log (snd (lift r w1)) = http_log (snd (lift r w2))
  /\ exists out, stdout (snd (lift r w1)) = stdout w1 ++ out
                 /\ stdout (snd (lift r w2)) = stdout w2 ++ out.
Proof.
  intros H1 H2 H3. cbn. repeat split; try assumption.
  exists []. now rewrite !app_nil_r.
Qed.

Lemma print_blind (p : printed) (w1 w2 : world) :
  fs w1 = fs w2 -> may_write w1 = may_write w2 ->
  http_log w1 = http_log w2 ->
  fst (print p w1) = fst (print p w2)
  /\ fs (snd (print p w1)) = fs (snd (print p w2))
  /\ may_write (snd (print p w1)) = may_write (snd (print p w2))
  /\ http_log (snd (print p w1)) = http_log (snd (print p w2))
  /\ exists out, stdout (snd (print p w1)) = stdout w1 ++ out
                 /\ stdout (snd (print p w2)) = stdout w2 ++ out.
Proof.
  intros H1 H2 H3. cbn. repeat split; try assumption. now exists [p].
Qed.

Lemma requests_get_blind (url : pystr) (params : list (pystr * pystr))
      (w1 w2 : world) :
  fs w1 = fs w2 -> may_write w1 = may_write w2 ->
  http_log w1 = http_log w2 ->
  fst (requests_get url params w1) = fst (requests_get url params w2)
  /\ fs (snd (requests_get url params w1))
     = fs (snd (requests_get url params w2))
  /\ may_write (snd (requests_get url params w1))
     = may_write (snd (requests_get url params w2))
  /\ http_log (snd (requests_get url params w1))
     = http_log (snd (requests_get url params w2))
  /\ exists out, stdout (snd (requests_get url params w1)) = stdout w1 ++ out
                 /\ stdout (snd (requests_get url params w2))
                    = stdout w2 ++ out.
Proof.
  intros H1 H2 H3. unfold requests_get. rewrite H3.
  destruct (http_get (http_log w2) _); cbn [fst snd fs may_write http_log
    stdout]; (repeat split; try congruence);
    exists []; now rewrite !app_nil_r.
Qed.

Lemma batch_body_blind (cities : list CandidateEntry)
      (results : list ResolvedPlace) (i : nat) (w1 w2 : world) :
  fs w1 = fs w2 -> may_write w1 = may_write w2 ->
  http_log w1 = http_log w2 ->
  fst (Springfield.batch_body cities results i w1)
  = fst (Springfield.batch_body cities results i w2)
  /\ fs (snd (Springfield.batch_body cities results i w1))
     = fs (snd (Springfield.batch_body cities results i w2))
  /\ may_write (snd (Springfield.batch_body cities results i w1))
     = may_write (snd (Springfield.batch_body cities results i w2))
  /\ http_log (snd (Springfield.batch_body cities results i w1))
     = http_log (snd (Springfield.batch_body cities results i w2))
  /\ exists out,
      stdout (snd (Springfield.batch_body cities results i w1))
      = stdout w1 ++ out
      /\ stdout (snd (Springfield.batch_body cities results i w2))
         = stdout w2 ++ out.
Proof.
  revert w1 w2. unfold Springfield.batch_body. cbv zeta.
  apply try_blind;
    [|intros e; apply bind_blind; [apply print_blind|];
      intros _ w1 w2; apply (pure_blind (Ok _))].
  apply bind_blind; [apply requests_get_blind|]. intros response.
  apply bind_blind.
  { unfold raise_for_status. destruct (status_ok response); intros;
      [apply (pure_blind (Ok tt))|apply (pure_blind (Raise RequestException))];
      assumption. }
  intros _. apply bind_blind.
  { unfold response_json. destruct (json response); intros;
      [apply (pure_blind (Ok _))|apply (pure_blind (Raise RequestException))];
      assumption. }
  intros data. destruct (d_query data) as [q|];
    [|intros; apply (pure_blind (Ok results)); assumption].
  destruct (q_pages q) as [pages|]; intros;
    [apply pure_blind|apply (pure_blind (Ok results))]; assumption.
Qed.

Lemma for_batches_blind (cities : list CandidateEntry) (starts : list nat) :
  forall (results : list ResolvedPlace) (w1 w2 : world),
    fs w1 = fs w2 -> may_write w1 = may_write w2 ->
    http_log w1 = http_log w2 ->
    fst (Springfield.for_batches cities results starts w1)
    = fst (Springfield.for_batches cities results starts w2)
    /\ fs (snd (Springfield.for_batches cities results starts w1))
       = fs (snd (Springfield.for_batches cities results starts w2))
    /\ may_write (snd (Springfield.for_batches cities results starts w1))
       = may_write (snd (Springfield.for_batches cities results starts w2))
    /\ http_log (snd (Springfield.for_batches cities results starts w1))
       = http_log (snd (Springfield.for_batches cities results starts w2))
    /\ exists out,
        stdout (snd (Springfield.for_batches cities results starts w1))
        = stdout w1 ++ out
        /\ stdout (snd (Springfield.for_batches cities results starts w2))
           = stdout w2 ++ out.
Proof.
  induction starts as [|i rest IH]; intros results.
  - intros w1 w2. apply (pure_blind (Ok results)).
  - cbn [Springfield.for_batches]. apply bind_blind.
    + apply batch_body_blind.
    + intros results'. apply IH.
Qed.

Lemma page_fetch_blind (w1 w2 : world) :
  fs w1 = fs w2 -> may_write w1 = may_write w2 ->
  http_log w1 = http_log w2 ->
  fst (SpringfieldPage.get_disambiguation_content w1)
  = fst (SpringfieldPage.get_disambiguation_content w2)
  /\ fs (snd (SpringfieldPage.get_disambiguation_content w1))
     = fs (snd (SpringfieldPage.get_disambiguation_content w2))
  /\ may_write (snd (SpringfieldPage.get_disambiguation_content w1))
     = may_write (snd (SpringfieldPage.get_disambiguation_content w2))
  /\ http_log (snd (SpringfieldPage.get_disambiguation_content w1))
     = http_log (snd (SpringfieldPage.get_disambiguation_content w2))
  /\ exists out,
      stdout (snd (SpringfieldPage.get_disambiguation_content w1))
      = stdout w1 ++ out
      /\ stdout (snd (SpringfieldPage.get_disambiguation_content w2))
         = stdout w2 ++ out.
Proof.
  revert w1 w2. unfold SpringfieldPage.get_disambiguation_content. cbv zeta.
  apply try_blind;
    [|intros e; apply bind_blind; [apply print_blind|];
      intros _ w1 w2; apply (pure_blind (Ok _))].
  apply bind_blind; [apply requests_get_blind|]. intros response.
  apply bind_blind.
  { unfold raise_for_status. destruct (status_ok response); intros;
      [apply (pure_blind (Ok tt))|apply (pure_blind (Raise RequestException))];
      assumption. }
  intros _. apply bind_blind.
  { destruct (parse_response_json response); intros;
      [apply (pure_blind (Ok _))|apply (pure_blind (Raise RequestException))];
      assumption. }
  intros data. destruct (d_parse data) as [parse|];
    [|intros; apply (pure_blind (Raise ValueError)); assumption].
  destruct (pj_wikitext parse) as [wikitext|];
    [|intros; apply (pure_blind (Raise ValueError)); assumption].
  apply bind_blind; [intros; apply pure_blind; assumption|].
  intros text w1 w2. apply (pure_blind (Ok (Some text))).
Qed.

Lemma create_after_first_line (p q : printed) (w : world) :
  let rest :=
    (content <- SpringfieldPage.get_disambiguation_content ;;
     match content with
     | None => raise ValueError
     | Some content =>
         print (PText (str "Parsing Springfield locations...")) ;;;
         springfields <-
           lift (Springfield.parse_us_springfields_from_wikitext content) ;;
         print (PText (str "Found " ++ str_of_nat (List.length springfields)
                       ++ str " Springfield locations in US")) ;;;
         print (PText (str "Fetching coordinates...")) ;;;
         springfields_df <- Springfield.get_coordinates_batch springfields ;;
         print (PText (str "Successfully retrieved coordinates for "
                       ++ str_of_nat (List.length springfields_df)
                       ++ str " locations")) ;;;
         longitude <- lift (column springfields_df rp_longitude) ;;
         latitude <- lift (column springfields_df rp_latitude) ;;
         let geometry := combine longitude latitude in
         ret (make_geodataframe springfields_df geometry (str "EPSG:4326"))
     end) in
  fst ((print p ;;; rest) w) = fst ((print q ;;; rest) w)
  /\ fs (snd ((print p ;;; rest) w)) = fs (snd ((print q ;;; rest) w))
  /\ http_log (snd ((print p ;;; rest) w))
     = http_log (snd ((print q ;;; rest) w))
  /\ exists out,
      stdout (snd ((print p ;;; rest) w)) = stdout w ++ p :: out
      /\ stdout (snd ((print q ;;; rest) w)) = stdout w ++ q :: out.
Proof.
  intros rest.
  assert (Hrest : forall w1 w2,
             fs w1 = fs w2 -> may_write w1 = may_write w2 ->
             http_log w1 = http_log w2 ->
             fst (rest w1) = fst (rest w2)
             /\ fs (snd (rest w1)) = fs (snd (rest w2))
             /\ may_write (snd (rest w1)) = may_write (snd (rest w2))
             /\ http_log (snd (rest w1)) = http_log (snd (rest w2))
             /\ exists out, stdout (snd (rest w1)) = stdout w1 ++ out
                            /\ stdout (snd (rest w2)) = stdout w2 ++ out).
  { subst rest. apply bind_blind; [apply page_fetch_blind|].
    intros [content|]; [|intros; apply (pure_blind (Raise ValueError));
                          assumption].
    apply bind_blind; [apply print_blind|]. intros _.
    apply bind_blind; [intros; apply pure_blind; assumption|].
    intros springfields.
    apply bind_blind; [apply print_blind|]. intros _.
    apply bind_blind; [apply print_blind|]. intros _.
    apply bind_blind; [apply for_batches_blind|]. intros df.
    apply bind_blind; [apply print_blind|]. intros _.
    apply bind_blind; [intros; apply pure_blind; assumption|].
    intros longitude.
    apply bind_blind; [intros; apply pure_blind; assumption|].
    intros latitude w1 w2. cbv zeta. apply (pure_blind (Ok _)). }
  assert (Hp : (print p ;;; rest) w = rest (snd (print p w)))
    by reflexivity.
  assert (Hq : (print q ;;; rest) w = rest (snd (print q w)))
    by reflexivity.
  rewrite Hp, Hq.
  destruct (Hrest (snd (print p w)) (snd (print q w))
                  eq_refl eq_refl eq_refl)
    as (Hr & G1 & _ & G3 & out & Ho1 & Ho2).
  repeat split; try assumption.
  exists out. rewrite Ho1, Ho2. cbn [print snd stdout].
  rewrite <- !app_assoc. now split.
Qed.

End Printing.

(** X19: the general module called with the name Springfield does what the
    Springfield module does.  From the same world the two
    [create_*_geodataframe] end alike (the same GeoDataFrame or the same
    exception), issue the same requests and leave the same files; what they
    print differs in the first line only. *)
Theorem general_create_at_springfield :
  forall (E : Externals) (P : PageJson) (w : world),
    let general := GeneralPage.create_cities_geodataframe (str "Springfield") w in
    let special := SpringfieldPage.create_springfields_geodataframe w in
    fst general = fst special
    /\ http_log (snd general) = http_log (snd special)
    /\ fs (snd general) = fs (snd special)
    /\ exists out,
        stdout (snd general)
        = stdout w
          ++ PText (str "Fetching Springfield's disambiguation page...") :: out
        /\ stdout (snd special)
           = stdout w
             ++ PText (str "Fetching Springfield disambiguation page...") :: out.
Proof.
  intros E P w general special.
  destruct (create_after_first_line
              (PText (str "Fetching Springfield's disambiguation page..."))
              (PText (str "Fetching Springfield disambiguation page...")) w)
    as (Hresult & Hfs & Hlog & out & Hout).
  split; [exact Hresult|]. split; [exact Hlog|]. split; [exact Hfs|].
  exists out. exact Hout.
Qed.
